(** * si-engine: the request orchestration core of [sigoEngine.go]

    A shallow embedding of the circuit breaker, the retry loop, the session
    context builder and the provider adapter of [sigoEngine.go], and the
    properties the specification states about them.

    Conventions of the embedding.
    - A Go [string] is a [string] (a sequence of bytes).
    - A Go [int], [int64] or [time.Duration] is a [Z]; where the source
      computes with it, the 64-bit wrap-around is written out ([wrap64]).
    - A Go [error] is an [option string]: [None] is [nil], [Some msg] is a
      non-nil error whose [Error()] text is [msg].
    - A [time.Time] is a [Z]: nanoseconds since the zero [time.Time].
    - Code that reads the clock, sleeps or talks to the network is a function
      in the monad [M] over an explicit [World]. *)

From stdpp Require Import base numbers list strings gmap.
From Stdlib Require Import ZArith Lia Ascii.

Local Open Scope string_scope.
Local Open Scope list_scope.

(* ===================================================================== *)
(** * Part I: the embedding                                               *)
(* ===================================================================== *)

(** ** Strings *)

(** The line feed byte, and the two line feeds [buildPrompt] writes after
    every turn. *)
Definition LF : string := String (Ascii.ascii_of_nat 10) EmptyString.
Definition LFLF : string := LF +:+ LF.

(** [s == ""] on Go strings. *)
Definition isEmpty (s : string) : bool :=
  match s with EmptyString => true | String _ _ => false end.

(** ** Sessions (lines 50-59, 145-174) *)

Record Message := mkMessage { Role : string; Content : string }.

Record Session := mkSession { History : list Message }.

(** [&Session{}]: the history is the nil slice. *)
Definition emptySession : Session := {| History := [] |}.

(** [func (s *Session) addMessage(role, content string)], lines 145-152. The
    slice expression [s.History[len(s.History)-20:]] keeps the elements from
    index [len-20] on. *)
Definition addMessage (s : Session) (role content : string) : Session :=
  let h := History s ++ [{| Role := role; Content := content |}] in
  if (20 <? length h)%nat
  then {| History := drop (length h - 20) h |}
  else {| History := h |}.

(** [strings.Builder]: the bytes written so far. *)
Definition Builder := string.

Definition WriteString (b : Builder) (s : string) : Builder := b +:+ s.

(** One iteration of the [range s.History] loop of [buildPrompt], lines
    162-168. *)
Definition writeTurn (ctx : Builder) (msg : Message) : Builder :=
  let ctx :=
    if String.eqb (Role msg) "user"
    then WriteString ctx "Human: "
    else WriteString ctx "Assistant: " in
  let ctx := WriteString ctx (Content msg) in
  WriteString ctx LFLF.

(** [func (s *Session) buildPrompt(newPrompt string) string], lines 155-174. *)
Definition buildPrompt (s : Session) (newPrompt : string) : string :=
  if (length (History s) =? 0)%nat then newPrompt
  else
    let ctx := fold_left writeTurn (History s) EmptyString in
    let ctx := WriteString ctx "Human: " in
    let ctx := WriteString ctx newPrompt in
    ctx.

(** The rendering of section 4.4 of the specification, in its words: a turn
    is its role prefix, its content and two line feeds; the context is the
    turns in insertion order followed by the new prompt as a [Human] turn
    with nothing after it. *)
Definition specRolePrefix (role : string) : string :=
  if String.eqb role "user" then "Human: " else "Assistant: ".

Definition specTurn (m : Message) : string :=
  specRolePrefix (Role m) +:+ Content m +:+ LFLF.

Fixpoint specTurns (h : list Message) : string :=
  match h with
  | [] => EmptyString
  | m :: h' => specTurn m +:+ specTurns h'
  end.

Definition specPrompt (h : list Message) (newPrompt : string) : string :=
  match h with
  | [] => newPrompt
  | _ :: _ => specTurns h +:+ "Human: " +:+ newPrompt
  end.

(** ** Integers, durations and instants *)

Local Open Scope Z_scope.

(** Go's [int], [int64] and [time.Duration] are 64 bits wide and wrap. *)
Definition minInt64 : Z := - 2 ^ 63.
Definition maxInt64 : Z := 2 ^ 63 - 1.

Definition wrap64 (z : Z) : Z := ((z + 2 ^ 63) mod 2 ^ 64 - 2 ^ 63)%Z.

(** [time.Duration]: a count of nanoseconds. *)
Definition Duration := Z.

Definition Millisecond : Duration := 1000000.
Definition Second : Duration := 1000000000.
Definition Minute : Duration := (60 * Second)%Z.

(** [time.Time]: nanoseconds since the zero [time.Time] (1 January of the
    year 1, UTC), which is the value of a [time.Time] field that was never
    assigned. *)
Definition Time := Z.

Definition zeroTime : Time := 0%Z.

(** [t.Sub(u)]: the difference, saturated to the range of a [Duration]. *)
Definition Sub (t u : Time) : Duration :=
  Z.max minInt64 (Z.min maxInt64 (t - u)).

(** [t.Unix()]: whole seconds since 1 January 1970 UTC. *)
Definition unixEpoch : Z := 62135596800.
Definition Unix (t : Time) : Z := (t / Second - unixEpoch)%Z.

(** [error]: [None] is [nil]. *)
Definition error := option string.

(** ** Provider configuration and wire requests (lines 61-69, 208-251)

    The [Request] type of lines 34-38 is declared and never used. *)

(** [ProviderConfig]. The field [Type] is [ProviderType] here ([Type] is a
    keyword); [Headers] is the Go map, whose entries have no order. *)
Record ProviderConfig := mkProviderConfig {
  Endpoint : string;
  Model : string;
  APIKey : string;
  Headers : gmap string string;
  ProviderType : string
}.

(** The request body of lines 212-227: ["model"], ["messages"] (a slice of
    string maps, each given by its entries) and ["max_tokens"]. *)
Record RequestBody := mkRequestBody {
  bodyModel : string;
  bodyMessages : list (list (string * string));
  bodyMaxTokens : Z
}.

(** An [http.Request] as [callAPI] builds it. [Header] is the [http.Header]
    map; every name is set with [Set], so it has one value. *)
Record WireRequest := mkWireRequest {
  Method : string;
  URL : string;
  Body : RequestBody;
  Header : gmap string string
}.

(** The bytes of a header name that [net/textproto] takes as valid: the
    letters, the digits and [!#$%&'*+-.^_`|~]. *)
Definition validHeaderFieldByte (c : Ascii.ascii) : bool :=
  let n := Ascii.nat_of_ascii c in
  ((48 <=? n) && (n <=? 57))%nat
  || ((65 <=? n) && (n <=? 90))%nat
  || ((97 <=? n) && (n <=? 122))%nat
  || existsb (Nat.eqb n) [33; 35; 36; 37; 38; 39; 42; 43; 45; 46; 94; 95; 96;
                          124; 126]%nat.

Definition toUpper (c : Ascii.ascii) : Ascii.ascii :=
  let n := Ascii.nat_of_ascii c in
  if ((97 <=? n) && (n <=? 122))%nat then Ascii.ascii_of_nat (n - 32) else c.

Definition toLower (c : Ascii.ascii) : Ascii.ascii :=
  let n := Ascii.nat_of_ascii c in
  if ((65 <=? n) && (n <=? 90))%nat then Ascii.ascii_of_nat (n + 32) else c.

Fixpoint allBytes (p : Ascii.ascii -> bool) (s : string) : bool :=
  match s with
  | EmptyString => true
  | String c r => p c && allBytes p r
  end.

(** The first letter and every letter after a hyphen in upper case, the
    other letters in lower case. *)
Fixpoint canonicalFrom (upper : bool) (s : string) : string :=
  match s with
  | EmptyString => EmptyString
  | String c r =>
      String (if upper then toUpper c else toLower c)
        (canonicalFrom (Ascii.eqb c "-"%char) r)
  end.

(** [textproto.CanonicalMIMEHeaderKey]: a name with a space or another
    invalid byte is returned as it is. *)
Definition CanonicalMIMEHeaderKey (s : string) : string :=
  if allBytes validHeaderFieldByte s then canonicalFrom true s else s.

(** [req.Header.Set(k, v)]: the name is made canonical, and its value is
    replaced. *)
Definition HeaderSet (k v : string) (h : gmap string string)
  : gmap string string :=
  <[CanonicalMIMEHeaderKey k := v]> h.

(** The entries of a Go map in the order a [range] loop visits them. The
    order is not specified and may differ from one loop to the next:
    [seed] stands for the choices of the runtime. Every seed gives an
    order of the entries, and every order is that of some seed
    ([rangeOver_Permutation], [rangeOver_any]). *)
Fixpoint pickOrder {A : Type} (n : nat) (seed : nat -> nat) (l : list A)
  : list A :=
  match n with
  | O => []
  | Datatypes.S n =>
      let i := (seed n mod length l)%nat in
      match l !! i with
      | Some x => x :: pickOrder n seed (delete i l)
      | None => []
      end
  end.

Definition rangeOver (seed : nat -> nat) (m : gmap string string)
  : list (string * string) :=
  pickOrder (size m) seed (map_to_list m).

(** ** The world outside the process *)

(** What the process did that is visible from outside, in order. *)
Inductive Event :=
| EvCall (t : Time)
    (** a scripted operation (see [scripted]) was entered at [t] *)
| EvSend (t : Time) (req : WireRequest)
    (** [client.Do] handed [req] to the network at [t] *)
| EvDone (t : Time)
    (** the exchange of the last request ended at [t]: [client.Do] returned
        an error, or the body of the response was read ([io.ReadAll]
        returned) *)
| EvSleep (t : Time) (d : Duration)
    (** [time.Sleep d] started at [t] *).

(** The clock, the events so far, and the session files under [.sessions/]
    (a file is given by the session its JSON decodes to; a path that is not
    bound is a file that cannot be read). *)
Record World := mkWorld {
  clock : Time;
  trace : list Event;
  files : gmap string Session
}.

Definition isCall (e : Event) : bool :=
  match e with EvCall _ => true | _ => false end.

Definition isSend (e : Event) : bool :=
  match e with EvSend _ _ => true | _ => false end.

(** How often the operation was invoked, and how many requests reached the
    network. *)
Definition calls (w : World) : nat := length (List.filter isCall (trace w)).
Definition sends (w : World) : nat := length (List.filter isSend (trace w)).

(** ** The monad of effectful code

    A computation either returns or panics; either way it leaves a world. *)
Inductive Outcome (A : Type) :=
| Ret (a : A)
| Panic (msg : string).

Arguments Ret {A} a.
Arguments Panic {A} msg.

Definition M (A : Type) : Type := World -> Outcome A * World.

Definition ret {A} (a : A) : M A := fun w => (Ret a, w).

Definition bind {A B} (m : M A) (k : A -> M B) : M B :=
  fun w =>
    match m w with
    | (Ret a, w') => k a w'
    | (Panic msg, w') => (Panic msg, w')
    end.

Notation "'let*' x ':=' c1 'in' c2" := (bind c1 (fun x => c2))
  (at level 10, x pattern, c1 at level 100, c2 at level 200, only parsing).

(** [time.Now()]. *)
Definition Now : M Time := fun w => (Ret (clock w), w).

(** [time.Sleep(d)]: returns at once when [d <= 0], and otherwise when [d]
    has passed. *)
Definition Sleep (d : Duration) : M unit :=
  fun w =>
    (Ret tt,
     {| clock := if (d <=? 0)%Z then clock w else (clock w + d)%Z;
        trace := trace w ++ [EvSleep (clock w) d];
        files := files w |}).

(** [time.Since(t)]. *)
Definition Since (t : Time) : M Duration :=
  let* now := Now in ret (Sub now t).

(** ** Circuit breaker (lines 71-111) *)

(** [CircuitBreaker]. The mutex [mu] serialises [Do]; the embedding is of
    one goroutine, where locking and unlocking change nothing. *)
Record CircuitBreaker := mkCircuitBreaker {
  failures : Z;
  lastFail : Time;
  threshold : Z;
  timeout : Duration
}.

(** [func NewCircuitBreaker() *CircuitBreaker], lines 82-87: the fields that
    are not named get their zero values. *)
Definition NewCircuitBreaker : CircuitBreaker :=
  {| failures := 0; lastFail := zeroTime; threshold := 3;
     timeout := (5 * Minute)%Z |}.

Definition setFailures (cb : CircuitBreaker) (n : Z) : CircuitBreaker :=
  {| failures := n; lastFail := lastFail cb; threshold := threshold cb;
     timeout := timeout cb |}.

Definition setLastFail (cb : CircuitBreaker) (t : Time) : CircuitBreaker :=
  {| failures := failures cb; lastFail := t; threshold := threshold cb;
     timeout := timeout cb |}.

(** Lines 102-110 of [Do]: the call of [fn] and the update of the breaker
    from its result. [fn] is a closure: [S] is the type of the variables it
    captures and assigns, passed in and out. *)
Definition invoke {S : Type} (cb : CircuitBreaker) (fn : S -> M (error * S))
    (s : S) : M (error * CircuitBreaker * S) :=
  let* (err, s) := fn s in
  match err with
  | Some _ =>
      let cb := setFailures cb (wrap64 (failures cb + 1)) in
      let* now := Now in
      ret (err, setLastFail cb now, s)
  | None => ret (err, setFailures cb 0, s)
  end.

(** [func (cb *CircuitBreaker) Do(fn func() error) error], lines 90-111.
    The result is the returned error, the breaker after the call, and the
    variables [fn] captures. *)
Definition Do {S : Type} (cb : CircuitBreaker) (fn : S -> M (error * S))
    (s : S) : M (error * CircuitBreaker * S) :=
  let* since := Since (lastFail cb) in
  let cb := if timeout cb <? since then setFailures cb 0 else cb in
  if threshold cb <=? failures cb
  then ret (Some "circuit open", cb, s)
  else invoke cb fn s.

(** ** Decoded JSON

    What [json.Unmarshal] stores in an [interface{}]: [nil], a [bool], a
    [float64] (kept as the literal it was read from), a [string], a
    [[]interface{}] or a [map[string]interface{}]. *)
#[local] Set Warnings "-register-all".
Inductive JSON :=
| JNull
| JBool (b : bool)
| JNumber (literal : string)
| JString (s : string)
| JArray (elements : list JSON)
| JObject (members : gmap string JSON).
#[local] Set Warnings "register-all".

(** The dynamic type of a value, as a failed type assertion names it. *)
Definition goTypeName (v : JSON) : string :=
  match v with
  | JNull => "nil"
  | JBool _ => "bool"
  | JNumber _ => "float64"
  | JString _ => "string"
  | JArray _ => "[]interface {}"
  | JObject _ => "map[string]interface {}"
  end.

(** The panic of [v.(map[string]interface{})] when [v] is no map. *)
Definition notAMap (v : JSON) : string :=
  "interface conversion: interface {} is " +:+ goTypeName v
  +:+ ", not map[string]interface {}".

(** ** What the code takes from its libraries and its surroundings

    The standard library and the network are not part of the repository;
    the embedding takes them as an environment. *)
Inductive NetReply :=
| NetResponse (pieces : list (Duration * string))
    (** the status line and the headers of a response arrived; its body
        follows in pieces, each a while after the one before it (the first
        after the headers), and ends or breaks off with the last one *)
| NetError (msg : string)
    (** the transport failed *).

Record Env := mkEnv {
  (** [os.Getpid()] *)
  Getpid : Z;
  (** [json.Unmarshal(body, &result)] for [result] a nil
      [map[string]interface{}]: the map on success (the empty map for the
      body [null]), or the text of the error *)
  Unmarshal : string -> gmap string JSON + string;
  (** [fmt]'s [%v] of a number, a slice or a map *)
  verbV : JSON -> string;
  (** the error of [http.NewRequestWithContext] for a URL, [None] when the
      URL parses *)
  NewRequestError : string -> error;
  (** the remote end: what the [k]-th request handed to the network, sent
      at [t], is answered with, and how long it takes until [client.Do] has
      the headers of the response (or the failure of the transport) when
      nothing cuts it short *)
  exchange : nat -> WireRequest -> Time -> NetReply * Duration;
  (** the text of the error [client.Do] returns when the context's deadline
      or the client's timeout ends the exchange *)
  deadlineError : WireRequest -> string;
  (** the choices of the runtime for the [range] over [cfg.Headers] of the
      call of [callAPI] that [k] requests went before *)
  rangeSeed : nat -> nat -> nat;
  (** [json.Marshal(s)] for a [Session]; it does not fail, and it is lossy:
      bytes that are not valid UTF-8 are replaced *)
  MarshalSession : Session -> string;
  (** [json.Unmarshal(data, &s)] for a zero [Session] [s], its error
      dropped: the value of [s] afterwards *)
  UnmarshalSession : string -> Session;
  (** [os.WriteFile(path, data, 0644)] after [os.MkdirAll(".sessions",
      0755)]: the bytes the file holds afterwards (all of [data] when the
      write succeeds), or [None] when the file is not created or opened, as
      when the directory of [path] does not exist *)
  WriteFile : string -> string -> option string
}.

(** [fmt.Sprintf("%v", v)] for [v] the value of a map lookup ([None]: the
    key is absent, so [v] is the nil interface). *)
Definition Sprintv (env : Env) (v : option JSON) : string :=
  match v with
  | None => "<nil>"
  | Some JNull => "<nil>"
  | Some (JString s) => s
  | Some (JBool true) => "true"
  | Some (JBool false) => "false"
  | Some v => verbV env v
  end.

(** ** Contexts and the HTTP client *)

(** A [context.Context] derived from [context.Background()] with a
    deadline. *)
Record Context := mkContext { Deadline : Time }.

(** [context.WithTimeout(context.Background(), d)]. *)
Definition WithTimeout (d : Duration) : M Context :=
  let* now := Now in ret {| Deadline := now + d |}.

(** [http.Client{Timeout: 30 * time.Second}], line 206. *)
Definition clientTimeout : Duration := 30 * Second.

(** An [http.Response] as [callAPI] uses it: the pieces of the body that
    are still to come, and the instant at which reading it is cut short. *)
Record HttpResponse := mkHttpResponse {
  bodyPieces : list (Duration * string);
  readLimit : Time
}.

(** [client.Do(req)] for a request made with [ctx]: the response, or the
    text of the error. [net/http] is not part of the repository; this is
    what its documentation says of a request with a context and of
    [Client.Timeout]: a context that is already done fails the call before
    anything is sent; [Do] returns when the headers of the response are
    there, or with an error at the context's deadline or the client's
    timeout, whichever is first; and both go on to limit the reading of the
    body. *)
Definition clientDo (env : Env) (ctx : Context) (req : WireRequest)
  : M (HttpResponse + string) :=
  fun w =>
    let t := clock w in
    if Deadline ctx <=? t then (Ret (inr (deadlineError env req)), w)
    else
      let '(reply, d) := exchange env (sends w) req t in
      let limit := Z.min (Deadline ctx) (t + clientTimeout) in
      let sent := trace w ++ [EvSend t req] in
      if limit <? t + Z.max 0 d
      then (Ret (inr (deadlineError env req)),
            {| clock := limit; trace := sent ++ [EvDone limit];
               files := files w |})
      else
        match reply with
        | NetError msg =>
            (Ret (inr msg),
             {| clock := t + Z.max 0 d;
                trace := sent ++ [EvDone (t + Z.max 0 d)];
                files := files w |})
        | NetResponse pieces =>
            (Ret (inl {| bodyPieces := pieces; readLimit := limit |}),
             {| clock := t + Z.max 0 d; trace := sent; files := files w |})
        end.

(** Reading a body from the instant [t] on: the bytes of the pieces that
    arrive by [limit], and the instant the reading ends, which is [limit]
    when a piece is still missing then. *)
Fixpoint readPieces (limit t : Time) (pieces : list (Duration * string))
  : string * Time :=
  match pieces with
  | [] => (EmptyString, t)
  | (d, bytes) :: rest =>
      let t' := t + Z.max 0 d in
      if limit <? t' then (EmptyString, limit)
      else
        let '(more, done) := readPieces limit t' rest in
        (bytes +:+ more, done)
  end.

(** [body, _ := io.ReadAll(resp.Body)], line 260. [io.ReadAll] returns the
    bytes it has read also when the reading fails, and its error is
    dropped: a body that is cut short is taken as it is. *)
Definition ReadAll (resp : HttpResponse) : M string :=
  fun w =>
    let '(body, done) :=
      readPieces (readLimit resp) (clock w) (bodyPieces resp) in
    (Ret body,
     {| clock := done; trace := trace w ++ [EvDone done];
        files := files w |}).

(** ** The provider adapter: [callAPI] (lines 205-291) *)

(** The [switch cfg.Type] of lines 210-231: the request body, or [None] in
    the [default] case. *)
Definition requestBody (cfg : ProviderConfig) (prompt : string)
    (maxTokens : Z) : option RequestBody :=
  if String.eqb (ProviderType cfg) "anthropic" then
    Some {| bodyModel := Model cfg;
            bodyMessages := [[("role", "user"); ("content", prompt)]];
            bodyMaxTokens := maxTokens |}
  else if String.eqb (ProviderType cfg) "openai"
          || String.eqb (ProviderType cfg) EmptyString then
    Some {| bodyModel := Model cfg;
            bodyMessages := [[("role", "user"); ("content", prompt)]];
            bodyMaxTokens := maxTokens |}
  else None.

(** Lines 239-251: the headers, for the entries of [cfg.Headers] in the
    order [visited] in which the loop of line 249 comes to them. *)
Definition requestHeader (cfg : ProviderConfig)
    (visited : list (string * string)) : gmap string string :=
  let h := HeaderSet "Content-Type" "application/json" ∅ in
  let h :=
    if String.eqb (ProviderType cfg) "anthropic"
    then HeaderSet "anthropic-version" "2023-06-01"
           (HeaderSet "x-api-key" (APIKey cfg) h)
    else HeaderSet "Authorization" ("Bearer " +:+ APIKey cfg) h in
  fold_left (fun h kv => HeaderSet (fst kv) (snd kv) h) visited h.

(** Lines 234-251: the request [http.NewRequestWithContext] returns, with
    its headers set. *)
Definition newRequest (cfg : ProviderConfig) (reqBody : RequestBody)
    (visited : list (string * string)) : WireRequest :=
  {| Method := "POST"; URL := Endpoint cfg; Body := reqBody;
     Header := requestHeader cfg visited |}.

(** The order of the [range] over [cfg.Headers] in a call of [callAPI] that
    starts in the world [w]. *)
Definition visitedIn (env : Env) (cfg : ProviderConfig) (w : World)
  : list (string * string) :=
  rangeOver (rangeSeed env (sends w)) (Headers cfg).

Definition rangeHeaders (env : Env) (cfg : ProviderConfig)
  : M (list (string * string)) :=
  fun w => (Ret (visitedIn env cfg w), w).

(** Lines 268-290: the text or the error in the decoded response. The type
    assertions of lines 273 and 282 on the first element are of the form
    that panics. *)
Definition extractResponse (env : Env) (cfg : ProviderConfig)
    (result : gmap string JSON) : Outcome (string * error) :=
  let unexpected := Ret (EmptyString, Some "unexpected response format") in
  if String.eqb (ProviderType cfg) "anthropic" then
    match result !! "error" with
    | Some (JObject errMsg) =>
        Ret (EmptyString, Some (Sprintv env (errMsg !! "message")))
    | _ =>
        match result !! "content" with
        | Some (JArray (first :: _)) =>
            match first with
            | JObject block =>
                match block !! "text" with
                | Some (JString text) => Ret (text, None)
                | _ => unexpected
                end
            | _ => Panic (notAMap first)
            end
        | _ => unexpected
        end
    end
  else
    match result !! "error" with
    | Some (JObject errMsg) =>
        Ret (EmptyString, Some (Sprintv env (errMsg !! "message")))
    | _ =>
        match result !! "choices" with
        | Some (JArray (first :: _)) =>
            match first with
            | JObject choice =>
                match choice !! "message" with
                | Some (JObject msg) =>
                    match msg !! "content" with
                    | Some (JString content) => Ret (content, None)
                    | _ => unexpected
                    end
                | _ => unexpected
                end
            | _ => Panic (notAMap first)
            end
        | _ => unexpected
        end
    end.

(** Lines 262-290: what [callAPI] makes of the body of a response. *)
Definition parseWireResponse (env : Env) (cfg : ProviderConfig)
    (body : string) : Outcome (string * error) :=
  match Unmarshal env body with
  | inr e => Ret (EmptyString, Some ("parse error: " +:+ e))
  | inl result => extractResponse env cfg result
  end.

(** [func callAPI(ctx, cfg, prompt, maxTokens) (string, error)]. *)
Definition callAPI (env : Env) (ctx : Context) (cfg : ProviderConfig)
    (prompt : string) (maxTokens : Z) : M (string * error) :=
  match requestBody cfg prompt maxTokens with
  | None =>
      ret (EmptyString, Some ("unknown provider type: " +:+ ProviderType cfg))
  | Some reqBody =>
      match NewRequestError env (Endpoint cfg) with
      | Some e => ret (EmptyString, Some e)
      | None =>
          let* visited := rangeHeaders env cfg in
          let req := newRequest cfg reqBody visited in
          let* r := clientDo env ctx req in
          match r with
          | inr e => ret (EmptyString, Some e)
          | inl resp =>
              let* body := ReadAll resp in
              fun w => (parseWireResponse env cfg body, w)
          end
      end
  end.

(** ** Session files (lines 115-142) *)

(** [fmt.Sprintf(".sessions/%s-%s.json", model, sessionID)]. *)
Definition sessionPath (sessionID model : string) : string :=
  ".sessions/" +:+ model +:+ "-" +:+ sessionID +:+ ".json".

(** [func loadSession(sessionID, model string) *Session]. *)
Definition loadSession (sessionID model : string) : M Session :=
  fun w =>
    if isEmpty sessionID then (Ret emptySession, w)
    else
      match files w !! sessionPath sessionID model with
      | None => (Ret emptySession, w)
      | Some s => (Ret s, w)
      end.

(** [func (s *Session) save(sessionID, model string)]. The errors of
    [os.MkdirAll] and [os.WriteFile] are dropped: [save] returns in the same
    way whether the file was written or not. A file is given by the session
    its bytes decode to, so a write binds the path to the decoding of what
    was written. *)
Definition save (env : Env) (s : Session) (sessionID model : string)
  : M unit :=
  fun w =>
    if isEmpty sessionID then (Ret tt, w)
    else
      let path := sessionPath sessionID model in
      let data := MarshalSession env s in
      match WriteFile env path data with
      | Some written =>
          (Ret tt,
           {| clock := clock w; trace := trace w;
              files := <[path := UnmarshalSession env written]> (files w) |})
      | None => (Ret tt, w)
      end.

(** ** The orchestrator: [main] from line 400 on *)

(** The [Response] record of lines 40-48, with the source's field names. *)
Module Response.
Record t := mk {
  Model : string;
  PID : Z;
  Timestamp : Z;
  Prompt : string;
  Response : string;
  Error : string;
  Duration : Z
}.

Definition setResponse (r : t) (text : string) : t :=
  {| Model := Model r; PID := PID r; Timestamp := Timestamp r;
     Prompt := Prompt r; Response := text; Error := Error r;
     Duration := Duration r |}.

Definition setError (r : t) (text : string) : t :=
  {| Model := Model r; PID := PID r; Timestamp := Timestamp r;
     Prompt := Prompt r; Response := Response r; Error := text;
     Duration := Duration r |}.

Definition setDuration (r : t) (d : Z) : t :=
  {| Model := Model r; PID := PID r; Timestamp := Timestamp r;
     Prompt := Prompt r; Response := Response r; Error := Error r;
     Duration := d |}.
End Response.

(** The flags of lines 367-376 that [main] reads after line 400. *)
Module Flags.
Record t := mk {
  model : string;
  sessionID : string;
  maxTokens : Z;
  timeout : Z;
  retries : Z;
  quiet : bool;
  jsonOut : bool
}.
End Flags.

(** What was written to standard output: the bytes of a [fmt.Println], or
    the record handed to [json.NewEncoder(os.Stdout).Encode]. *)
Inductive Written :=
| Printed (bytes : string)
| Encoded (resp : Response.t).

(** A line of [logError]: the process id and the formatted message. *)
Inductive Logged :=
| LogError (pid : Z) (msg : string).

(** What a run that ends without a panic leaves behind. A panic of the run
    is the [Panic] outcome of [main]. *)
Record Run := mkRun {
  resp : Response.t;
  session : Session;
  stdout : list Written;
  stderr : list Logged;
  exitCode : Z
}.

(** The signature of [callAPI], for the operation the retry loop wraps. *)
Definition API : Type :=
  Context -> ProviderConfig -> string -> Z -> M (string * error).

(** The closure of lines 422-429. It captures [resp] and assigns
    [resp.Response]. *)
Definition attempt (api : API) (ctx : Context) (cfg : ProviderConfig)
    (contextPrompt : string) (maxTokens : Z) (resp : Response.t)
  : M (error * Response.t) :=
  let* (result, err) := api ctx cfg contextPrompt maxTokens in
  match err with
  | Some _ => ret (err, resp)
  | None => ret (None, Response.setResponse resp result)
  end.

(** The loop of lines 421-439, from the test [i < *retries] on. Every
    iteration but the last one increments [i], so [retries - i] iterations
    are enough: [fuel] counts them down, and [retryLoop_fuel] shows that
    it never runs out before the test fails. In the body [i < retries], so
    neither [i + 1] nor [retries - 1] wraps; the product of line 437 may. *)
Fixpoint retryLoop (fuel : nat) (fn : Response.t -> M (error * Response.t))
    (retries i : Z) (breaker : CircuitBreaker) (resp : Response.t)
    (lastErr : error) : M (CircuitBreaker * Response.t * error) :=
  if i <? retries then
    match fuel with
    | O => ret (breaker, resp, lastErr)
    | S fuel =>
        let* (err, breaker, resp) := Do breaker fn resp in
        match err with
        | None => ret (breaker, resp, lastErr)
        | Some _ =>
            let lastErr := err in
            let* _ :=
              if i <? retries - 1
              then Sleep (wrap64 ((i + 1) * Second))
              else ret tt in
            retryLoop fuel fn retries (i + 1) breaker resp lastErr
        end
    end
  else ret (breaker, resp, lastErr).

(** Lines 454-469: what is written, and the exit status. *)
Definition output (env : Env) (flags : Flags.t) (resp : Response.t)
  : list Written * list Logged * Z :=
  if Flags.jsonOut flags then
    ([Encoded resp], [],
     if isEmpty (Response.Error resp) then 0 else 1)
  else if isEmpty (Response.Error resp) then
    ([Printed (Response.Response resp +:+ LF)], [], 0)
  else
    ([],
     if Flags.quiet flags then []
     else [LogError (Getpid env) (Response.Error resp)],
     1).

(** Lines 408-412: the record before the first attempt; the fields that are
    not assigned are empty. *)
Definition startResponse (env : Env) (flags : Flags.t) (prompt : string)
    (stamp : Time) : Response.t :=
  {| Response.Model := Flags.model flags;
     Response.PID := Getpid env;
     Response.Timestamp := Unix stamp;
     Response.Prompt := prompt;
     Response.Response := EmptyString;
     Response.Error := EmptyString;
     Response.Duration := 0 |}.

(** Lines 441-469 of [main]: the error and the duration are filled in, the
    session is updated and saved, the outcome is written. *)
Definition finish (env : Env) (flags : Flags.t) (prompt : string)
    (session : Session) (start : Time) (resp : Response.t) (lastErr : error)
  : M Run :=
  let resp :=
    match lastErr with
    | Some msg => Response.setError resp msg
    | None => resp
    end in
  let* elapsed := Since start in
  let resp := Response.setDuration resp (Z.quot elapsed Millisecond) in
  let* session :=
    if isEmpty (Response.Error resp) && negb (isEmpty (Flags.sessionID flags))
    then
      let session := addMessage session "user" prompt in
      let session := addMessage session "assistant" (Response.Response resp) in
      let* _ := save env session (Flags.sessionID flags) (Flags.model flags) in
      ret session
    else ret session in
  let '(out, err, code) := output env flags resp in
  ret {| resp := resp; session := session; stdout := out; stderr := err;
         exitCode := code |}.

(** [main], lines 400-469, for the configuration [cfg] that [loadConfig]
    returned and the prompt that [getInput] returned, with [api] where the
    source has [callAPI]. *)
Definition mainWith (api : API) (env : Env) (flags : Flags.t)
    (cfg : ProviderConfig) (prompt : string) : M Run :=
  let* session := loadSession (Flags.sessionID flags) (Flags.model flags) in
  let contextPrompt := buildPrompt session prompt in
  let breaker := NewCircuitBreaker in
  let* stamp := Now in
  let resp := startResponse env flags prompt stamp in
  let* start := Now in
  let* ctx := WithTimeout (wrap64 (Flags.timeout flags * Second)) in
  let* (_, resp, lastErr) :=
    retryLoop (Z.to_nat (Flags.retries flags))
      (attempt api ctx cfg contextPrompt (Flags.maxTokens flags))
      (Flags.retries flags) 0 breaker resp None in
  finish env flags prompt session start resp lastErr.

Definition main (env : Env) : Flags.t -> ProviderConfig -> string -> M Run :=
  mainWith (callAPI env) env.

(** ** Scripted operations

    An operation as a test of the retry loop gives it: what its [k]-th
    invocation (from 0), entered at [t], returns, and how long it takes.
    Every invocation is recorded as an [EvCall]. *)
Definition Script : Type := nat -> Time -> (string * error) * Duration.

Definition scripted (script : Script) : M (string * error) :=
  fun w =>
    let '(r, d) := script (calls w) (clock w) in
    (Ret r,
     {| clock := clock w + Z.max 0 d;
        trace := trace w ++ [EvCall (clock w)];
        files := files w |}).

Definition scriptedAPI (script : Script) : API :=
  fun _ _ _ _ => scripted script.

(** The operation fails on its first [n] invocations, then succeeds with
    [text]. *)
Definition failsThenSucceeds (script : Script) (n : nat) (text : string)
  : Prop :=
  (forall k t, (k < n)%nat -> snd (fst (script k t)) <> None) /\
  (forall t, fst (script n t) = (text, None)).

(** ** Notions the statements use *)

(** The session [main] starts from in the world [w]. *)
Definition loaded (flags : Flags.t) (w : World) : Session :=
  if isEmpty (Flags.sessionID flags) then emptySession
  else
    match files w !! sessionPath (Flags.sessionID flags) (Flags.model flags) with
    | None => emptySession
    | Some s => s
    end.

(** The context [main] makes in the world [w] (line 416). *)
Definition mainContext (flags : Flags.t) (w : World) : Context :=
  {| Deadline := clock w + wrap64 (Flags.timeout flags * Second) |}.

(** The closure [main] hands to the breaker when it starts in [w]. *)
Definition mainAttempt (api : API) (flags : Flags.t) (cfg : ProviderConfig)
    (prompt : string) (w : World) : Response.t -> M (error * Response.t) :=
  attempt api (mainContext flags w) cfg (buildPrompt (loaded flags w) prompt)
    (Flags.maxTokens flags).

(** The record [finish] reports. *)
Definition reported (resp : Response.t) (lastErr : error) (start now : Time)
  : Response.t :=
  Response.setDuration
    (match lastErr with
     | Some msg => Response.setError resp msg
     | None => resp
     end)
    (Z.quot (Sub now start) Millisecond).

(** The claim that a deadline [D] governs an event: a request is sent
    before it, an exchange ends by it, a sleep ends by it. *)
Definition governed (D : Time) (e : Event) : Prop :=
  match e with
  | EvCall _ => True
  | EvSend t _ => t < D
  | EvDone t => t <= D
  | EvSleep t d => t + Z.max 0 d <= D
  end.

(** The same for requests and exchanges only. *)
Definition exchangeGoverned (D : Time) (e : Event) : Prop :=
  match e with
  | EvSend t _ => t < D
  | EvDone t => t <= D
  | EvCall _ | EvSleep _ _ => True
  end.

(** Every request and exchange of the world so far is governed by [D]. *)
Definition exchangesGoverned (D : Time) (w : World) : Prop :=
  Forall (exchangeGoverned D) (trace w).

(** [m] keeps [Q] of the world, whether it returns or panics. *)
Definition preserves {A : Type} (Q : World -> Prop) (m : M A) : Prop :=
  forall w, Q w -> Q (snd (m w)).

(** The world with the file [path] written. *)
Definition withFile (path : string) (s : Session) (w : World) : World :=
  {| clock := clock w; trace := trace w; files := <[path := s]> (files w) |}.

(** The world [save] leaves for a session id that is not empty. *)
Definition afterSave (env : Env) (path : string) (s : Session) (w : World)
  : World :=
  match WriteFile env path (MarshalSession env s) with
  | Some written => withFile path (UnmarshalSession env written) w
  | None => w
  end.

(** The world a scripted invocation leaves. *)
Definition afterCall (script : Script) (w : World) : World :=
  {| clock := clock w + Z.max 0 (snd (script (calls w) (clock w)));
     trace := trace w ++ [EvCall (clock w)];
     files := files w |}.

(** The world a sleep leaves. *)
Definition afterSleep (d : Duration) (w : World) : World :=
  {| clock := if d <=? 0 then clock w else clock w + d;
     trace := trace w ++ [EvSleep (clock w) d];
     files := files w |}.

(** The world an exchange leaves that sent [req] and ended at [done]. *)
Definition exchanged (req : WireRequest) (done : Time) (w : World) : World :=
  {| clock := done;
     trace := trace w ++ [EvSend (clock w) req; EvDone done];
     files := files w |}.

(** The time the pieces of a body take to arrive, and their bytes. *)
Fixpoint delayOf (pieces : list (Duration * string)) : Duration :=
  match pieces with
  | [] => 0
  | (d, _) :: rest => Z.max 0 d + delayOf rest
  end.

Fixpoint bytesOf (pieces : list (Duration * string)) : string :=
  match pieces with
  | [] => EmptyString
  | (_, bytes) :: rest => bytes +:+ bytesOf rest
  end.

(** The instant that ends an exchange started at [t] under [ctx]. *)
Definition exchangeLimit (ctx : Context) (t : Time) : Time :=
  Z.min (Deadline ctx) (t + clientTimeout).

(** ** A small JSON decoder

    [encoding/json] is not part of the repository, and the properties below
    hold for every decoder ([Unmarshal] of the environment). To run the code
    on the bodies the specification names, [miniUnmarshal] decodes the JSON
    texts that have no escape sequence in their strings; it keeps the
    literal of a number as it stands. *)
Definition quoteChar : Ascii.ascii := Ascii.ascii_of_nat 34.
Definition backslashChar : Ascii.ascii := Ascii.ascii_of_nat 92.

(** A JSON text written with apostrophes for its double quotes. *)
Fixpoint jsonText (s : string) : string :=
  match s with
  | EmptyString => EmptyString
  | String c r =>
      String (if Ascii.eqb c "'"%char then quoteChar else c) (jsonText r)
  end.

Definition isSpace (c : Ascii.ascii) : bool :=
  Ascii.eqb c " "%char || Ascii.eqb c (Ascii.ascii_of_nat 9)
  || Ascii.eqb c (Ascii.ascii_of_nat 10) || Ascii.eqb c (Ascii.ascii_of_nat 13).

Fixpoint skipSpace (s : string) : string :=
  match s with
  | String c r => if isSpace c then skipSpace r else s
  | EmptyString => s
  end.

(** The characters of a string up to its closing quote, and the rest. *)
Fixpoint readString (s : string) : option (string * string) :=
  match s with
  | EmptyString => None
  | String c r =>
      if Ascii.eqb c quoteChar then Some (EmptyString, r)
      else if Ascii.eqb c backslashChar then None
      else
        match readString r with
        | Some (x, r') => Some (String c x, r')
        | None => None
        end
  end.

Definition isNumberChar (c : Ascii.ascii) : bool :=
  let n := Ascii.nat_of_ascii c in
  ((48 <=? n) && (n <=? 57))%nat
  || Ascii.eqb c "-"%char || Ascii.eqb c "+"%char || Ascii.eqb c "."%char
  || Ascii.eqb c "e"%char || Ascii.eqb c "E"%char.

Fixpoint readNumber (s : string) : string * string :=
  match s with
  | String c r =>
      if isNumberChar c
      then let '(x, r') := readNumber r in (String c x, r')
      else (EmptyString, s)
  | EmptyString => (EmptyString, s)
  end.

(** [s] without the prefix [p], when it starts with it. *)
Fixpoint stripPrefix (p s : string) : option string :=
  match p, s with
  | EmptyString, _ => Some s
  | String a p', String b s' =>
      if Ascii.eqb a b then stripPrefix p' s' else None
  | String _ _, EmptyString => None
  end.

Fixpoint readValue (fuel : nat) (s : string) : option (JSON * string) :=
  match fuel with
  | O => None
  | S fuel =>
      match skipSpace s with
      | EmptyString => None
      | String c r =>
          if Ascii.eqb c "{"%char then
            match skipSpace r with
            | String d r' =>
                if Ascii.eqb d "}"%char then Some (JObject ∅, r')
                else
                  match readMembers fuel (skipSpace r) ∅ with
                  | Some (m, rest) => Some (JObject m, rest)
                  | None => None
                  end
            | EmptyString => None
            end
          else if Ascii.eqb c "["%char then
            match skipSpace r with
            | String d r' =>
                if Ascii.eqb d "]"%char then Some (JArray [], r')
                else
                  match readElements fuel (skipSpace r) with
                  | Some (l, rest) => Some (JArray l, rest)
                  | None => None
                  end
            | EmptyString => None
            end
          else if Ascii.eqb c quoteChar then
            match readString r with
            | Some (x, rest) => Some (JString x, rest)
            | None => None
            end
          else if isNumberChar c then
            let '(x, rest) := readNumber (String c r) in
            Some (JNumber x, rest)
          else
            match stripPrefix "true" (String c r) with
            | Some rest => Some (JBool true, rest)
            | None =>
                match stripPrefix "false" (String c r) with
                | Some rest => Some (JBool false, rest)
                | None =>
                    match stripPrefix "null" (String c r) with
                    | Some rest => Some (JNull, rest)
                    | None => None
                    end
                end
            end
      end
  end
with readMembers (fuel : nat) (s : string) (acc : gmap string JSON)
  : option (gmap string JSON * string) :=
  match fuel with
  | O => None
  | S fuel =>
      match s with
      | String c r =>
          if Ascii.eqb c quoteChar then
            match readString r with
            | Some (key, rest) =>
                match skipSpace rest with
                | String colon rest =>
                    if Ascii.eqb colon ":"%char then
                      match readValue fuel rest with
                      | Some (v, rest) =>
                          let acc := <[key := v]> acc in
                          match skipSpace rest with
                          | String d rest =>
                              if Ascii.eqb d ","%char
                              then readMembers fuel (skipSpace rest) acc
                              else if Ascii.eqb d "}"%char
                              then Some (acc, rest)
                              else None
                          | EmptyString => None
                          end
                      | None => None
                      end
                    else None
                | EmptyString => None
                end
            | None => None
            end
          else None
      | EmptyString => None
      end
  end
with readElements (fuel : nat) (s : string) : option (list JSON * string) :=
  match fuel with
  | O => None
  | S fuel =>
      match readValue fuel s with
      | Some (v, rest) =>
          match skipSpace rest with
          | String d rest =>
              if Ascii.eqb d ","%char then
                match readElements fuel rest with
                | Some (l, rest) => Some (v :: l, rest)
                | None => None
                end
              else if Ascii.eqb d "]"%char then Some ([v], rest)
              else None
          | EmptyString => None
          end
      | None => None
      end
  end.

Definition jsonKind (v : JSON) : string :=
  match v with
  | JNull => "null"
  | JBool _ => "bool"
  | JNumber _ => "number"
  | JString _ => "string"
  | JArray _ => "array"
  | JObject _ => "object"
  end.

Definition miniUnmarshal (body : string) : gmap string JSON + string :=
  match readValue (S (String.length body)) body with
  | Some (v, rest) =>
      match skipSpace rest with
      | EmptyString =>
          match v with
          | JObject m => inl m
          | JNull => inl ∅
          | _ =>
              inr ("json: cannot unmarshal " +:+ jsonKind v
                   +:+ " into Go value of type map[string]interface {}")
          end
      | String _ _ => inr "invalid character after top-level value"
      end
  | None => inr "invalid JSON"
  end.

(** The string member [k] of an object, empty when there is none. *)
Definition stringMember (k : string) (m : gmap string JSON) : string :=
  match m !! k with
  | Some (JString s) => s
  | _ => EmptyString
  end.

(** ** A small encoder and decoder of sessions

    For the examples again: the encoding of a session whose strings need no
    escape sequence, and the decoding of such a text. *)
Definition quoted (s : string) : string :=
  String quoteChar (s +:+ String quoteChar EmptyString).

Definition miniMarshalMessage (m : Message) : string :=
  jsonText "{'role':" +:+ quoted (Role m)
  +:+ jsonText ",'content':" +:+ quoted (Content m) +:+ "}".

Fixpoint miniMarshalMessages (h : list Message) : string :=
  match h with
  | [] => EmptyString
  | [m] => miniMarshalMessage m
  | m :: h' => miniMarshalMessage m +:+ "," +:+ miniMarshalMessages h'
  end.

Definition miniMarshalSession (s : Session) : string :=
  match History s with
  | [] => jsonText "{'history':null}"
  | h => jsonText "{'history':[" +:+ miniMarshalMessages h +:+ "]}"
  end.

Definition miniMessage (v : JSON) : Message :=
  match v with
  | JObject m =>
      {| Role := stringMember "role" m; Content := stringMember "content" m |}
  | _ => {| Role := EmptyString; Content := EmptyString |}
  end.

Definition miniUnmarshalSession (data : string) : Session :=
  match miniUnmarshal data with
  | inl m =>
      match m !! "history" with
      | Some (JArray l) => {| History := map miniMessage l |}
      | _ => emptySession
      end
  | inr _ => emptySession
  end.

(** ** Inputs for the examples *)

Fixpoint hasByte (c : Ascii.ascii) (s : string) : bool :=
  match s with
  | EmptyString => false
  | String d r => Ascii.eqb d c || hasByte c r
  end.

(** A disk on which [.sessions] can be made and has no directory in it: a
    file is written when it lies in [.sessions] itself. *)
Definition flatWriteFile (path data : string) : option string :=
  match stripPrefix ".sessions/" path with
  | Some name => if hasByte "/"%char name then None else Some data
  | None => None
  end.

(** An environment whose endpoint refuses every connection. *)
Definition offlineEnv : Env :=
  {| Getpid := 4711;
     Unmarshal := miniUnmarshal;
     verbV := fun _ => "?";
     NewRequestError := fun _ => None;
     exchange := fun _ _ _ => (NetError "connection refused", 0);
     deadlineError := fun _ => "context deadline exceeded";
     rangeSeed := fun _ _ => 0%nat;
     MarshalSession := miniMarshalSession;
     UnmarshalSession := miniUnmarshalSession;
     WriteFile := flatWriteFile |}.

(** An environment whose endpoint answers every request after [latency]
    with a body that arrives in [pieces]. *)
Definition streamingEnv (pieces : list (Duration * string))
    (latency : Duration) : Env :=
  {| Getpid := 4711;
     Unmarshal := miniUnmarshal;
     verbV := fun _ => "?";
     NewRequestError := fun _ => None;
     exchange := fun _ _ _ => (NetResponse pieces, latency);
     deadlineError := fun _ => "context deadline exceeded";
     rangeSeed := fun _ _ => 0%nat;
     MarshalSession := miniMarshalSession;
     UnmarshalSession := miniUnmarshalSession;
     WriteFile := flatWriteFile |}.

(** An environment whose endpoint answers every request with [body] after
    [latency]. *)
Definition answeringEnv (body : string) (latency : Duration) : Env :=
  streamingEnv [(0, body)] latency.

(** A world some 2024 years after the zero time, with no session file. *)
Definition someWorld : World :=
  {| clock := 63871200000 * Second; trace := []; files := ∅ |}.

(** An endpoint that answers after five seconds. *)
Definition slowEnv : Env :=
  answeringEnv (jsonText "{'content':[{'text':'hello'}]}") (5 * Second).

(** Three attempts and a timeout of one second. *)
Definition hastyFlags : Flags.t :=
  {| Flags.model := "claude4"; Flags.sessionID := EmptyString;
     Flags.maxTokens := 1024; Flags.timeout := 1; Flags.retries := 3;
     Flags.quiet := false; Flags.jsonOut := false |}.

Definition someFlags (sessionID : string) (retries : Z) : Flags.t :=
  {| Flags.model := "claude4"; Flags.sessionID := sessionID;
     Flags.maxTokens := 1024; Flags.timeout := 30; Flags.retries := retries;
     Flags.quiet := false; Flags.jsonOut := false |}.

Definition someConfig (providerType : string) : ProviderConfig :=
  {| Endpoint := "https://api.example.com/v1/messages"; Model := "model-1";
     APIKey := "secret"; Headers := ∅; ProviderType := providerType |}.

(** The operation fails once with ["boom"], then succeeds with ["ok"];
    every invocation takes a second. *)
Definition boomThenOk : Script :=
  fun k _ =>
    match k with
    | O => ((EmptyString, Some "boom"), Second)
    | S _ => (("ok", None), Second)
    end.

(** The operation always fails with ["boom"], after a second. *)
Definition alwaysBoom : Script :=
  fun _ _ => ((EmptyString, Some "boom"), Second).

(** The operation succeeds at once with ["ok"]. *)
Definition alwaysOk : Script := fun _ _ => (("ok", None), 0).

(** Always failing, as a closure that captures nothing. *)
Definition failingOp : unit -> M (error * unit) :=
  fun u => let* r := scripted alwaysBoom in ret (snd r, u).

(** The worlds of three failing invocations from [someWorld], with the
    pauses of the retry loop (one, two and three seconds) after them. *)
Definition failedOnce : World := afterCall alwaysBoom someWorld.
Definition secondTry : World := afterSleep Second failedOnce.
Definition failedTwice : World := afterCall alwaysBoom secondTry.
Definition thirdTry : World := afterSleep (2 * Second) failedTwice.
Definition failedThrice : World := afterCall alwaysBoom thirdTry.
Definition fourthTry : World := afterSleep (3 * Second) failedThrice.

(** An endpoint that answers with an error object whose message is the
    empty string. *)
Definition silentErrorEnv : Env :=
  answeringEnv (jsonText "{'error':{'message':''}}") Second.

(** An endpoint that refuses the first connection and answers the second
    request after a second. *)
Definition flakyEnv : Env :=
  {| Getpid := 4711;
     Unmarshal := miniUnmarshal;
     verbV := fun _ => "?";
     NewRequestError := fun _ => None;
     exchange :=
       fun k _ _ =>
         match k with
         | O => (NetError "connection refused", 0)
         | Datatypes.S _ =>
             (NetResponse [(0, jsonText "{'content':[{'text':'hello'}]}")],
              Second)
         end;
     deadlineError := fun _ => "context deadline exceeded";
     rangeSeed := fun _ _ => 0%nat;
     MarshalSession := miniMarshalSession;
     UnmarshalSession := miniUnmarshalSession;
     WriteFile := flatWriteFile |}.

(** A history of twenty turns, ["A"] to ["T"]. *)
Definition twentyTurns : Session :=
  {| History :=
       map (fun k =>
              mkMessage "user" (String (Ascii.ascii_of_nat (65 + k)) EmptyString))
           (seq 0 20) |}.

(** ** Go's [strings] and [path/filepath], as the rest of the file uses them *)

(** [s[i:]] and [s[:j]]. *)
Fixpoint sliceFrom (i : nat) (s : string) : string :=
  match i, s with
  | O, _ => s
  | Datatypes.S i, String _ r => sliceFrom i r
  | Datatypes.S _, EmptyString => EmptyString
  end.

Fixpoint sliceTo (j : nat) (s : string) : string :=
  match j, s with
  | O, _ => EmptyString
  | Datatypes.S j, String c r => String c (sliceTo j r)
  | Datatypes.S _, EmptyString => EmptyString
  end.

(** [strings.HasPrefix]:
    [len(s) >= len(prefix) && s[:len(prefix)] == prefix]. *)
Definition HasPrefix (s prefix : string) : bool :=
  (String.length prefix <=? String.length s)%nat
  && String.eqb (sliceTo (String.length prefix) s) prefix.

(** [strings.HasSuffix]:
    [len(s) >= len(suffix) && s[len(s)-len(suffix):] == suffix]. *)
Definition HasSuffix (s suffix : string) : bool :=
  (String.length suffix <=? String.length s)%nat
  && String.eqb (sliceFrom (String.length s - String.length suffix) s) suffix.

(** [strings.TrimPrefix] and [strings.TrimSuffix]. *)
Definition TrimPrefix (s prefix : string) : string :=
  if HasPrefix s prefix then sliceFrom (String.length prefix) s else s.

Definition TrimSuffix (s suffix : string) : string :=
  if HasSuffix s suffix
  then sliceTo (String.length s - String.length suffix) s
  else s.

(** [strings.Join]. *)
Fixpoint Join (elems : list string) (sep : string) : string :=
  match elems with
  | [] => EmptyString
  | [a] => a
  | a :: rest => a +:+ sep +:+ Join rest sep
  end.

(** [strings.Split(s, sep)] for a separator that is not empty (the source
    splits at ["-"]): the pieces between the occurrences of [sep], found
    from the left. [skip] counts the bytes of a separator that was just
    matched and is still to be passed over. *)
Fixpoint splitFrom (sep : string) (skip : nat) (s : string) : list string :=
  match s with
  | EmptyString => [EmptyString]
  | String c r =>
      match skip with
      | Datatypes.S k => splitFrom sep k r
      | O =>
          if HasPrefix s sep
          then EmptyString :: splitFrom sep (String.length sep - 1) r
          else
            match splitFrom sep 0 r with
            | piece :: pieces => String c piece :: pieces
            | [] => [String c EmptyString]
            end
      end
  end.

Definition Split (s sep : string) : list string := splitFrom sep 0 s.

(** The loop of [filepath.Base] that strips trailing slashes. *)
Fixpoint stripSlashes (s : string) : string :=
  match s with
  | EmptyString => EmptyString
  | String c r =>
      let r' := stripSlashes r in
      if Ascii.eqb c "/"%char && isEmpty r' then EmptyString else String c r'
  end.

(** [filepath.Base] (with [/] as the separator): the last element of the
    path; ["."] for the empty path, ["/"] for a path of slashes only. *)
Definition Base (path : string) : string :=
  if isEmpty path then "."
  else
    let path := stripSlashes path in
    let path := List.last (Split path "/") EmptyString in
    if isEmpty path then "/" else path.

(** ** The host: files, environment and command line

    What [loadConfig], [getInput] and [showHelp] take from the operating
    system and from the libraries. *)
Record Host := mkHost {
  (** [os.ReadFile(path)]: the contents, [None] when it fails *)
  ReadFile : string -> option string;
  (** [os.Getenv(name)]: empty when the variable is not set *)
  Getenv : string -> string;
  (** [json.Unmarshal(data, &cfg)] for a zero [ProviderConfig]: the
      configuration, or the text of the error *)
  UnmarshalConfig : string -> ProviderConfig + string;
  (** [filepath.Glob(pattern)]: the matching paths *)
  Glob : string -> list string;
  (** [strings.TrimSpace] *)
  TrimSpace : string -> string
}.

(** ** Configuration (lines 176-201) *)

Definition configPath (model : string) : string :=
  "." +:+ model +:+ ".config".

Definition setAPIKey (cfg : ProviderConfig) (key : string) : ProviderConfig :=
  {| Endpoint := Endpoint cfg; Model := Model cfg; APIKey := key;
     Headers := Headers cfg; ProviderType := ProviderType cfg |}.

(** [func loadConfig(model string)]: the configuration it returns, or the
    text of the error. *)
Definition loadConfig (host : Host) (model : string)
  : ProviderConfig + string :=
  let path := configPath model in
  match ReadFile host path with
  | None => inr ("config not found: " +:+ path)
  | Some data =>
      match UnmarshalConfig host data with
      | inr e => inr ("invalid config: " +:+ e)
      | inl cfg =>
          let cfg :=
            if HasPrefix (APIKey cfg) "${" && HasSuffix (APIKey cfg) "}"
            then
              let envVar :=
                TrimSuffix (TrimPrefix (APIKey cfg) "${") "}" in
              setAPIKey cfg (Getenv host envVar)
            else cfg in
          if isEmpty (APIKey cfg) then inr "no API key" else inl cfg
      end
  end.

(** ** Input (lines 344-362) *)

(** Standard input as [getInput] finds it: a pipe or a file, which is read
    to its end, or a terminal, from which one line is read (either read
    gives bytes and an error); or a descriptor [os.Stdin.Stat] fails on, so
    that [stat] is nil. *)
Inductive Stdin :=
| Piped (data : string) (err : error)
| Terminal (line : string) (err : error)
| NoStat.

(** [func getInput() (string, error)] for the arguments [flag.Args()]: the
    two results, and what was written to standard error. The call
    [stat.Mode()] on the nil [stat] panics. *)
Definition getInput (host : Host) (args : list string) (stdin : Stdin)
  : Outcome (string * error * list string) :=
  if (0 <? length args)%nat then Ret (Join args " ", None, [])
  else
    match stdin with
    | NoStat =>
        Panic "runtime error: invalid memory address or nil pointer dereference"
    | Piped data err => Ret (TrimSpace host data, err, [])
    | Terminal line err => Ret (TrimSpace host line, err, ["Prompt: "])
    end.

(** ** Help (lines 300-341) *)

(** Lines 317-318: the model name of a configuration file. *)
Definition modelName (cfg : string) : string :=
  TrimSuffix (TrimPrefix cfg ".") ".config".

(** Lines 329-334: the session id and the model of a session file, when its
    name has a ["-"]. *)
Definition sessionEntry (s : string) : option (string * string) :=
  let base := Base s in
  let parts := Split (TrimSuffix base ".json") "-" in
  if (2 <=? length parts)%nat
  then Some (Join (tail parts) "-", hd EmptyString parts)
  else None.

(** What [showHelp] writes to standard output, one string for every call of
    [fmt.Println] or [fmt.Printf] ([flag.PrintDefaults] writes to standard
    error). *)
Definition showHelp (host : Host) : list string :=
  let configs := Glob host ".*.config" in
  let sessions := Glob host ".sessions/*.json" in
  ["SIGO - SI Gateway in GO" +:+ LF +:+ LF;
   "Usage: sigo [options] [prompt]" +:+ LF;
   "       echo 'prompt' | sigo [options]" +:+ LF;
   "       sigo [options] < file.txt" +:+ LF +:+ LF;
   LF +:+ "Available models:" +:+ LF]
  ++ (if (length configs =? 0)%nat then ["  (none configured)" +:+ LF] else [])
  ++ map (fun cfg => "  " +:+ modelName cfg +:+ LF) configs
  ++ [LF +:+ "Active sessions:" +:+ LF]
  ++ (if (length sessions =? 0)%nat then ["  (none)" +:+ LF] else [])
  ++ flat_map
       (fun s =>
          match sessionEntry s with
          | Some (id, model) =>
              ["  -s " +:+ id +:+ " (model: " +:+ model +:+ ")" +:+ LF]
          | None => []
          end)
       sessions
  ++ [LF +:+ "Examples:" +:+ LF;
      "  sigo 'Hello Claude'" +:+ LF;
      "  sigo -m gpt4 -s project 'Continue our discussion'" +:+ LF;
      "  echo 'Explain quantum physics' | sigo -n 2000" +:+ LF].

(** ** The whole of [main] (lines 365-470) *)

(** How the process ends when it does not panic. *)
Inductive Ended :=
| Helped (out : list string)
    (** [showHelp] was printed; exit status 0 *)
| Refused (prompted : list string) (log : Logged)
    (** an error was logged before any attempt; exit status 1 *)
| Ran (prompted : list string) (run : Run)
    (** the part of [main] from line 400 on was run *).

(** [main] for the parsed flags: [help] is [-h], [nflag] is [flag.NFlag()]
    and [args] are [flag.Args()]. *)
Definition program (host : Host) (env : Env) (flags : Flags.t) (help : bool)
    (nflag : nat) (args : list string) (stdin : Stdin) : M Ended :=
  if help || ((length args =? 0)%nat && (nflag =? 0)%nat)
  then ret (Helped (showHelp host))
  else
    match loadConfig host (Flags.model flags) with
    | inr e => ret (Refused [] (LogError (Getpid env) ("Config: " +:+ e)))
    | inl cfg =>
        match getInput host args stdin with
        | Panic msg => fun w => (Panic msg, w)
        | Ret (prompt, err, prompted) =>
            match err with
            | Some _ => ret (Refused prompted (LogError (Getpid env) "No input"))
            | None =>
                if isEmpty prompt
                then ret (Refused prompted (LogError (Getpid env) "No input"))
                else
                  let* run := main env flags cfg prompt in
                  ret (Ran prompted run)
            end
        end
    end.

(** ** Further notions the statements use *)

(** The byte [c] does not occur in [s]. *)
Fixpoint lacks (c : Ascii.ascii) (s : string) : Prop :=
  match s with
  | EmptyString => True
  | String d r => d <> c /\ lacks c r
  end.

(** The durations of the sleeps of a trace, in order. *)
Fixpoint sleepsOf (tr : list Event) : list Duration :=
  match tr with
  | [] => []
  | EvSleep _ d :: tr => d :: sleepsOf tr
  | _ :: tr => sleepsOf tr
  end.

(** An event that is a request is a [method] request to [url] with the
    body [body]. *)
Definition sendsLike (method url : string) (body : RequestBody) (e : Event)
  : Prop :=
  match e with
  | EvSend _ r => Method r = method /\ URL r = url /\ Body r = body
  | _ => True
  end.

(** The body of the requests of a run of [main] that starts in [w]. *)
Definition mainBody (flags : Flags.t) (cfg : ProviderConfig)
    (prompt : string) (w : World) : RequestBody :=
  {| bodyModel := Model cfg;
     bodyMessages :=
       [[("role", "user");
         ("content", buildPrompt (loaded flags w) prompt)]];
     bodyMaxTokens := Flags.maxTokens flags |}.

(** By the instant [now] a sleep has lasted its full length. *)
Definition sleptInFull (now : Time) (e : Event) : Prop :=
  match e with
  | EvSleep t d => t + Z.max 0 d <= now
  | _ => True
  end.

(** Every sleep of the world so far has lasted its full length. *)
Definition sleepsInFull (w : World) : Prop :=
  Forall (sleptInFull (clock w)) (trace w).

(** The breaker [cb] rejects an attempt made at [now]: the cooldown has not
    passed and the counter is at the threshold (or the threshold is not
    positive, when no counter is below it). *)
Definition rejects (cb : CircuitBreaker) (now : Time) : Prop :=
  (Sub now (lastFail cb) <= timeout cb /\ threshold cb <= failures cb) \/
  (timeout cb < Sub now (lastFail cb) /\ threshold cb <= 0).

(** The records [r] and [r'] differ at most in the field [Response]. *)
Definition sameButResponse (r r' : Response.t) : Prop :=
  Response.Model r' = Response.Model r /\
  Response.PID r' = Response.PID r /\
  Response.Timestamp r' = Response.Timestamp r /\
  Response.Prompt r' = Response.Prompt r /\
  Response.Error r' = Response.Error r /\
  Response.Duration r' = Response.Duration r.

(** ** Further inputs for the examples *)

(** A decoder of configuration files for the examples: the members
    ["endpoint"], ["model"], ["api_key"] and ["type"] of the object, as far
    as they are strings, and the string members of ["headers"]. *)
Definition miniUnmarshalConfig (data : string) : ProviderConfig + string :=
  match miniUnmarshal data with
  | inr e => inr e
  | inl m =>
      inl {| Endpoint := stringMember "endpoint" m;
             Model := stringMember "model" m;
             APIKey := stringMember "api_key" m;
             Headers :=
               match m !! "headers" with
               | Some (JObject h) =>
                   omap (fun v =>
                           match v with
                           | JString v => Some v
                           | _ => None
                           end) h
               | _ => ∅
               end;
             ProviderType := stringMember "type" m |}
  end.

(** The spaces, tabs, line feeds and carriage returns at the end of a
    string, dropped. *)
Fixpoint dropTrailingSpace (s : string) : string :=
  match s with
  | EmptyString => EmptyString
  | String c r =>
      let r' := dropTrailingSpace r in
      if isSpace c && isEmpty r' then EmptyString else String c r'
  end.

(** The text of the configuration file of the README for [claude4]. *)
Definition claude4ConfigText : string :=
  jsonText
    "{'endpoint':'https://api.anthropic.com/v1/messages','model':'claude-3-5-sonnet-20241022','api_key':'${ANTHROPIC_API_KEY}','type':'anthropic'}".

Definition claude4Decoded : ProviderConfig :=
  {| Endpoint := "https://api.anthropic.com/v1/messages";
     Model := "claude-3-5-sonnet-20241022";
     APIKey := "${ANTHROPIC_API_KEY}";
     Headers := ∅;
     ProviderType := "anthropic" |}.

(** A host with that configuration file, the key in the environment, and
    one session file. *)
Definition someHost : Host :=
  {| ReadFile :=
       fun path =>
         if String.eqb path ".claude4.config" then Some claude4ConfigText
         else None;
     Getenv :=
       fun name =>
         if String.eqb name "ANTHROPIC_API_KEY" then "secret"
         else EmptyString;
     UnmarshalConfig := miniUnmarshalConfig;
     Glob :=
       fun pattern =>
         if String.eqb pattern ".*.config" then [".claude4.config"]
         else if String.eqb pattern ".sessions/*.json"
              then [".sessions/claude4-projekt.json"]
              else [];
     TrimSpace := fun s => dropTrailingSpace (skipSpace s) |}.

(** An endpoint whose answer has a string where the content block should
    be. *)
Definition panickyEnv : Env :=
  answeringEnv (jsonText "{'content':['hello']}") Second.

(** An endpoint whose response is there after 200 ms; the first half of
    its body follows at once, the rest five seconds later. *)
Definition drippingEnv : Env :=
  streamingEnv
    [(0, jsonText "{'content':[{'text':'hel");
     (5 * Second, jsonText "lo'}]}")]
    (200 * Millisecond).

(** An endpoint that sends the whole body at once and ends it five seconds
    later. *)
Definition stallingEnv : Env :=
  streamingEnv
    [(0, jsonText "{'content':[{'text':'hello'}]}");
     (5 * Second, EmptyString)]
    (200 * Millisecond).

(** One attempt and a timeout of one second. *)
Definition oneHastyTry : Flags.t :=
  {| Flags.model := "claude4"; Flags.sessionID := EmptyString;
     Flags.maxTokens := 1024; Flags.timeout := 1; Flags.retries := 1;
     Flags.quiet := false; Flags.jsonOut := false |}.

(** A configuration that sets the key header itself, in upper case, and one
    that has the same header name twice, in two spellings. *)
Definition overridingConfig : ProviderConfig :=
  {| Endpoint := "https://api.example.com/v1/messages"; Model := "model-1";
     APIKey := "secret"; Headers := {[ "X-API-KEY" := "other" ]};
     ProviderType := "anthropic" |}.

Definition twiceNamedConfig : ProviderConfig :=
  {| Endpoint := "https://api.example.com/v1/messages"; Model := "model-1";
     APIKey := "secret";
     Headers := {[ "x-trace" := "a"; "X-TRACE" := "b" ]};
     ProviderType := "anthropic" |}.

(* ===================================================================== *)
(** * Part II: properties                                                 *)
(* ===================================================================== *)

Section SessionFacts.

Lemma append_cons (x : Ascii.ascii) (a b : string) :
  String x a +:+ b = String x (a +:+ b).
Proof. reflexivity. Qed.

Lemma append_assoc (a b c : string) : (a +:+ b) +:+ c = a +:+ (b +:+ c).
Proof.
  induction a as [|x a IH]; [reflexivity |].
  now rewrite !append_cons, IH.
Qed.

Lemma append_empty_r (a : string) : a +:+ EmptyString = a.
Proof.
  induction a as [|x a IH]; [reflexivity |].
  now rewrite append_cons, IH.
Qed.

Lemma writeTurn_spec (ctx : Builder) (m : Message) :
  writeTurn ctx m = ctx +:+ specTurn m.
Proof.
  unfold writeTurn, specTurn, specRolePrefix, WriteString.
  destruct (String.eqb (Role m) "user"); now rewrite !append_assoc.
Qed.

Lemma fold_writeTurn (h : list Message) (ctx : Builder) :
  fold_left writeTurn h ctx = ctx +:+ specTurns h.
Proof.
  revert ctx. induction h as [|m h IH]; intros ctx; simpl.
  - now rewrite append_empty_r.
  - now rewrite IH, writeTurn_spec, append_assoc.
Qed.

End SessionFacts.

(** ** Session context builder and session truncation *)

Section SessionClaims.

(** C5. [buildPrompt] returns the new prompt unchanged for an empty history;
    for a non-empty one it returns the turns in insertion order, each as its
    role prefix (["Human: "] for the role [user], ["Assistant: "] otherwise),
    its content and two line feeds, followed by ["Human: "] and the new
    prompt, with nothing after it. It is a function of the session and the
    prompt alone: it is not in the monad [M], so it neither reads nor changes
    the world. *)
Theorem buildPrompt_renders_history (s : Session) (p : string) :
  buildPrompt emptySession p = p /\
  buildPrompt s p = specPrompt (History s) p /\
  (forall m h,
     buildPrompt {| History := m :: h |} p
     = specRolePrefix (Role m) +:+ Content m +:+ LF +:+ LF
       +:+ specTurns h +:+ "Human: " +:+ p) /\
  specRolePrefix "user" = "Human: " /\
  specRolePrefix "assistant" = "Assistant: ".
Proof.
  split; [reflexivity |].
  split; [| split; [| split; reflexivity]].
  - unfold buildPrompt, specPrompt, WriteString.
    destruct (History s) as [|m h] eqn:E; [reflexivity |].
    cbn [length Nat.eqb].
    now rewrite fold_writeTurn, append_assoc.
  - intros m h. unfold buildPrompt, WriteString. cbn [History length Nat.eqb].
    rewrite fold_writeTurn. cbn [specTurns]. unfold specTurn, LFLF.
    now rewrite !append_assoc.
Qed.

(** The end-to-end scenario of the specification: the history
    [[{User, "hi"}]] and the prompt ["how are you"]. *)
Example buildPrompt_scenario :
  buildPrompt {| History := [mkMessage "user" "hi"] |} "how are you"
  = "Human: hi" +:+ LF +:+ LF +:+ "Human: how are you".
Proof. reflexivity. Qed.

Example buildPrompt_mixed_roles :
  buildPrompt
    {| History := [mkMessage "user" "hi"; mkMessage "assistant" "hello"] |}
    "bye"
  = "Human: hi" +:+ LF +:+ LF +:+ "Assistant: hello" +:+ LF +:+ LF
    +:+ "Human: bye".
Proof. reflexivity. Qed.

Lemma addMessage_history (s : Session) (role content : string) :
  History (addMessage s role content)
  = drop (length (History s) + 1 - 20)%nat
      (History s ++ [mkMessage role content]).
Proof.
  unfold addMessage. rewrite length_app. cbn [length].
  destruct (20 <? length (History s) + 1)%nat eqn:E; cbn [History].
  - reflexivity.
  - apply Nat.ltb_ge in E.
    replace (length (History s) + 1 - 20)%nat with 0%nat by lia.
    reflexivity.
Qed.

(** C6. After [addMessage] the history has at most 20 entries, whatever it
    had before; a history of exactly 20 entries has exactly 20 afterwards:
    its entries but the oldest, in their order, and then the new one. *)
Theorem addMessage_caps_history (s : Session) (role content : string) :
  (length (History (addMessage s role content)) <= 20)%nat /\
  (length (History s) = 20%nat ->
   length (History (addMessage s role content)) = 20%nat /\
   History (addMessage s role content)
   = drop 1 (History s) ++ [mkMessage role content]).
Proof.
  rewrite addMessage_history. split.
  - rewrite length_drop, length_app. cbn [length]. lia.
  - intros H20. rewrite H20. change (20 + 1 - 20)%nat with 1%nat.
    rewrite drop_app_le by lia. split; [| reflexivity].
    rewrite length_app, length_drop. cbn [length]. lia.
Qed.

Lemma addMessage_caps_history_witness :
  length (History twentyTurns) = 20%nat /\
  (length (History (addMessage twentyTurns "assistant" "new")) <= 20)%nat /\
  length (History (addMessage twentyTurns "assistant" "new")) = 20%nat /\
  History (addMessage twentyTurns "assistant" "new")
  = drop 1 (History twentyTurns) ++ [mkMessage "assistant" "new"].
Proof.
  split; [reflexivity |].
  destruct (addMessage_caps_history twentyTurns "assistant" "new") as [H1 H2].
  split; [exact H1 | apply H2; reflexivity].
Defined.

End SessionClaims.

(** ** Circuit breaker *)

Section BreakerFacts.

Context {S : Type}.
Implicit Types (cb : CircuitBreaker) (fn : S -> M (error * S)) (s : S)
  (w : World).

(** The breaker as [Do] sees it after the cooldown check of lines 94-96. *)
Lemma Do_unfold cb fn s w :
  Do cb fn s w
  = let cb' :=
      if timeout cb <? Sub (clock w) (lastFail cb)
      then setFailures cb 0 else cb in
    if threshold cb' <=? failures cb'
    then (Ret (Some "circuit open", cb', s), w)
    else invoke cb' fn s w.
Proof.
  unfold Do, Since, Now, bind, ret. cbn zeta.
  destruct (timeout cb <? Sub (clock w) (lastFail cb));
    destruct (threshold _ <=? failures _); reflexivity.
Qed.

Lemma Do_open cb fn s w :
  Sub (clock w) (lastFail cb) <= timeout cb ->
  threshold cb <= failures cb ->
  Do cb fn s w = (Ret (Some "circuit open", cb, s), w).
Proof.
  intros Hcool Hopen. rewrite Do_unfold. cbn zeta.
  destruct (Z.ltb_spec (timeout cb) (Sub (clock w) (lastFail cb))); [lia |].
  destruct (Z.leb_spec (threshold cb) (failures cb)); [reflexivity | lia].
Qed.

Lemma Do_cooled cb fn s w :
  0 < threshold cb ->
  timeout cb < Sub (clock w) (lastFail cb) ->
  Do cb fn s w = invoke (setFailures cb 0) fn s w.
Proof.
  intros Hthr Hcool. rewrite Do_unfold. cbn zeta.
  destruct (Z.ltb_spec (timeout cb) (Sub (clock w) (lastFail cb))); [| lia].
  cbn [setFailures threshold failures].
  destruct (Z.leb_spec (threshold cb) 0); [lia | reflexivity].
Qed.

Lemma Do_closed cb fn s w :
  failures cb < threshold cb ->
  0 < threshold cb ->
  Do cb fn s w
  = invoke (if timeout cb <? Sub (clock w) (lastFail cb)
            then setFailures cb 0 else cb) fn s w.
Proof.
  intros Hcl Hthr. rewrite Do_unfold. cbn zeta.
  destruct (timeout cb <? Sub (clock w) (lastFail cb));
    cbn [setFailures threshold failures].
  - destruct (Z.leb_spec (threshold cb) 0); [lia | reflexivity].
  - destruct (Z.leb_spec (threshold cb) (failures cb)); [lia | reflexivity].
Qed.

Lemma invoke_failure cb fn s w e s' w' :
  fn s w = (Ret (Some e, s'), w') ->
  invoke cb fn s w
  = (Ret (Some e,
          setLastFail (setFailures cb (wrap64 (failures cb + 1))) (clock w'),
          s'), w').
Proof. intros H. unfold invoke, bind, Now, ret. now rewrite H. Qed.

Lemma invoke_success cb fn s w s' w' :
  fn s w = (Ret (None, s'), w') ->
  invoke cb fn s w = (Ret (None, setFailures cb 0, s'), w').
Proof. intros H. unfold invoke, bind, ret. now rewrite H. Qed.

Lemma invoke_panic cb fn s w msg w' :
  fn s w = (Panic msg, w') -> invoke cb fn s w = (Panic msg, w').
Proof. intros H. unfold invoke, bind. now rewrite H. Qed.

(** An attempt that is let through and succeeds. *)
Lemma Do_success cb fn s w s' w' :
  (timeout cb < Sub (clock w) (lastFail cb) /\ 0 < threshold cb) \/
  (Sub (clock w) (lastFail cb) <= timeout cb /\ failures cb < threshold cb) ->
  fn s w = (Ret (None, s'), w') ->
  Do cb fn s w = (Ret (None, setFailures cb 0, s'), w').
Proof.
  intros Hthrough Hfn. rewrite Do_unfold. cbn zeta.
  destruct (Z.ltb_spec (timeout cb) (Sub (clock w) (lastFail cb)))
    as [Hcool | Hwarm].
  - cbn [setFailures threshold failures].
    destruct (Z.leb_spec (threshold cb) 0); [lia |].
    now rewrite (invoke_success _ _ _ _ _ _ Hfn).
  - destruct (Z.leb_spec (threshold cb) (failures cb)); [lia |].
    now rewrite (invoke_success _ _ _ _ _ _ Hfn).
Qed.

(** [Do] returns no error only after a success, with the counter at 0. *)
Lemma Do_nil_resets cb fn s w cb' s' w' :
  Do cb fn s w = (Ret (None, cb', s'), w') -> failures cb' = 0.
Proof.
  rewrite Do_unfold. cbn zeta.
  destruct (threshold _ <=? failures _); [discriminate |].
  unfold invoke, bind, Now, ret.
  destruct (fn s w) as [[[[e |] s1] | msg] w1]; try discriminate.
  now intros [= <- _ _].
Qed.

End BreakerFacts.

(** A failure on a breaker created by [NewCircuitBreaker] that has [n < 3]
    failures: the counter goes to [n + 1], unless the cooldown has passed,
    when it goes to 1. *)
Lemma Do_counts_failure {S : Type} (n : Z) (last : Time)
    (fn : S -> M (error * S)) (s s' : S) (w w' : World) (e : string) :
  0 <= n < 3 ->
  Sub (clock w) last <= 5 * Minute ->
  fn s w = (Ret (Some e, s'), w') ->
  Do {| failures := n; lastFail := last; threshold := 3;
        timeout := 5 * Minute |} fn s w
  = (Ret (Some e,
          {| failures := n + 1; lastFail := clock w'; threshold := 3;
             timeout := 5 * Minute |}, s'), w').
Proof.
  intros Hn Hcool Hfn. rewrite Do_closed by (cbn; lia).
  cbn [timeout lastFail].
  destruct (Z.ltb_spec (5 * Minute) (Sub (clock w) last)); [lia |].
  rewrite (invoke_failure _ _ _ _ _ _ _ Hfn).
  unfold setLastFail, setFailures. cbn [failures lastFail threshold timeout].
  replace (wrap64 (n + 1)) with (n + 1); [reflexivity |].
  unfold wrap64. rewrite Z.mod_small; lia.
Qed.

(** C4. The breaker is created closed, with no failure, a threshold of 3 and
    a cooldown of five minutes. An attempt made after the cooldown has
    passed since the last failure first resets the counter and so goes
    through to the operation, whatever the counter was. An attempt made
    within the cooldown on a breaker at its threshold is rejected with
    [circuit open]; the operation is not run (the world and the captured
    variables are as before). A success sets the counter to 0. Three
    failures in a row on a new breaker, each attempt within the cooldown of
    the failure before it, take the counter to 3, and a fourth attempt
    within the cooldown is rejected without running the operation, whatever
    the operation is. A success resets the counter: an attempt that [Do]
    lets through (the counter is below the threshold, or the cooldown has
    passed) and whose operation succeeds leaves the counter at 0 and the
    other fields as they were, and whenever [Do] returns no error the
    counter is 0 afterwards. A failure after the cooldown counts from 0
    again: it leaves the counter at 1, whatever it was. *)
Theorem breaker_opens_after_three_failures :
  NewCircuitBreaker
  = {| failures := 0; lastFail := zeroTime; threshold := 3;
       timeout := 5 * Minute |} /\
  (forall (S : Type) cb (fn : S -> M (error * S)) s w,
     0 < threshold cb ->
     timeout cb < Sub (clock w) (lastFail cb) ->
     Do cb fn s w = invoke (setFailures cb 0) fn s w) /\
  (forall (S : Type) cb (fn : S -> M (error * S)) s w,
     Sub (clock w) (lastFail cb) <= timeout cb ->
     threshold cb <= failures cb ->
     Do cb fn s w = (Ret (Some "circuit open", cb, s), w)) /\
  (forall (S : Type) cb (fn : S -> M (error * S)) s w s' w',
     (timeout cb < Sub (clock w) (lastFail cb) /\ 0 < threshold cb) \/
     (Sub (clock w) (lastFail cb) <= timeout cb /\
      failures cb < threshold cb) ->
     fn s w = (Ret (None, s'), w') ->
     Do cb fn s w = (Ret (None, setFailures cb 0, s'), w')) /\
  (forall (S : Type) cb (fn : S -> M (error * S)) s w cb' s' w',
     Do cb fn s w = (Ret (None, cb', s'), w') -> failures cb' = 0) /\
  (forall (S : Type) cb (fn : S -> M (error * S)) s w e s' w',
     0 < threshold cb ->
     timeout cb < Sub (clock w) (lastFail cb) ->
     fn s w = (Ret (Some e, s'), w') ->
     Do cb fn s w
     = (Ret (Some e, setLastFail (setFailures cb 1) (clock w'), s'), w')) /\
  (forall (S : Type) (fn : S -> M (error * S))
          s0 s1 s2 s3 e1 e2 e3 w0 w0' w1 w1' w2 w2' w3,
     fn s0 w0 = (Ret (Some e1, s1), w0') ->
     fn s1 w1 = (Ret (Some e2, s2), w1') ->
     fn s2 w2 = (Ret (Some e3, s3), w2') ->
     Sub (clock w1) (clock w0') <= 5 * Minute ->
     Sub (clock w2) (clock w1') <= 5 * Minute ->
     Sub (clock w3) (clock w2') <= 5 * Minute ->
     exists cb1 cb2 cb3,
       Do NewCircuitBreaker fn s0 w0 = (Ret (Some e1, cb1, s1), w0') /\
       Do cb1 fn s1 w1 = (Ret (Some e2, cb2, s2), w1') /\
       Do cb2 fn s2 w2 = (Ret (Some e3, cb3, s3), w2') /\
       failures cb3 = 3 /\
       forall fn' : S -> M (error * S),
         Do cb3 fn' s3 w3 = (Ret (Some "circuit open", cb3, s3), w3)).
Proof.
  split; [reflexivity |].
  split; [intros; now apply Do_cooled |].
  split; [intros; now apply Do_open |].
  split; [intros; now apply Do_success |].
  split; [intros S cb fn s w cb' s' w'; apply Do_nil_resets |].
  split.
  { intros S cb fn s w e s' w' Hthr Hcool Hfn.
    rewrite Do_cooled by assumption.
    now rewrite (invoke_failure _ _ _ _ _ _ _ Hfn). }
  intros S fn s0 s1 s2 s3 e1 e2 e3 w0 w0' w1 w1' w2 w2' w3
    H1 H2 H3 C1 C2 C3.
  exists {| failures := 1; lastFail := clock w0'; threshold := 3;
            timeout := 5 * Minute |},
         {| failures := 2; lastFail := clock w1'; threshold := 3;
            timeout := 5 * Minute |},
         {| failures := 3; lastFail := clock w2'; threshold := 3;
            timeout := 5 * Minute |}.
  split.
  - rewrite Do_closed by (cbn; lia).
    replace (if timeout NewCircuitBreaker
                  <? Sub (clock w0) (lastFail NewCircuitBreaker)
             then setFailures NewCircuitBreaker 0 else NewCircuitBreaker)
      with NewCircuitBreaker by (now destruct (_ <? _)).
    now rewrite (invoke_failure _ _ _ _ _ _ _ H1).
  - split; [now apply (Do_counts_failure 1) |].
    split; [now apply (Do_counts_failure 2) |].
    split; [reflexivity |].
    intros fn'. apply Do_open; cbn [lastFail timeout threshold failures]; lia.
Qed.

Lemma breaker_opens_witness :
  exists cb1 cb2 cb3,
    Do NewCircuitBreaker failingOp tt someWorld
    = (Ret (Some "boom", cb1, tt), failedOnce) /\
    Do cb1 failingOp tt secondTry = (Ret (Some "boom", cb2, tt), failedTwice) /\
    Do cb2 failingOp tt thirdTry = (Ret (Some "boom", cb3, tt), failedThrice) /\
    failures cb3 = 3 /\
    forall fn' : unit -> M (error * unit),
      Do cb3 fn' tt fourthTry = (Ret (Some "circuit open", cb3, tt), fourthTry).
Proof.
  apply (proj2 (proj2 (proj2 (proj2 (proj2 (proj2
                  breaker_opens_after_three_failures)))))
           unit failingOp tt tt tt tt "boom" "boom" "boom"
           someWorld failedOnce secondTry failedTwice thirdTry failedThrice
           fourthTry);
    try reflexivity; vm_compute; intros HH; discriminate HH.
Defined.

(** ** The orchestrator *)

(** [save] changes neither the clock nor the trace. *)
Lemma afterSave_clock (env : Env) (path : string) (s : Session) (w : World) :
  clock (afterSave env path s w) = clock w.
Proof. unfold afterSave. now destruct (WriteFile env _ _). Qed.

Lemma afterSave_trace (env : Env) (path : string) (s : Session) (w : World) :
  trace (afterSave env path s w) = trace w.
Proof. unfold afterSave. now destruct (WriteFile env _ _). Qed.

Lemma calls_afterSave (env : Env) (path : string) (s : Session) (w : World) :
  calls (afterSave env path s w) = calls w.
Proof. unfold calls. now rewrite afterSave_trace. Qed.

Lemma sends_afterSave (env : Env) (path : string) (s : Session) (w : World) :
  sends (afterSave env path s w) = sends w.
Proof. unfold sends. now rewrite afterSave_trace. Qed.

Section OrchestratorFacts.

Variables (env : Env) (flags : Flags.t) (cfg : ProviderConfig)
  (prompt : string).

(** [main] is the retry loop on a new breaker, then [finish]. *)
Lemma mainWith_unfold (api : API) (w : World) :
  mainWith api env flags cfg prompt w
  = match
      retryLoop (Z.to_nat (Flags.retries flags))
        (mainAttempt api flags cfg prompt w) (Flags.retries flags) 0
        NewCircuitBreaker (startResponse env flags prompt (clock w)) None w
    with
    | (Ret (_, resp, lastErr), w') =>
        finish env flags prompt (loaded flags w) (clock w) resp lastErr w'
    | (Panic msg, w') => (Panic msg, w')
    end.
Proof.
  unfold mainWith, mainAttempt, mainContext, loaded, loadSession, WithTimeout,
    Now, bind, ret.
  destruct (isEmpty (Flags.sessionID flags)).
  - destruct (retryLoop _ _ _ _ _ _ _ w) as [[[[cb r] e] | msg] w'];
      reflexivity.
  - destruct (files w !! _);
      destruct (retryLoop _ _ _ _ _ _ _ w) as [[[[cb r] e] | msg] w'];
      reflexivity.
Qed.

(** [finish] never panics. It updates and saves the session exactly when
    the reported error text is empty and there is a session id. *)
Lemma finish_unfold (session : Session) (start : Time) (resp : Response.t)
    (lastErr : error) (w : World) :
  let r := reported resp lastErr start (clock w) in
  let keep :=
    isEmpty (Response.Error r) && negb (isEmpty (Flags.sessionID flags)) in
  let session' :=
    addMessage (addMessage session "user" prompt) "assistant"
      (Response.Response r) in
  finish env flags prompt session start resp lastErr w
  = (Ret {| resp := r;
            session := if keep then session' else session;
            stdout := fst (fst (output env flags r));
            stderr := snd (fst (output env flags r));
            exitCode := snd (output env flags r) |},
     if keep
     then afterSave env
            (sessionPath (Flags.sessionID flags) (Flags.model flags))
            session' w
     else w).
Proof.
  cbn zeta. unfold finish, Since, Now, bind, ret, save, reported, afterSave.
  destruct (isEmpty (Response.Error _)) eqn:E1; cbn [andb].
  - destruct (isEmpty (Flags.sessionID flags)) eqn:E2; cbn [negb];
      [destruct (output env flags _) as [[out err] code]; reflexivity |].
    destruct (WriteFile env _ _);
      destruct (output env flags _) as [[out err] code]; reflexivity.
  - destruct (output env flags _) as [[out err] code]; reflexivity.
Qed.

Lemma retryLoop_done (fuel : nat) (fn : Response.t -> M (error * Response.t))
    (retries i : Z) (cb : CircuitBreaker) (r : Response.t) (lastErr : error) :
  retries <= i ->
  retryLoop fuel fn retries i cb r lastErr = ret (cb, r, lastErr).
Proof.
  intros H. destruct fuel; cbn [retryLoop];
    destruct (Z.ltb_spec i retries); (lia || reflexivity).
Qed.

(** C10. With a retry count of 0 or less the loop makes no attempt: nothing
    is sent, called or slept (the trace of the world is as before), whatever
    the operation is. The run is reported as a success all the same: the
    error text and the response text are empty, the exit status is 0,
    nothing is logged, and the output is an empty line (with [-j], the
    record). *)
Theorem zero_retries_reports_success (api : API) (w : World) :
  Flags.retries flags <= 0 ->
  exists run w',
    mainWith api env flags cfg prompt w = (Ret run, w') /\
    trace w' = trace w /\
    clock w' = clock w /\
    Response.Error (resp run) = EmptyString /\
    Response.Response (resp run) = EmptyString /\
    exitCode run = 0 /\
    stderr run = [] /\
    stdout run
    = (if Flags.jsonOut flags then [Encoded (resp run)] else [Printed LF]).
Proof.
  intros Hr. rewrite mainWith_unfold, retryLoop_done by lia.
  unfold ret. rewrite finish_unfold. cbn zeta.
  eexists _, _. split; [reflexivity |].
  cbn [resp exitCode stderr stdout reported startResponse
       Response.setDuration Response.setError Response.Error
       Response.Response isEmpty andb].
  repeat split.
  - destruct (negb (isEmpty (Flags.sessionID flags)));
      [apply afterSave_trace | reflexivity].
  - destruct (negb (isEmpty (Flags.sessionID flags)));
      [apply afterSave_clock | reflexivity].
  - unfold output. cbn [Response.Error isEmpty].
    now destruct (Flags.jsonOut flags).
  - unfold output. cbn [Response.Error isEmpty].
    now destruct (Flags.jsonOut flags).
  - unfold output. cbn [Response.Error Response.Response isEmpty].
    now destruct (Flags.jsonOut flags).
Qed.

End OrchestratorFacts.

Lemma zero_retries_witness :
  Flags.retries (someFlags "s" 0) <= 0 /\
  exists run w',
    main slowEnv (someFlags "s" 0) (someConfig "anthropic") "hello" someWorld
    = (Ret run, w') /\
    trace w' = trace someWorld /\
    clock w' = clock someWorld /\
    Response.Error (resp run) = EmptyString /\
    Response.Response (resp run) = EmptyString /\
    exitCode run = 0 /\
    stderr run = [] /\
    stdout run = [Printed LF].
Proof.
  split; [discriminate |].
  apply (zero_retries_reports_success slowEnv (someFlags "s" 0)
           (someConfig "anthropic") "hello" (callAPI slowEnv) someWorld).
  discriminate.
Defined.

(** With a session id, the run with no attempt also appends the prompt and
    an empty assistant turn, and saves them. *)
Example zero_retries_saves_empty_turn :
  exists run w',
    main slowEnv (someFlags "s" 0) (someConfig "anthropic") "hello" someWorld
    = (Ret run, w') /\
    History (session run)
    = [mkMessage "user" "hello"; mkMessage "assistant" EmptyString] /\
    files w' !! sessionPath "s" "claude4" = Some (session run).
Proof.
  eexists _, _. split; [vm_compute; reflexivity |]. repeat split.
Qed.

(** ** The retry loop on scripted operations *)

Section RetryFacts.

Lemma calls_afterCall (script : Script) (w : World) :
  calls (afterCall script w) = Datatypes.S (calls w).
Proof.
  unfold calls, afterCall. cbn [trace].
  rewrite List.filter_app, length_app. cbn. lia.
Qed.

Lemma calls_afterSleep (d : Duration) (w : World) :
  calls (afterSleep d w) = calls w.
Proof.
  unfold calls, afterSleep. cbn [trace].
  rewrite List.filter_app, length_app. cbn. lia.
Qed.

(** The closure of [main] on a scripted operation. *)
Lemma attempt_scripted (script : Script) (ctx : Context)
    (cfg : ProviderConfig) (p : string) (mt : Z) (r : Response.t)
    (w : World) :
  attempt (scriptedAPI script) ctx cfg p mt r w
  = (Ret match snd (fst (script (calls w) (clock w))) with
         | Some e => (Some e, r)
         | None =>
             (None,
              Response.setResponse r (fst (fst (script (calls w) (clock w)))))
         end,
     afterCall script w).
Proof.
  unfold attempt, scriptedAPI, scripted, afterCall, bind, ret.
  destruct (script (calls w) (clock w)) as [[text [e|]] d]; reflexivity.
Qed.

Variables (fn : Response.t -> M (error * Response.t)) (retries : Z).

Lemma retryLoop_success_step (fuel : nat) (i : Z) (cb cb' : CircuitBreaker)
    (r r' : Response.t) (lastErr : error) (w w' : World) :
  i < retries ->
  Do cb fn r w = (Ret (None, cb', r'), w') ->
  retryLoop (Datatypes.S fuel) fn retries i cb r lastErr w
  = (Ret (cb', r', lastErr), w').
Proof.
  intros Hi HDo. cbn [retryLoop].
  destruct (Z.ltb_spec i retries); [| lia].
  unfold bind. now rewrite HDo.
Qed.

Lemma retryLoop_failure_step (fuel : nat) (i : Z) (cb cb' : CircuitBreaker)
    (r r' : Response.t) (lastErr : error) (w w' : World) (e : string) :
  i < retries ->
  Do cb fn r w = (Ret (Some e, cb', r'), w') ->
  retryLoop (Datatypes.S fuel) fn retries i cb r lastErr w
  = retryLoop fuel fn retries (i + 1) cb' r' (Some e)
      (if i <? retries - 1
       then afterSleep (wrap64 ((i + 1) * Second)) w' else w').
Proof.
  intros Hi HDo. cbn [retryLoop].
  destruct (Z.ltb_spec i retries); [| lia].
  unfold bind at 1. rewrite HDo. unfold bind.
  destruct (i <? retries - 1); reflexivity.
Qed.

Lemma retryLoop_panic_step (fuel : nat) (i : Z) (cb : CircuitBreaker)
    (r : Response.t) (lastErr : error) (w w' : World) (msg : string) :
  i < retries ->
  Do cb fn r w = (Panic msg, w') ->
  retryLoop (Datatypes.S fuel) fn retries i cb r lastErr w = (Panic msg, w').
Proof.
  intros Hi HDo. cbn [retryLoop].
  destruct (Z.ltb_spec i retries); [| lia].
  unfold bind. now rewrite HDo.
Qed.

(** The fuel never runs out before the test [i < retries] fails: any two
    amounts of at least [retries - i] give the same run. *)
Lemma retryLoop_fuel (fuel fuel' : nat) (i : Z) (cb : CircuitBreaker)
    (r : Response.t) (lastErr : error) (w : World) :
  (Z.to_nat (retries - i) <= fuel)%nat ->
  (Z.to_nat (retries - i) <= fuel')%nat ->
  retryLoop fuel fn retries i cb r lastErr w
  = retryLoop fuel' fn retries i cb r lastErr w.
Proof.
  revert fuel' i cb r lastErr w.
  induction fuel as [|fuel IH]; intros fuel' i cb r lastErr w H1 H2.
  - rewrite !retryLoop_done by lia. reflexivity.
  - destruct (Z.le_gt_cases retries i) as [Hd | Hlt].
    + rewrite !retryLoop_done by lia. reflexivity.
    + destruct fuel' as [|fuel']; [lia |].
      destruct (Do cb fn r w) as [[[[[e|] cb'] r'] | msg] w'] eqn:HDo.
      * rewrite !(retryLoop_failure_step _ _ _ _ _ _ _ _ _ _ Hlt HDo).
        apply IH; lia.
      * now rewrite !(retryLoop_success_step _ _ _ _ _ _ _ _ _ Hlt HDo).
      * now rewrite !(retryLoop_panic_step _ _ _ _ _ _ _ _ Hlt HDo).
Qed.

End RetryFacts.

Section ScriptedRuns.

Variables (script : Script) (ctx : Context) (cfg : ProviderConfig)
  (p : string) (mt : Z) (retries : Z).

Local Abbreviation fn := (attempt (scriptedAPI script) ctx cfg p mt).

Lemma wrap64_small (z : Z) : 0 <= z <= 3 -> wrap64 z = z.
Proof. intros H. unfold wrap64. rewrite Z.mod_small; lia. Qed.

(** A closed breaker lets a failing scripted invocation through and counts
    it: the counter goes up by one from its value or from 0. *)
Lemma Do_scripted_failure (cb : CircuitBreaker) (r : Response.t) (w : World)
    (e : string) :
  threshold cb = 3 -> 0 <= failures cb <= 2 ->
  snd (fst (script (calls w) (clock w))) = Some e ->
  exists cb',
    Do cb fn r w = (Ret (Some e, cb', r), afterCall script w) /\
    threshold cb' = 3 /\ 1 <= failures cb' <= failures cb + 1.
Proof.
  intros Hthr Hf He. rewrite Do_closed by lia.
  set (cb0 := if timeout cb <? Sub (clock w) (lastFail cb)
              then setFailures cb 0 else cb).
  assert (H0 : threshold cb0 = 3 /\ 0 <= failures cb0 <= failures cb).
  { subst cb0. destruct (_ <? _); cbn [setFailures threshold failures]; lia. }
  eexists. split.
  - apply invoke_failure. rewrite attempt_scripted, He. reflexivity.
  - cbn [setLastFail setFailures threshold failures].
    rewrite wrap64_small by lia. lia.
Qed.

Lemma Do_scripted_success (cb : CircuitBreaker) (r : Response.t) (w : World)
    (text : string) :
  threshold cb = 3 -> 0 <= failures cb <= 2 ->
  fst (script (calls w) (clock w)) = (text, None) ->
  exists cb',
    Do cb fn r w
    = (Ret (None, cb', Response.setResponse r text), afterCall script w).
Proof.
  intros Hthr Hf He. rewrite Do_closed by lia.
  eexists. apply invoke_success.
  rewrite attempt_scripted, He. reflexivity.
Qed.

(** The loop on an operation that fails [k] more times and then succeeds
    with [text], on a breaker that stays closed: the operation is invoked
    [k + 1] times, [resp.Response] is [text], and [lastErr] is left as the
    last failure set it (as it was before the loop when [k] is 0). *)
Lemma retryLoop_until_success (text : string) (k : nat) :
  forall (fuel : nat) (i : Z) (cb : CircuitBreaker) (r : Response.t)
         (lastErr : error) (w : World),
    (forall j t, (calls w <= j < calls w + k)%nat ->
                 snd (fst (script j t)) <> None) ->
    (forall t, fst (script (calls w + k)%nat t) = (text, None)) ->
    threshold cb = 3 -> 0 <= failures cb -> failures cb + Z.of_nat k <= 2 ->
    i + Z.of_nat k < retries ->
    (Z.to_nat (retries - i) <= fuel)%nat ->
    exists cb' w' lastErr',
      retryLoop fuel fn retries i cb r lastErr w
      = (Ret (cb', Response.setResponse r text, lastErr'), w') /\
      calls w' = (calls w + k + 1)%nat /\
      match k with
      | O => lastErr' = lastErr
      | Datatypes.S k' =>
          exists t e,
            snd (fst (script (calls w + k')%nat t)) = Some e /\
            lastErr' = Some e
      end.
Proof.
  induction k as [|k IH];
    intros fuel i cb r lastErr w Hfail Hok Hthr Hf0 Hf Hi Hfuel;
    (destruct fuel as [|fuel]; [lia |]).
  - destruct (Do_scripted_success cb r w text) as [cb' HDo];
      [lia | lia | rewrite <- (Nat.add_0_r (calls w)) at 1; apply Hok |].
    exists cb', (afterCall script w), lastErr.
    split; [apply retryLoop_success_step; [lia | exact HDo] |].
    split; [rewrite calls_afterCall; lia | reflexivity].
  - destruct (snd (fst (script (calls w) (clock w)))) as [e|] eqn:He;
      [| exfalso; apply (Hfail (calls w) (clock w)); [lia | exact He]].
    destruct (Do_scripted_failure cb r w e) as (cb1 & HDo & Hthr1 & Hf1);
      [lia | lia | exact He |].
    assert (Hlt : i < retries) by lia.
    rewrite (retryLoop_failure_step _ _ _ _ _ _ _ _ _ _ _ _ Hlt HDo).
    set (w1 := if i <? retries - 1
               then afterSleep (wrap64 ((i + 1) * Second)) (afterCall script w)
               else afterCall script w).
    assert (Hc : calls w1 = Datatypes.S (calls w)).
    { subst w1. destruct (_ <? _);
        rewrite ?calls_afterSleep, calls_afterCall; reflexivity. }
    destruct (IH fuel (i + 1) cb1 r (Some e) w1) as (cb' & w' & le' & HR & HC & HL).
    + intros j t Hj. apply Hfail. lia.
    + intros t. rewrite Hc.
      replace (Datatypes.S (calls w) + k)%nat
        with (calls w + Datatypes.S k)%nat by lia.
      apply Hok.
    + exact Hthr1.
    + lia.
    + lia.
    + lia.
    + lia.
    + exists cb', w', le'. split; [exact HR |].
      split; [lia |].
      destruct k as [|k'].
      * exists (clock w), e. rewrite Nat.add_0_r. now split.
      * destruct HL as (t & e' & Hs & Hl). exists t, e'.
        rewrite Hc in Hs.
        replace (calls w + Datatypes.S k')%nat
          with (Datatypes.S (calls w) + k')%nat by lia.
        now split.
Qed.

(** The loop on an operation that fails on each of the [k] iterations that
    are left, on a breaker that stays closed: the operation is invoked [k]
    times, [resp] is as before, and [lastErr] is the last failure. *)
Lemma retryLoop_all_fail (k : nat) :
  forall (fuel : nat) (i : Z) (cb : CircuitBreaker) (r : Response.t)
         (lastErr : error) (w : World),
    (forall j t, (calls w <= j < calls w + k)%nat ->
                 snd (fst (script j t)) <> None) ->
    threshold cb = 3 -> 0 <= failures cb -> failures cb + Z.of_nat k <= 3 ->
    i + Z.of_nat k = retries ->
    (k <= fuel)%nat ->
    exists cb' w' lastErr',
      retryLoop fuel fn retries i cb r lastErr w
      = (Ret (cb', r, lastErr'), w') /\
      calls w' = (calls w + k)%nat /\
      match k with
      | O => lastErr' = lastErr
      | Datatypes.S k' =>
          exists t e,
            snd (fst (script (calls w + k')%nat t)) = Some e /\
            lastErr' = Some e
      end.
Proof.
  induction k as [|k IH];
    intros fuel i cb r lastErr w Hfail Hthr Hf0 Hf Hi Hfuel.
  - exists cb, w, lastErr. rewrite retryLoop_done by lia.
    split; [reflexivity |]. split; [lia | reflexivity].
  - destruct fuel as [|fuel]; [lia |].
    destruct (snd (fst (script (calls w) (clock w)))) as [e|] eqn:He;
      [| exfalso; apply (Hfail (calls w) (clock w)); [lia | exact He]].
    destruct (Do_scripted_failure cb r w e) as (cb1 & HDo & Hthr1 & Hf1);
      [lia | lia | exact He |].
    assert (Hlt : i < retries) by lia.
    rewrite (retryLoop_failure_step _ _ _ _ _ _ _ _ _ _ _ _ Hlt HDo).
    set (w1 := if i <? retries - 1
               then afterSleep (wrap64 ((i + 1) * Second)) (afterCall script w)
               else afterCall script w).
    assert (Hc : calls w1 = Datatypes.S (calls w)).
    { subst w1. destruct (_ <? _);
        rewrite ?calls_afterSleep, calls_afterCall; reflexivity. }
    destruct (IH fuel (i + 1) cb1 r (Some e) w1)
      as (cb' & w' & le' & HR & HC & HL);
      [intros j t Hj; apply Hfail; lia | exact Hthr1 | lia | lia | lia | lia |].
    exists cb', w', le'. split; [exact HR |].
    split; [lia |].
    destruct k as [|k'].
    + exists (clock w), e. rewrite Nat.add_0_r. now split.
    + destruct HL as (t & e' & Hs & Hl). exists t, e'.
      rewrite Hc in Hs.
      replace (calls w + Datatypes.S k')%nat
        with (Datatypes.S (calls w) + k')%nat by lia.
      now split.
Qed.

End ScriptedRuns.

(** ** Runs of [main] on scripted operations *)

Section ScriptedMain.

Variables (env : Env) (flags : Flags.t) (cfg : ProviderConfig)
  (prompt : string) (script : Script).

(** What the code does for an operation that fails [n] times and then
    succeeds, with more than [n] attempts and at most two failures (so that
    the breaker stays closed): the loop stops at the first success, the
    operation is invoked exactly [n + 1] times, and the response text is
    that of the success. With no failure before it the run is a success.
    After a failure the error text is that of the last failed attempt:
    [lastErr] still holds it when the loop is left. *)
Theorem retry_stops_at_first_success (n : nat) (text : string) (w : World) :
  failsThenSucceeds script n text ->
  (n <= 2)%nat ->
  Z.of_nat n < Flags.retries flags ->
  calls w = 0%nat ->
  exists run w',
    mainWith (scriptedAPI script) env flags cfg prompt w = (Ret run, w') /\
    calls w' = (n + 1)%nat /\
    Response.Response (resp run) = text /\
    match n with
    | O => Response.Error (resp run) = EmptyString /\ exitCode run = 0
    | Datatypes.S n' =>
        exists t e,
          snd (fst (script n' t)) = Some e /\
          Response.Error (resp run) = e
    end.
Proof.
  intros [Hfail Hok] Hn Hr Hc. rewrite mainWith_unfold. unfold mainAttempt.
  destruct (retryLoop_until_success script (mainContext flags w) cfg
              (buildPrompt (loaded flags w) prompt) (Flags.maxTokens flags)
              (Flags.retries flags) text n (Z.to_nat (Flags.retries flags)) 0
              NewCircuitBreaker (startResponse env flags prompt (clock w))
              None w)
    as (cb' & w' & le' & HR & HC & HL).
  - intros j t Hj. apply Hfail. lia.
  - intros t. rewrite Hc. apply Hok.
  - reflexivity.
  - cbn. lia.
  - cbn [NewCircuitBreaker failures]. lia.
  - lia.
  - lia.
  - rewrite HR, finish_unfold. cbn zeta.
    eexists _, _. split; [reflexivity |].
    split; [destruct (_ && _); rewrite ?calls_afterSave; lia |].
    cbn [resp exitCode].
    split; [unfold reported; destruct le'; reflexivity |].
    destruct n as [|n'].
    + subst le'. split; [reflexivity |].
      unfold output.
      cbn [reported startResponse Response.setDuration Response.setResponse
           Response.Error isEmpty].
      now destruct (Flags.jsonOut flags).
    + destruct HL as (t & e & Hs & ->). exists t, e.
      rewrite Hc in Hs. split; [exact Hs | reflexivity].
Qed.

(** What the code does when every attempt fails and there are at most three
    (so that no attempt meets an open breaker): the operation is invoked
    [retries] times, there is no response text, and the error text is that
    of the last attempt. *)
Theorem retry_exhausted_reports_last_failure (w : World) :
  1 <= Flags.retries flags <= 3 ->
  (forall k t, (k < Z.to_nat (Flags.retries flags))%nat ->
               snd (fst (script k t)) <> None) ->
  calls w = 0%nat ->
  exists run w' t e,
    mainWith (scriptedAPI script) env flags cfg prompt w = (Ret run, w') /\
    calls w' = Z.to_nat (Flags.retries flags) /\
    snd (fst (script (Z.to_nat (Flags.retries flags) - 1)%nat t)) = Some e /\
    Response.Response (resp run) = EmptyString /\
    Response.Error (resp run) = e.
Proof.
  intros Hr Hfail Hc. rewrite mainWith_unfold. unfold mainAttempt.
  destruct (retryLoop_all_fail script (mainContext flags w) cfg
              (buildPrompt (loaded flags w) prompt) (Flags.maxTokens flags)
              (Flags.retries flags) (Z.to_nat (Flags.retries flags))
              (Z.to_nat (Flags.retries flags)) 0
              NewCircuitBreaker (startResponse env flags prompt (clock w))
              None w)
    as (cb' & w' & le' & HR & HC & HL).
  - intros j t Hj. apply Hfail. lia.
  - reflexivity.
  - cbn. lia.
  - cbn [NewCircuitBreaker failures]. lia.
  - lia.
  - lia.
  - rewrite HR, finish_unfold. cbn zeta.
    destruct (Z.to_nat (Flags.retries flags)) as [|k'] eqn:Hk; [lia |].
    destruct HL as (t & e & Hs & ->).
    eexists _, _, t, e. split; [reflexivity |].
    split; [destruct (_ && _); rewrite ?calls_afterSave; lia |].
    split;
      [rewrite Hc in Hs;
       replace (Datatypes.S k' - 1)%nat with k' by lia; exact Hs |].
    cbn [resp]. split; reflexivity.
Qed.

End ScriptedMain.

(** ** The failing retry: a success after a failure *)

Lemma boomThenOk_fails_then_succeeds : failsThenSucceeds boomThenOk 1 "ok".
Proof.
  split.
  - intros k t Hk. destruct k as [|k]; [discriminate | lia].
  - intros t. reflexivity.
Qed.

(** C1, on the operation that fails once with ["boom"] and then succeeds
    with ["ok"], with three attempts: the loop stops at the success after two
    invocations and the response text is ["ok"], but the error text is
    ["boom"], the error is logged, nothing is printed and the exit status
    is 1. [lastErr] is assigned on line 434 and never cleared when a later
    attempt succeeds. *)
Theorem retried_success_is_reported_as_failure :
  failsThenSucceeds boomThenOk 1 "ok" /\
  1 < Flags.retries (someFlags EmptyString 3) /\
  exists run w',
    mainWith (scriptedAPI boomThenOk) offlineEnv (someFlags EmptyString 3)
      (someConfig "anthropic") "hello" someWorld = (Ret run, w') /\
    calls w' = 2%nat /\
    Response.Response (resp run) = "ok" /\
    Response.Error (resp run) = "boom" /\
    stdout run = [] /\
    stderr run = [LogError 4711 "boom"] /\
    exitCode run = 1.
Proof.
  split; [exact boomThenOk_fails_then_succeeds |].
  split; [reflexivity |].
  eexists _, _. split; [vm_compute; reflexivity |].
  repeat split.
Qed.

(** C2, on the same operation with [-j]: the record that is encoded to
    standard output has a response text and an error text, both non-empty. *)
Theorem outcome_has_response_and_error :
  exists run w',
    mainWith (scriptedAPI boomThenOk) offlineEnv
      {| Flags.model := "claude4"; Flags.sessionID := EmptyString;
         Flags.maxTokens := 1024; Flags.timeout := 30; Flags.retries := 3;
         Flags.quiet := false; Flags.jsonOut := true |}
      (someConfig "anthropic") "hello" someWorld = (Ret run, w') /\
    stdout run = [Encoded (resp run)] /\
    Response.Response (resp run) = "ok" /\
    Response.Error (resp run) = "boom" /\
    isEmpty (Response.Response (resp run)) = false /\
    isEmpty (Response.Error (resp run)) = false.
Proof.
  eexists _, _. split; [vm_compute; reflexivity |].
  repeat split.
Qed.

(** C3, on the same operation with the session id ["s"]: the last attempt
    succeeded with ["ok"], and the session has no new turn and no file is
    written. *)
Theorem session_not_saved_after_retried_success :
  exists run w',
    mainWith (scriptedAPI boomThenOk) offlineEnv (someFlags "s" 3)
      (someConfig "anthropic") "hello" someWorld = (Ret run, w') /\
    Response.Response (resp run) = "ok" /\
    History (session run) = [] /\
    files w' !! sessionPath "s" "claude4" = None /\
    files w' = files someWorld.
Proof.
  eexists _, _. split; [vm_compute; reflexivity |].
  repeat split.
Qed.

(** The same session on an operation that succeeds at once: both turns are
    appended and the file is written. *)
Example session_saved_after_first_try_success :
  exists run w',
    mainWith (scriptedAPI alwaysOk) offlineEnv (someFlags "s" 3)
      (someConfig "anthropic") "hello" someWorld = (Ret run, w') /\
    History (session run)
    = [mkMessage "user" "hello"; mkMessage "assistant" "ok"] /\
    files w' !! sessionPath "s" "claude4" = Some (session run) /\
    exitCode run = 0.
Proof.
  eexists _, _. split; [vm_compute; reflexivity |].
  repeat split.
Qed.

(** ** The provider adapter *)

Section AdapterFacts.

Variable env : Env.

Lemma requestBody_unknown (cfg : ProviderConfig) (prompt : string)
    (maxTokens : Z) :
  ProviderType cfg <> "anthropic" ->
  ProviderType cfg <> "openai" ->
  ProviderType cfg <> EmptyString ->
  requestBody cfg prompt maxTokens = None.
Proof.
  intros Ha Ho He. unfold requestBody.
  apply String.eqb_neq in Ha, Ho, He. now rewrite Ha, Ho, He.
Qed.

Lemma sends_afterSleep (d : Duration) (w : World) :
  sends (afterSleep d w) = sends w.
Proof.
  unfold sends, afterSleep. cbn [trace].
  rewrite List.filter_app, length_app. cbn. lia.
Qed.

(** An operation that returns an error and leaves the world as it is: the
    loop never panics and only sleeps. *)
Lemma retryLoop_idle_failure (fn : Response.t -> M (error * Response.t))
    (e : string) (retries : Z) :
  (forall r w, fn r w = (Ret (Some e, r), w)) ->
  forall (fuel : nat) (i : Z) (cb : CircuitBreaker) (r : Response.t)
         (lastErr : error) (w : World),
  exists cb' lastErr' w',
    retryLoop fuel fn retries i cb r lastErr w = (Ret (cb', r, lastErr'), w') /\
    sends w' = sends w /\ calls w' = calls w.
Proof.
  intros Hfn. induction fuel as [|fuel IH]; intros i cb r lastErr w.
  - exists cb, lastErr, w. cbn [retryLoop].
    destruct (i <? retries); now split.
  - destruct (Z.le_gt_cases retries i) as [Hd | Hlt].
    + exists cb, lastErr, w. rewrite retryLoop_done by lia. now split.
    + assert (HDo : exists e' cb',
                 Do cb fn r w = (Ret (Some e', cb', r), w)).
      { rewrite Do_unfold. cbn zeta.
        destruct (threshold _ <=? failures _); [eauto |].
        rewrite (invoke_failure _ _ _ _ _ _ _ (Hfn r w)). eauto. }
      destruct HDo as (e' & cb' & HDo).
      rewrite (retryLoop_failure_step _ _ _ _ _ _ _ _ _ _ _ _ Hlt HDo).
      destruct (IH (i + 1) cb' r (Some e')
                  (if i <? retries - 1
                   then afterSleep (wrap64 ((i + 1) * Second)) w else w))
        as (cb'' & le'' & w'' & HR & HS & HC).
      exists cb'', le'', w''. split; [exact HR |].
      destruct (i <? retries - 1);
        [rewrite sends_afterSleep in HS; rewrite calls_afterSleep in HC |];
        now split.
Qed.

(** C8. For a provider type that is neither ["anthropic"] nor ["openai"] nor
    empty, [callAPI] returns the error [unknown provider type: ...] and
    leaves the world as it found it: no request is made, nothing is sent.
    A whole run of [main] on such a configuration, whatever the retry
    count, returns normally and has sent nothing either. *)
Theorem unknown_provider_fails_before_network (ctx : Context)
    (cfg : ProviderConfig) (prompt : string) (maxTokens : Z) (w : World) :
  ProviderType cfg <> "anthropic" ->
  ProviderType cfg <> "openai" ->
  ProviderType cfg <> EmptyString ->
  callAPI env ctx cfg prompt maxTokens w
  = (Ret (EmptyString,
          Some ("unknown provider type: " +:+ ProviderType cfg)), w) /\
  forall flags input,
  exists run w',
    main env flags cfg input w = (Ret run, w') /\ sends w' = sends w.
Proof.
  intros Ha Ho He.
  assert (Hcall : forall ctx p mt w0,
             callAPI env ctx cfg p mt w0
             = (Ret (EmptyString,
                     Some ("unknown provider type: " +:+ ProviderType cfg)),
                w0)).
  { intros ctx0 p mt w0. unfold callAPI.
    now rewrite requestBody_unknown. }
  split; [apply Hcall |].
  intros flags input. unfold main. rewrite mainWith_unfold.
  destruct (retryLoop_idle_failure
              (mainAttempt (callAPI env) flags cfg input w)
              ("unknown provider type: " +:+ ProviderType cfg)
              (Flags.retries flags)) with
      (fuel := Z.to_nat (Flags.retries flags)) (i := 0)
      (cb := NewCircuitBreaker)
      (r := startResponse env flags input (clock w))
      (lastErr := @None string) (w := w)
    as (cb' & le' & w' & HR & HS & _).
  - intros r w0. unfold mainAttempt, attempt, bind, ret.
    now rewrite Hcall.
  - rewrite HR, finish_unfold. cbn zeta.
    eexists _, _. split; [reflexivity |].
    destruct (_ && _); [| exact HS].
    now rewrite sends_afterSave.
Qed.

End AdapterFacts.

Lemma unknown_provider_witness :
  (ProviderType (someConfig "custom") <> "anthropic" /\
   ProviderType (someConfig "custom") <> "openai" /\
   ProviderType (someConfig "custom") <> EmptyString) /\
  callAPI (answeringEnv "{}" Second)
    {| Deadline := clock someWorld + 30 * Second |}
    (someConfig "custom") "hello" 1024 someWorld
  = (Ret (EmptyString, Some "unknown provider type: custom"), someWorld) /\
  forall flags input,
  exists run w',
    main (answeringEnv "{}" Second) flags (someConfig "custom") input someWorld
    = (Ret run, w') /\
    sends w' = sends someWorld.
Proof.
  split; [repeat split; discriminate |].
  apply (unknown_provider_fails_before_network
           (answeringEnv "{}" Second)
           {| Deadline := clock someWorld + 30 * Second |}
           (someConfig "custom") "hello" 1024 someWorld); discriminate.
Defined.

Section ParsingFacts.

Variable env : Env.

Lemma extractResponse_no_fields (cfg : ProviderConfig)
    (result : gmap string JSON) :
  result !! "error" = None ->
  (if String.eqb (ProviderType cfg) "anthropic"
   then result !! "content" else result !! "choices") = None ->
  extractResponse env cfg result
  = Ret (EmptyString, Some "unexpected response format").
Proof.
  intros He Hs. unfold extractResponse.
  destruct (String.eqb (ProviderType cfg) "anthropic");
    now rewrite He, Hs.
Qed.

(** C9. Whatever the JSON decoder is: with the provider type ["anthropic"],
    a body that decodes to [{"content":[{"text":"hello"}]}] gives the text
    ["hello"] and no error, and one that decodes to
    [{"error":{"message":"bad key"}}] gives the error ["bad key"]; with the
    provider type ["openai"] or none, a body that decodes to
    [{"choices":[{"message":{"content":"hi"}}]}] gives the text ["hi"] and
    no error. A body that decodes to an object with neither an ["error"]
    member nor the member the success is read from (["content"], or
    ["choices"]) gives the error [unexpected response format]; a body the
    decoder rejects gives [parse error: ] and the decoder's message. *)
Theorem response_parsing_by_provider_kind :
  (forall cfg body,
     ProviderType cfg = "anthropic" ->
     Unmarshal env body
     = inl {[ "content" := JArray [JObject {[ "text" := JString "hello" ]}] ]} ->
     parseWireResponse env cfg body = Ret ("hello", None)) /\
  (forall cfg body,
     ProviderType cfg = "anthropic" ->
     Unmarshal env body
     = inl {[ "error" := JObject {[ "message" := JString "bad key" ]} ]} ->
     parseWireResponse env cfg body = Ret (EmptyString, Some "bad key")) /\
  (forall cfg body,
     ProviderType cfg = "openai" \/ ProviderType cfg = EmptyString ->
     Unmarshal env body
     = inl {[ "choices" :=
                JArray [JObject {[ "message" :=
                                     JObject {[ "content" := JString "hi" ]} ]}] ]} ->
     parseWireResponse env cfg body = Ret ("hi", None)) /\
  (forall cfg body result,
     Unmarshal env body = inl result ->
     result !! "error" = None ->
     (if String.eqb (ProviderType cfg) "anthropic"
      then result !! "content" else result !! "choices") = None ->
     parseWireResponse env cfg body
     = Ret (EmptyString, Some "unexpected response format")) /\
  (forall cfg body e,
     Unmarshal env body = inr e ->
     parseWireResponse env cfg body
     = Ret (EmptyString, Some ("parse error: " +:+ e))).
Proof.
  repeat split.
  - intros cfg body Hty HU. unfold parseWireResponse, extractResponse.
    rewrite HU, Hty. reflexivity.
  - intros cfg body Hty HU. unfold parseWireResponse, extractResponse.
    rewrite HU, Hty. reflexivity.
  - intros cfg body Hty HU. unfold parseWireResponse, extractResponse.
    rewrite HU. destruct Hty as [-> | ->]; reflexivity.
  - intros cfg body result HU He Hs. unfold parseWireResponse.
    rewrite HU. now apply extractResponse_no_fields.
  - intros cfg body e HU. unfold parseWireResponse. now rewrite HU.
Qed.

End ParsingFacts.

(** The bodies of the specification as texts, through [miniUnmarshal]. *)
Lemma response_parsing_witness :
  parseWireResponse offlineEnv (someConfig "anthropic")
    (jsonText "{'content':[{'text':'hello'}]}") = Ret ("hello", None) /\
  parseWireResponse offlineEnv (someConfig "anthropic")
    (jsonText "{'error':{'message':'bad key'}}")
  = Ret (EmptyString, Some "bad key") /\
  parseWireResponse offlineEnv (someConfig "openai")
    (jsonText "{'choices':[{'message':{'content':'hi'}}]}") = Ret ("hi", None) /\
  parseWireResponse offlineEnv (someConfig EmptyString)
    (jsonText "{'choices':[{'message':{'content':'hi'}}]}") = Ret ("hi", None) /\
  parseWireResponse offlineEnv (someConfig "anthropic")
    (jsonText "{'id':'msg_1','type':'message'}")
  = Ret (EmptyString, Some "unexpected response format") /\
  parseWireResponse offlineEnv (someConfig "openai")
    (jsonText "{'id':'msg_1','type':'message'}")
  = Ret (EmptyString, Some "unexpected response format") /\
  parseWireResponse offlineEnv (someConfig "openai") "<html>"
  = Ret (EmptyString, Some "parse error: invalid JSON").
Proof.
  destruct (response_parsing_by_provider_kind offlineEnv)
    as (Hhello & Hbad & Hhi & Hnone & Hparse).
  split; [apply Hhello; vm_compute; reflexivity |].
  split; [apply Hbad; vm_compute; reflexivity |].
  split; [apply Hhi; [left | ]; vm_compute; reflexivity |].
  split; [apply Hhi; [right | ]; vm_compute; reflexivity |].
  split; [eapply Hnone; vm_compute; reflexivity |].
  split; [eapply Hnone; vm_compute; reflexivity |].
  apply Hparse. vm_compute. reflexivity.
Defined.

(** ** The order of a [range] loop *)

Section RangeFacts.

Context {A : Type}.

(** A [range] loop visits every entry once. *)
Lemma pickOrder_Permutation (seed : nat -> nat) (n : nat) :
  forall l : list A, length l = n -> pickOrder n seed l ≡ₚ l.
Proof.
  induction n as [|n IH]; intros l Hl; cbn [pickOrder].
  - now destruct l.
  - cbn zeta.
    assert (Hi : (seed n mod length l < length l)%nat)
      by (apply Nat.mod_upper_bound; lia).
    destruct (lookup_lt_is_Some_2 l _ Hi) as [x Hx]. rewrite Hx.
    etransitivity; [| symmetry; exact (delete_Permutation l _ x Hx)].
    constructor. apply IH. rewrite length_delete by eauto. lia.
Qed.

Lemma pickOrder_ext (seed seed' : nat -> nat) (n : nat) :
  (forall k, (k < n)%nat -> seed k = seed' k) ->
  forall l : list A, pickOrder n seed l = pickOrder n seed' l.
Proof.
  induction n as [|n IH]; intros Hs l; cbn [pickOrder]; [reflexivity |].
  cbn zeta. rewrite (Hs n) by lia.
  destruct (l !! _); [| reflexivity].
  f_equal. apply IH. intros k Hk. apply Hs. lia.
Qed.

(** And it can visit them in any order. *)
Lemma pickOrder_any (l' : list A) :
  forall l : list A,
    l ≡ₚ l' -> exists seed, pickOrder (length l) seed l = l'.
Proof.
  induction l' as [|x l' IH]; intros l Hp.
  - apply Permutation_nil_r in Hp. subst l. now exists (fun _ => 0%nat).
  - assert (Hin : x ∈ l) by (rewrite Hp; left).
    apply list_elem_of_lookup in Hin as [i Hi].
    pose proof (lookup_lt_Some _ _ _ Hi) as Hlt.
    assert (Hrest : delete i l ≡ₚ l').
    { apply (Permutation_cons_inv (a := x)).
      now rewrite <- (delete_Permutation l i x Hi). }
    destruct (IH _ Hrest) as [seed Hseed].
    assert (Hlen : length l = Datatypes.S (length (delete i l))).
    { rewrite length_delete by eauto. lia. }
    exists (fun k => if (k =? length (delete i l))%nat then i else seed k).
    rewrite Hlen at 1. cbn [pickOrder]. cbn zeta.
    rewrite Nat.eqb_refl, Nat.mod_small by exact Hlt. rewrite Hi.
    f_equal. rewrite <- Hseed. apply pickOrder_ext.
    intros k Hk. destruct (Nat.eqb_spec k (length (delete i l))); [lia |].
    reflexivity.
Qed.

End RangeFacts.

Lemma rangeOver_Permutation (seed : nat -> nat) (m : gmap string string) :
  rangeOver seed m ≡ₚ map_to_list m.
Proof.
  unfold rangeOver. apply pickOrder_Permutation.
  now rewrite length_map_to_list.
Qed.

Lemma rangeOver_any (m : gmap string string) (order : list (string * string)) :
  map_to_list m ≡ₚ order -> exists seed, rangeOver seed m = order.
Proof.
  intros Hp. destruct (pickOrder_any order _ Hp) as [seed Hs].
  exists seed. unfold rangeOver. now rewrite <- length_map_to_list.
Qed.

(** ** Exchanges *)

Section ExchangeFacts.

Variable env : Env.

Lemma requestBody_some (cfg : ProviderConfig) (p : string) (mt : Z)
    (body : RequestBody) :
  requestBody cfg p mt = Some body ->
  body = {| bodyModel := Model cfg;
            bodyMessages := [[("role", "user"); ("content", p)]];
            bodyMaxTokens := mt |}.
Proof.
  unfold requestBody.
  destruct (String.eqb _ "anthropic"); [now intros [= <-] |].
  destruct (_ || _); [now intros [= <-] | discriminate].
Qed.

Lemma delayOf_nonneg (pieces : list (Duration * string)) :
  0 <= delayOf pieces.
Proof. induction pieces as [|[d b] rest IH]; cbn [delayOf]; lia. Qed.

(** Reading ends between the instant it starts and the limit. *)
Lemma readPieces_bounds (limit : Time) (pieces : list (Duration * string)) :
  forall t, t <= limit -> t <= snd (readPieces limit t pieces) <= limit.
Proof.
  induction pieces as [|[d b] rest IH]; intros t Ht; cbn [readPieces].
  - cbn [snd]. lia.
  - cbn zeta. destruct (Z.ltb_spec limit (t + Z.max 0 d)) as [Hcut | Hfit].
    + cbn [snd]. lia.
    + specialize (IH (t + Z.max 0 d) Hfit).
      destruct (readPieces limit (t + Z.max 0 d) rest) as [more done].
      cbn [snd] in *. lia.
Qed.

(** A body all of whose pieces arrive by the limit is read whole. *)
Lemma readPieces_whole (limit : Time) (pieces : list (Duration * string)) :
  forall t,
    t + delayOf pieces <= limit ->
    readPieces limit t pieces = (bytesOf pieces, t + delayOf pieces).
Proof.
  induction pieces as [|[d b] rest IH]; intros t Ht;
    cbn [readPieces delayOf bytesOf] in *.
  - now rewrite Z.add_0_r.
  - cbn zeta. pose proof (delayOf_nonneg rest).
    destruct (Z.ltb_spec limit (t + Z.max 0 d)); [lia |].
    rewrite IH by lia. f_equal. lia.
Qed.

(** A body whose next piece is not there at the limit: the pieces before it
    are what is read, and the reading ends at the limit. *)
Lemma readPieces_cut (limit : Time) (before : list (Duration * string))
    (d' : Duration) (late : string) (rest : list (Duration * string)) :
  forall t,
    t + delayOf before <= limit ->
    limit < t + delayOf before + Z.max 0 d' ->
    readPieces limit t (before ++ (d', late) :: rest)
    = (bytesOf before, limit).
Proof.
  induction before as [|[d b] before IH]; intros t Hin Hlate;
    cbn [app readPieces delayOf bytesOf] in *.
  - cbn zeta. destruct (Z.ltb_spec limit (t + Z.max 0 d')); [reflexivity | lia].
  - cbn zeta. pose proof (delayOf_nonneg before).
    destruct (Z.ltb_spec limit (t + Z.max 0 d)); [lia |].
    now rewrite IH by lia.
Qed.

(** [callAPI], case by case. *)
Lemma callAPI_unfold (ctx : Context) (cfg : ProviderConfig) (p : string)
    (mt : Z) (w : World) :
  callAPI env ctx cfg p mt w
  = match requestBody cfg p mt with
    | None =>
        (Ret (EmptyString,
              Some ("unknown provider type: " +:+ ProviderType cfg)), w)
    | Some body =>
        match NewRequestError env (Endpoint cfg) with
        | Some e => (Ret (EmptyString, Some e), w)
        | None =>
            let req := newRequest cfg body (visitedIn env cfg w) in
            let headers :=
              clock w
              + Z.max 0 (snd (exchange env (sends w) req (clock w))) in
            let limit := exchangeLimit ctx (clock w) in
            if Deadline ctx <=? clock w
            then (Ret (EmptyString, Some (deadlineError env req)), w)
            else if limit <? headers
            then (Ret (EmptyString, Some (deadlineError env req)),
                  exchanged req limit w)
            else
              match fst (exchange env (sends w) req (clock w)) with
              | NetError msg =>
                  (Ret (EmptyString, Some msg), exchanged req headers w)
              | NetResponse pieces =>
                  (parseWireResponse env cfg
                     (fst (readPieces limit headers pieces)),
                   exchanged req (snd (readPieces limit headers pieces)) w)
              end
        end
    end.
Proof.
  unfold callAPI.
  destruct (requestBody cfg p mt) as [body |]; [| reflexivity].
  destruct (NewRequestError env (Endpoint cfg)); [reflexivity |].
  cbn zeta.
  unfold bind, rangeHeaders, clientDo, ReadAll, ret, exchanged, exchangeLimit.
  destruct (Deadline ctx <=? clock w); [reflexivity |].
  destruct (exchange env (sends w) _ (clock w)) as [reply d]. cbn [fst snd].
  destruct (_ <? _); [now rewrite <- app_assoc |].
  destruct reply as [pieces | msg]; [| now rewrite <- app_assoc].
  cbn [clock trace files bodyPieces readLimit].
  destruct (readPieces _ _ pieces) as [bytes done]. cbn [fst snd].
  now rewrite <- app_assoc.
Qed.

(** The world [callAPI] leaves: the one it found, or that world after one
    exchange that was started before the deadline and ended by it (and by
    the timeout of the client). *)
Lemma callAPI_world (ctx : Context) (cfg : ProviderConfig) (p : string)
    (mt : Z) (w : World) :
  snd (callAPI env ctx cfg p mt w) = w \/
  exists body done,
    requestBody cfg p mt = Some body /\
    clock w < Deadline ctx /\
    clock w <= done <= exchangeLimit ctx (clock w) /\
    snd (callAPI env ctx cfg p mt w)
    = exchanged (newRequest cfg body (visitedIn env cfg w)) done w.
Proof.
  rewrite callAPI_unfold.
  destruct (requestBody cfg p mt) as [body |]; [| now left].
  destruct (NewRequestError env (Endpoint cfg)); [now left |].
  cbn zeta.
  destruct (Z.leb_spec (Deadline ctx) (clock w)) as [Hd | Hd]; [now left |].
  right. exists body.
  assert (Hlim : clock w <= exchangeLimit ctx (clock w))
    by (unfold exchangeLimit, clientTimeout, Second; lia).
  destruct (Z.ltb_spec (exchangeLimit ctx (clock w))
              (clock w + Z.max 0 (snd (exchange env (sends w)
                 (newRequest cfg body (visitedIn env cfg w)) (clock w)))))
    as [Hcut | Hfit].
  - eexists. split; [reflexivity |]. split; [exact Hd |].
    split; [| reflexivity]. lia.
  - destruct (fst (exchange env _ _ _)) as [pieces | msg].
    + pose proof (readPieces_bounds (exchangeLimit ctx (clock w)) pieces
                    _ Hfit) as Hb.
      eexists. split; [reflexivity |]. split; [exact Hd |].
      split; [| reflexivity]. lia.
    + eexists. split; [reflexivity |]. split; [exact Hd |].
      split; [| reflexivity]. lia.
Qed.

Lemma sends_exchanged (req : WireRequest) (done : Time) (w : World) :
  sends (exchanged req done w) = Datatypes.S (sends w).
Proof.
  unfold sends, exchanged. cbn [trace].
  rewrite List.filter_app, length_app. cbn. lia.
Qed.

Lemma callAPI_after_deadline (ctx : Context) (cfg : ProviderConfig)
    (p : string) (mt : Z) (w : World) (body : RequestBody) :
  requestBody cfg p mt = Some body ->
  NewRequestError env (Endpoint cfg) = None ->
  Deadline ctx <= clock w ->
  callAPI env ctx cfg p mt w
  = (Ret (EmptyString,
          Some (deadlineError env
                  (newRequest cfg body (visitedIn env cfg w)))), w).
Proof.
  intros Hb Hu Hd. rewrite callAPI_unfold, Hb, Hu. cbn zeta.
  destruct (Z.leb_spec (Deadline ctx) (clock w)); [reflexivity | lia].
Qed.

Lemma callAPI_cut_off (ctx : Context) (cfg : ProviderConfig) (p : string)
    (mt : Z) (w : World) (body : RequestBody) :
  requestBody cfg p mt = Some body ->
  NewRequestError env (Endpoint cfg) = None ->
  clock w < Deadline ctx ->
  Deadline ctx
  < clock w
    + snd (exchange env (sends w)
             (newRequest cfg body (visitedIn env cfg w)) (clock w)) ->
  exists w',
    callAPI env ctx cfg p mt w
    = (Ret (EmptyString,
            Some (deadlineError env
                    (newRequest cfg body (visitedIn env cfg w)))), w')
    /\ clock w < clock w' <= Deadline ctx
    /\ sends w' = Datatypes.S (sends w).
Proof.
  intros Hb Hu Hlive Hlate. rewrite callAPI_unfold, Hb, Hu. cbn zeta.
  destruct (Z.leb_spec (Deadline ctx) (clock w)); [lia |].
  destruct (Z.ltb_spec (exchangeLimit ctx (clock w))
              (clock w + Z.max 0 (snd (exchange env (sends w)
                 (newRequest cfg body (visitedIn env cfg w)) (clock w)))))
    as [Hcut | Hfit];
    [| unfold exchangeLimit in Hfit; lia].
  eexists. split; [reflexivity |].
  split; [| apply sends_exchanged].
  cbn [exchanged clock]. unfold exchangeLimit, clientTimeout, Second. lia.
Qed.

Lemma callAPI_body_cut_off (ctx : Context) (cfg : ProviderConfig)
    (p : string) (mt : Z) (w : World) (body : RequestBody) (d : Duration)
    (before : list (Duration * string)) (d' : Duration) (late : string)
    (rest : list (Duration * string)) :
  requestBody cfg p mt = Some body ->
  NewRequestError env (Endpoint cfg) = None ->
  clock w < Deadline ctx ->
  exchange env (sends w) (newRequest cfg body (visitedIn env cfg w)) (clock w)
  = (NetResponse (before ++ (d', late) :: rest), d) ->
  clock w + Z.max 0 d + delayOf before <= exchangeLimit ctx (clock w) ->
  exchangeLimit ctx (clock w)
  < clock w + Z.max 0 d + delayOf before + Z.max 0 d' ->
  exists w',
    callAPI env ctx cfg p mt w
    = (parseWireResponse env cfg (bytesOf before), w') /\
    clock w' = exchangeLimit ctx (clock w) /\
    clock w' <= Deadline ctx /\
    sends w' = Datatypes.S (sends w).
Proof.
  intros Hb Hu Hlive Hex Hin Hlate.
  rewrite callAPI_unfold, Hb, Hu. cbn zeta. rewrite Hex. cbn [fst snd].
  pose proof (delayOf_nonneg before).
  destruct (Z.leb_spec (Deadline ctx) (clock w)); [lia |].
  destruct (Z.ltb_spec (exchangeLimit ctx (clock w)) (clock w + Z.max 0 d));
    [lia |].
  rewrite (readPieces_cut _ before d' late rest) by lia. cbn [fst snd].
  eexists. split; [reflexivity |].
  split; [reflexivity |]. split; [| apply sends_exchanged].
  cbn [exchanged clock]. unfold exchangeLimit. lia.
Qed.

End ExchangeFacts.

(** ** What a run keeps *)

Section Keeps.

Variable Q : World -> Prop.

Lemma keeps_ret {A : Type} (a : A) : preserves Q (ret a).
Proof. intros w H. exact H. Qed.

Lemma keeps_bind {A B : Type} (m : M A) (k : A -> M B) :
  preserves Q m -> (forall a, preserves Q (k a)) -> preserves Q (bind m k).
Proof.
  intros Hm Hk w H. unfold bind.
  specialize (Hm w H). destruct (m w) as [[a | msg] w']; cbn [snd] in Hm.
  - now apply Hk.
  - exact Hm.
Qed.

Lemma keeps_Since (t : Time) : preserves Q (Since t).
Proof. intros w H. exact H. Qed.

Lemma keeps_Do {S : Type} (cb : CircuitBreaker) (fn : S -> M (error * S))
    (s : S) :
  (forall s, preserves Q (fn s)) -> preserves Q (Do cb fn s).
Proof.
  intros Hfn. unfold Do. apply keeps_bind; [apply keeps_Since |].
  intros since. destruct (threshold _ <=? failures _); [apply keeps_ret |].
  unfold invoke. apply keeps_bind; [apply Hfn |].
  intros [[e |] s']; [| apply keeps_ret].
  apply keeps_bind; [| intros; apply keeps_ret].
  intros w H. exact H.
Qed.

Hypothesis keeps_Sleep : forall d, preserves Q (Sleep d).

Lemma keeps_retryLoop (fn : Response.t -> M (error * Response.t))
    (retries : Z) :
  (forall r, preserves Q (fn r)) ->
  forall fuel i cb r lastErr,
    preserves Q (retryLoop fuel fn retries i cb r lastErr).
Proof.
  intros Hfn. induction fuel as [|fuel IH]; intros i cb r lastErr;
    cbn [retryLoop]; destruct (i <? retries); try apply keeps_ret.
  apply keeps_bind; [now apply keeps_Do |].
  intros [[[e |] cb'] r']; [| apply keeps_ret].
  apply keeps_bind; [| intros; apply IH].
  destruct (i <? retries - 1); [apply keeps_Sleep | apply keeps_ret].
Qed.

Lemma keeps_attempt (api : API) (ctx : Context) (cfg : ProviderConfig)
    (p : string) (mt : Z) (r : Response.t) :
  preserves Q (api ctx cfg p mt) -> preserves Q (attempt api ctx cfg p mt r).
Proof.
  intros Hapi. unfold attempt. apply keeps_bind; [exact Hapi |].
  intros [text [e |]]; apply keeps_ret.
Qed.

(** [callAPI] keeps what an exchange keeps. *)
Lemma keeps_callAPI (env : Env) (ctx : Context) (cfg : ProviderConfig)
    (p : string) (mt : Z) :
  (forall req done w,
     Q w -> clock w <= done ->
     Method req = "POST" -> URL req = Endpoint cfg ->
     Body req = {| bodyModel := Model cfg;
                   bodyMessages := [[("role", "user"); ("content", p)]];
                   bodyMaxTokens := mt |} ->
     Q (exchanged req done w)) ->
  preserves Q (callAPI env ctx cfg p mt).
Proof.
  intros Hex w H.
  destruct (callAPI_world env ctx cfg p mt w)
    as [-> | (body & done & Hb & _ & Hdone & ->)]; [exact H |].
  apply requestBody_some in Hb. subst body.
  apply Hex; [exact H | lia | reflexivity ..].
Qed.

(** The loop of a run of [main] keeps what an exchange and [Sleep] keep. *)
Lemma keeps_main_loop (env : Env) (flags : Flags.t) (cfg : ProviderConfig)
    (input : string) (w : World) :
  (forall req done w0,
     Q w0 -> clock w0 <= done ->
     Method req = "POST" -> URL req = Endpoint cfg ->
     Body req = mainBody flags cfg input w ->
     Q (exchanged req done w0)) ->
  preserves Q
    (retryLoop (Z.to_nat (Flags.retries flags))
       (mainAttempt (callAPI env) flags cfg input w) (Flags.retries flags) 0
       NewCircuitBreaker (startResponse env flags input (clock w)) None).
Proof.
  intros Hex. apply keeps_retryLoop. intros r. apply keeps_attempt.
  apply keeps_callAPI. exact Hex.
Qed.

End Keeps.

(** Every sleep of a run of [main] lasts its full length. *)
Lemma main_sleeps_in_full (env : Env) (flags : Flags.t) (cfg : ProviderConfig)
    (input : string) (w : World) :
  sleepsInFull w -> sleepsInFull (snd (main env flags cfg input w)).
Proof.
  intros H. unfold main. rewrite mainWith_unfold.
  assert (Hloop :
            preserves sleepsInFull
              (retryLoop (Z.to_nat (Flags.retries flags))
                 (mainAttempt (callAPI env) flags cfg input w)
                 (Flags.retries flags) 0 NewCircuitBreaker
                 (startResponse env flags input (clock w)) None)).
  { apply keeps_main_loop.
    - intros d w0 H0. unfold sleepsInFull, Sleep in *. cbn [snd clock trace].
      apply Forall_app. split.
      + eapply Forall_impl; [exact H0 |].
        intros [] He; cbn [sleptInFull] in *; try exact I.
        destruct (Z.leb_spec d 0); lia.
      + repeat constructor. cbn [sleptInFull].
        destruct (Z.leb_spec d 0); lia.
    - intros req done w0 H0 Hdone _ _ _.
      unfold sleepsInFull, exchanged in *. cbn [clock trace].
      apply Forall_app. split.
      + eapply Forall_impl; [exact H0 |].
        intros [] He; cbn [sleptInFull] in *; try exact I. lia.
      + repeat constructor. }
  specialize (Hloop w H).
  destruct (retryLoop _ _ _ _ _ _ _ w) as [[[[cb r] e] | msg] w'];
    cbn [snd] in Hloop |- *; [| exact Hloop].
  rewrite finish_unfold. cbn zeta. cbn [snd].
  destruct (_ && _); [| exact Hloop].
  unfold sleepsInFull. now rewrite afterSave_clock, afterSave_trace.
Qed.

(** ** The deadline *)

Section DeadlineFacts.

Variables (env : Env) (D : Time).

Local Abbreviation Q := (exchangesGoverned D).

Lemma preserves_ret {A : Type} (a : A) : preserves Q (ret a).
Proof. intros w H. exact H. Qed.

Lemma preserves_bind {A B : Type} (m : M A) (k : A -> M B) :
  preserves Q m -> (forall a, preserves Q (k a)) -> preserves Q (bind m k).
Proof.
  intros Hm Hk w H. unfold bind.
  specialize (Hm w H). destruct (m w) as [[a | msg] w']; cbn [snd] in Hm.
  - now apply Hk.
  - exact Hm.
Qed.

Lemma preserves_Now : preserves Q Now.
Proof. intros w H. exact H. Qed.

Lemma preserves_Since (t : Time) : preserves Q (Since t).
Proof.
  apply preserves_bind; [apply preserves_Now | intros; apply preserves_ret].
Qed.

Lemma preserves_Sleep (d : Duration) : preserves Q (Sleep d).
Proof.
  intros w H. unfold exchangesGoverned, Sleep. cbn [snd trace].
  apply Forall_app. split; [exact H |]. now repeat constructor.
Qed.

Lemma preserves_callAPI (cfg : ProviderConfig) (p : string) (mt : Z) :
  preserves Q (callAPI env {| Deadline := D |} cfg p mt).
Proof.
  intros w H.
  destruct (callAPI_world env {| Deadline := D |} cfg p mt w)
    as [-> | (body & done & _ & Hlive & Hdone & ->)]; [exact H |].
  unfold exchangesGoverned, exchanged, exchangeLimit in *.
  cbn [trace Deadline] in *.
  apply Forall_app. split; [exact H |].
  repeat constructor; cbn [exchangeGoverned]; lia.
Qed.

Lemma preserves_attempt (api : API) (ctx : Context) (cfg : ProviderConfig)
    (p : string) (mt : Z) (r : Response.t) :
  preserves Q (api ctx cfg p mt) -> preserves Q (attempt api ctx cfg p mt r).
Proof.
  intros Hapi. unfold attempt. apply preserves_bind; [exact Hapi |].
  intros [text [e |]]; apply preserves_ret.
Qed.

Lemma preserves_Do {S : Type} (cb : CircuitBreaker)
    (fn : S -> M (error * S)) (s : S) :
  (forall s, preserves Q (fn s)) -> preserves Q (Do cb fn s).
Proof.
  intros Hfn. unfold Do. apply preserves_bind; [apply preserves_Since |].
  intros since. destruct (threshold _ <=? failures _); [apply preserves_ret |].
  unfold invoke. apply preserves_bind; [apply Hfn |].
  intros [[e |] s']; [| apply preserves_ret].
  apply preserves_bind; [apply preserves_Now | intros; apply preserves_ret].
Qed.

Lemma preserves_retryLoop (fn : Response.t -> M (error * Response.t))
    (retries : Z) :
  (forall r, preserves Q (fn r)) ->
  forall fuel i cb r lastErr,
    preserves Q (retryLoop fuel fn retries i cb r lastErr).
Proof.
  intros Hfn. induction fuel as [|fuel IH]; intros i cb r lastErr;
    cbn [retryLoop]; destruct (i <? retries); try apply preserves_ret.
  apply preserves_bind; [now apply preserves_Do |].
  intros [[[e |] cb'] r']; [| apply preserves_ret].
  apply preserves_bind; [| intros; apply IH].
  destruct (i <? retries - 1); [apply preserves_Sleep | apply preserves_ret].
Qed.

Lemma preserves_finish (flags : Flags.t) (prompt : string)
    (session : Session) (start : Time) (r : Response.t) (lastErr : error) :
  preserves Q (finish env flags prompt session start r lastErr).
Proof.
  intros w H. rewrite finish_unfold. cbn zeta. cbn [snd].
  destruct (_ && _); [| exact H].
  unfold exchangesGoverned. now rewrite afterSave_trace.
Qed.

End DeadlineFacts.




(** ** Further runs *)

(** In a run of [main] with four attempts on an operation that always
    fails, the operation is invoked three times; the fourth attempt, three
    seconds after the third failure, meets the open breaker. *)
Example fourth_attempt_meets_open_breaker :
  exists run w',
    mainWith (scriptedAPI alwaysBoom) offlineEnv (someFlags EmptyString 4)
      (someConfig "anthropic") "hello" someWorld = (Ret run, w') /\
    calls w' = 3%nat /\
    Response.Error (resp run) = "circuit open" /\
    exitCode run = 1.
Proof.
  eexists _, _. split; [vm_compute; reflexivity |]. repeat split.
Qed.

(** The guard of line 448 reads the error text, not [lastErr]: a failure
    whose text is empty (here the upstream error object has an empty
    message, and there is one attempt) counts as a success, and the session
    is saved with an empty assistant turn. *)
Example failure_with_empty_text_is_saved :
  exists run w',
    main silentErrorEnv (someFlags "s" 1) (someConfig "anthropic") "hello"
      someWorld = (Ret run, w') /\
    parseWireResponse silentErrorEnv (someConfig "anthropic")
      (jsonText "{'error':{'message':''}}")
    = Ret (EmptyString, Some EmptyString) /\
    Response.Error (resp run) = EmptyString /\
    exitCode run = 0 /\
    History (session run)
    = [mkMessage "user" "hello"; mkMessage "assistant" EmptyString] /\
    files w' !! sessionPath "s" "claude4" = Some (session run).
Proof.
  eexists _, _. split; [vm_compute; reflexivity |]. repeat split.
Qed.

(** The failing retry with [callAPI] itself: the first connection is
    refused, the second request is answered with the text ["hello"], and
    the run reports the refused connection and exits with 1. *)
Example flaky_network_is_reported_as_failure :
  exists run w',
    main flakyEnv (someFlags "s" 3) (someConfig "anthropic") "hi" someWorld
    = (Ret run, w') /\
    sends w' = 2%nat /\
    Response.Response (resp run) = "hello" /\
    Response.Error (resp run) = "connection refused" /\
    stdout run = [] /\
    exitCode run = 1 /\
    files w' !! sessionPath "s" "claude4" = None.
Proof.
  eexists _, _. split; [vm_compute; reflexivity |]. repeat split.
Qed.

(** A response that arrives in time, end to end: one request is sent, the
    text is printed, the session is saved. *)
Example answered_in_time :
  exists run w',
    main (answeringEnv (jsonText "{'content':[{'text':'hello'}]}") Second)
      (someFlags "s" 3) (someConfig "anthropic") "hi" someWorld
    = (Ret run, w') /\
    sends w' = 1%nat /\
    stdout run = [Printed ("hello" +:+ LF)] /\
    exitCode run = 0 /\
    History (session run)
    = [mkMessage "user" "hi"; mkMessage "assistant" "hello"].
Proof.
  eexists _, _. split; [vm_compute; reflexivity |]. repeat split.
Qed.

(** The first element of ["content"] is asserted to be a map without the
    [ok] form (line 273): a body whose first element is a string makes
    [callAPI], and with it [main], panic. *)
Example first_element_not_a_map_panics :
  parseWireResponse offlineEnv (someConfig "anthropic")
    (jsonText "{'content':['hello']}")
  = Panic "interface conversion: interface {} is string, not map[string]interface {}".
Proof. vm_compute. reflexivity. Qed.

(** An exchange that is cut off while its body is read. The deadline is a
    second after the start; the response is there after 200 ms, half of its
    body with it, and the rest would follow five seconds later. The reading
    ends at the deadline, its error is dropped, and the run reports what the
    half body parses to: a parse error, not the deadline. *)
Example cut_off_body_is_a_parse_error :
  exists run w',
    main drippingEnv oneHastyTry (someConfig "anthropic") "hello" someWorld
    = (Ret run, w') /\
    clock w' = Deadline (mainContext oneHastyTry someWorld) /\
    sends w' = 1%nat /\
    Response.Error (resp run) = "parse error: invalid JSON" /\
    Response.Error (resp run)
    <> deadlineError drippingEnv
         (newRequest (someConfig "anthropic")
            (mainBody oneHastyTry (someConfig "anthropic") "hello" someWorld)
            []) /\
    exitCode run = 1.
Proof.
  eexists _, _. split; [vm_compute; reflexivity |].
  repeat split. discriminate.
Qed.

(** The same when the whole body is there and only its end is missing at
    the deadline: the run is a success that lasted until the deadline. *)
Example cut_off_body_can_be_a_success :
  exists run w',
    main stallingEnv oneHastyTry (someConfig "anthropic") "hello" someWorld
    = (Ret run, w') /\
    clock w' = Deadline (mainContext oneHastyTry someWorld) /\
    Response.Response (resp run) = "hello" /\
    Response.Error (resp run) = EmptyString /\
    stdout run = [Printed ("hello" +:+ LF)] /\
    exitCode run = 0.
Proof.
  eexists _, _. split; [vm_compute; reflexivity |]. repeat split.
Qed.

(** A session id with a slash names a file in a directory that [save] does
    not make: on a disk without it nothing is written, and the run is a
    success all the same. *)
Example slashed_session_id_is_not_saved :
  exists run w',
    main (answeringEnv (jsonText "{'content':[{'text':'hello'}]}") Second)
      (someFlags "a/b" 3) (someConfig "anthropic") "hi" someWorld
    = (Ret run, w') /\
    History (session run)
    = [mkMessage "user" "hi"; mkMessage "assistant" "hello"] /\
    exitCode run = 0 /\
    files w' = files someWorld.
Proof.
  eexists _, _. split; [vm_compute; reflexivity |]. repeat split.
Qed.

(** Header names are made canonical: a configured [X-API-KEY] replaces the
    key header of the source, which is sent as [X-Api-Key]. *)
Example configured_header_replaces_the_key :
  forall seed,
    requestHeader overridingConfig (rangeOver seed (Headers overridingConfig))
    = {[ "Content-Type" := "application/json";
         "X-Api-Key" := "other";
         "Anthropic-Version" := "2023-06-01" ]}.
Proof.
  intros seed. unfold rangeOver.
  replace (size (Headers overridingConfig)) with 1%nat
    by (vm_compute; reflexivity).
  replace (map_to_list (Headers overridingConfig))
    with [("X-API-KEY", "other")] by (vm_compute; reflexivity).
  cbn [pickOrder length]. rewrite Nat.mod_1_r. cbn [lookup list_lookup].
  vm_compute. reflexivity.
Qed.

(** A configuration that has one header name in two spellings: which value
    is sent depends on the order of the [range] loop, which is not fixed. *)
Example twice_named_header_depends_on_order :
  requestHeader twiceNamedConfig
    (rangeOver (fun _ => 0%nat) (Headers twiceNamedConfig)) !! "X-Trace"
  <> requestHeader twiceNamedConfig
       (rangeOver (fun _ => 1%nat) (Headers twiceNamedConfig)) !! "X-Trace".
Proof. vm_compute. discriminate. Qed.

(* ===================================================================== *)
(** * Part III: the rest of the file                                      *)
(* ===================================================================== *)

(** ** Go's string functions *)

Section StringFacts.

Lemma length_append (a b : string) :
  String.length (a +:+ b) = (String.length a + String.length b)%nat.
Proof.
  induction a as [|x a IH]; [reflexivity |].
  rewrite append_cons. cbn [String.length]. now rewrite IH.
Qed.

Lemma sliceTo_append (a b : string) : sliceTo (String.length a) (a +:+ b) = a.
Proof.
  induction a as [|x a IH]; [reflexivity |].
  rewrite append_cons. cbn [String.length sliceTo]. now rewrite IH.
Qed.

Lemma sliceFrom_append (a b : string) :
  sliceFrom (String.length a) (a +:+ b) = b.
Proof.
  induction a as [|x a IH]; [reflexivity |].
  rewrite append_cons. cbn [String.length sliceFrom]. exact IH.
Qed.

Lemma sliceTo_sliceFrom (n : nat) (s : string) :
  sliceTo n s +:+ sliceFrom n s = s.
Proof.
  revert s. induction n as [|n IH]; intros [|c r]; try reflexivity.
  cbn [sliceTo sliceFrom]. rewrite append_cons. now rewrite IH.
Qed.

Lemma append_cancel_r (a b x : string) : a +:+ x = b +:+ x -> a = b.
Proof.
  intros H.
  assert (Hl : String.length a = String.length b).
  { apply (f_equal String.length) in H. rewrite !length_append in H. lia. }
  rewrite <- (sliceTo_append a x), <- (sliceTo_append b x), Hl.
  now rewrite H.
Qed.

Lemma HasPrefix_append (p s : string) : HasPrefix (p +:+ s) p = true.
Proof.
  unfold HasPrefix. rewrite length_append, sliceTo_append, String.eqb_refl.
  rewrite andb_true_r. apply Nat.leb_le. lia.
Qed.

Lemma HasPrefix_true (s p : string) :
  HasPrefix s p = true -> s = p +:+ sliceFrom (String.length p) s.
Proof.
  unfold HasPrefix. intros H. apply andb_true_iff in H as [_ H].
  apply String.eqb_eq in H.
  transitivity (sliceTo (String.length p) s +:+ sliceFrom (String.length p) s);
    [symmetry; apply sliceTo_sliceFrom | now rewrite H].
Qed.

Lemma HasSuffix_append (s x : string) : HasSuffix (s +:+ x) x = true.
Proof.
  unfold HasSuffix. rewrite length_append.
  replace (String.length s + String.length x - String.length x)%nat
    with (String.length s) by lia.
  rewrite sliceFrom_append, String.eqb_refl, andb_true_r.
  apply Nat.leb_le. lia.
Qed.

Lemma HasSuffix_true (s x : string) :
  HasSuffix s x = true ->
  s = sliceTo (String.length s - String.length x) s +:+ x.
Proof.
  unfold HasSuffix. intros H. apply andb_true_iff in H as [_ H].
  apply String.eqb_eq in H.
  transitivity
    (sliceTo (String.length s - String.length x) s
     +:+ sliceFrom (String.length s - String.length x) s);
    [symmetry; apply sliceTo_sliceFrom | now rewrite H].
Qed.

Lemma TrimPrefix_append (p s : string) : TrimPrefix (p +:+ s) p = s.
Proof.
  unfold TrimPrefix. now rewrite HasPrefix_append, sliceFrom_append.
Qed.

Lemma TrimSuffix_append (s x : string) : TrimSuffix (s +:+ x) x = s.
Proof.
  unfold TrimSuffix. rewrite HasSuffix_append, length_append.
  replace (String.length s + String.length x - String.length x)%nat
    with (String.length s) by lia.
  apply sliceTo_append.
Qed.

Lemma isEmpty_true (s : string) : isEmpty s = true <-> s = EmptyString.
Proof. destruct s; cbn; split; congruence. Qed.

Lemma isEmpty_false (s : string) : isEmpty s = false <-> s <> EmptyString.
Proof. destruct s; cbn; split; congruence. Qed.

End StringFacts.

(** ** Configuration *)

Section ConfigFacts.

Variable host : Host.

(** The key of a decoded configuration has the form of a reference to the
    environment exactly when both tests of line 191 hold. *)
Lemma reference_form (key : string) :
  HasPrefix key "${" && HasSuffix key "}" = true
  <-> exists v, key = "${" +:+ v +:+ "}".
Proof.
  split.
  - intros H. apply andb_true_iff in H as [Hp Hs].
    apply HasPrefix_true in Hp. cbn [String.length] in Hp.
    set (rest := sliceFrom 2 key) in *.
    assert (Hr : HasSuffix rest "}" = true).
    { rewrite Hp in Hs. unfold HasSuffix in *.
      apply andb_true_iff in Hs as [Hl He].
      rewrite length_append in Hl, He. cbn [String.length] in Hl, He.
      apply Nat.leb_le in Hl.
      destruct rest as [|c rest'].
      - cbn in He. discriminate He.
      - cbn [String.length] in *.
        apply andb_true_iff. split; [apply Nat.leb_le; lia |].
        replace (2 + Datatypes.S (String.length rest') - 1)%nat
          with (Datatypes.S (Datatypes.S (String.length rest'))) in He
          by lia.
        replace (Datatypes.S (String.length rest') - 1)%nat
          with (String.length rest') by lia.
        exact He. }
    apply HasSuffix_true in Hr.
    exists (sliceTo (String.length rest - String.length "}") rest).
    now rewrite <- Hr.
  - intros [v ->]. apply andb_true_iff. split.
    + apply HasPrefix_append.
    + rewrite <- append_assoc. apply HasSuffix_append.
Qed.

(** X1. How [loadConfig] resolves the API key of a configuration that was
    read and decoded. A key of the form [${NAME}] is replaced by the value
    of the environment variable [NAME], whatever [NAME] is, and the load
    fails with [no API key] when that value is empty; the value is not
    expanded again. Any other key is kept as it is, and the load fails with
    [no API key] when it is empty. *)
Theorem loadConfig_resolves_key (model data : string) (cfg0 : ProviderConfig) :
  ReadFile host (configPath model) = Some data ->
  UnmarshalConfig host data = inl cfg0 ->
  (forall name,
     APIKey cfg0 = "${" +:+ name +:+ "}" ->
     loadConfig host model
     = if isEmpty (Getenv host name) then inr "no API key"
       else inl (setAPIKey cfg0 (Getenv host name))) /\
  ((forall name, APIKey cfg0 <> "${" +:+ name +:+ "}") ->
   loadConfig host model
   = if isEmpty (APIKey cfg0) then inr "no API key" else inl cfg0).
Proof.
  intros Hread Hdec. unfold loadConfig. rewrite Hread, Hdec. split.
  - intros name Hkey.
    assert (Hform : HasPrefix (APIKey cfg0) "${" && HasSuffix (APIKey cfg0) "}"
                    = true) by (apply reference_form; eauto).
    rewrite Hform, Hkey.
    rewrite TrimPrefix_append, TrimSuffix_append. reflexivity.
  - intros Hkey.
    destruct (HasPrefix (APIKey cfg0) "${" && HasSuffix (APIKey cfg0) "}")
      eqn:Hform; [| reflexivity].
    apply reference_form in Hform as [v Hv]. now destruct (Hkey v).
Qed.

(** X2. A configuration that [loadConfig] returns has an API key that is
    not empty; its other fields are those of the decoded file
    [.<model>.config]. *)
Theorem loadConfig_ok_has_key (model : string) (cfg : ProviderConfig) :
  loadConfig host model = inl cfg ->
  APIKey cfg <> EmptyString /\
  exists data cfg0,
    ReadFile host ("." +:+ model +:+ ".config") = Some data /\
    UnmarshalConfig host data = inl cfg0 /\
    Endpoint cfg = Endpoint cfg0 /\ Model cfg = Model cfg0 /\
    Headers cfg = Headers cfg0 /\ ProviderType cfg = ProviderType cfg0.
Proof.
  unfold loadConfig, configPath.
  destruct (ReadFile host _) as [data |] eqn:Hread; [| discriminate].
  destruct (UnmarshalConfig host data) as [cfg0 | e] eqn:Hdec;
    [| discriminate].
  destruct (HasPrefix (APIKey cfg0) "${" && HasSuffix (APIKey cfg0) "}");
    destruct (isEmpty (APIKey _)) eqn:He; try discriminate;
    intros [= <-]; (split; [now apply isEmpty_false |]);
    exists data, cfg0; now repeat split.
Qed.

End ConfigFacts.

(** ** Session files and the help listing *)

Section PathFacts.

Lemma lacks_append (c : Ascii.ascii) (a b : string) :
  lacks c (a +:+ b) <-> lacks c a /\ lacks c b.
Proof.
  induction a as [|x a IH]; cbn [lacks].
  - change (EmptyString +:+ b) with b. tauto.
  - rewrite append_cons. cbn [lacks]. tauto.
Qed.

Lemma HasPrefix_char (d c : Ascii.ascii) (r : string) :
  HasPrefix (String d r) (String c EmptyString) = Ascii.eqb d c.
Proof.
  unfold HasPrefix. cbn [String.length sliceTo Nat.leb andb String.eqb].
  now destruct (Ascii.eqb d c).
Qed.

Lemma splitFrom_cons (c : Ascii.ascii) (s : string) :
  exists piece pieces, splitFrom (String c EmptyString) 0 s = piece :: pieces.
Proof.
  induction s as [|d r IH]; [now exists EmptyString, [] |].
  cbn [splitFrom]. rewrite HasPrefix_char.
  destruct (Ascii.eqb d c); [eauto |].
  destruct IH as (piece & pieces & ->). eauto.
Qed.

(** A piece that has no separator in it is split off whole. *)
Lemma Split_first (c : Ascii.ascii) (a b : string) :
  lacks c a ->
  Split (a +:+ String c b) (String c EmptyString)
  = a :: Split b (String c EmptyString).
Proof.
  unfold Split. induction a as [|x a IH]; intros Ha.
  - change (EmptyString +:+ String c b) with (String c b).
    cbn [splitFrom]. rewrite HasPrefix_char, Ascii.eqb_refl. reflexivity.
  - destruct Ha as [Hx Ha]. rewrite append_cons. cbn [splitFrom].
    rewrite HasPrefix_char.
    destruct (Ascii.eqb_spec x c) as [-> | _]; [contradiction |].
    now rewrite (IH Ha).
Qed.

Lemma Split_none (c : Ascii.ascii) (a : string) :
  lacks c a -> Split a (String c EmptyString) = [a].
Proof.
  unfold Split. induction a as [|x a IH]; intros Ha; [reflexivity |].
  destruct Ha as [Hx Ha]. cbn [splitFrom]. rewrite HasPrefix_char.
  destruct (Ascii.eqb_spec x c) as [-> | _]; [contradiction |].
  now rewrite (IH Ha).
Qed.

Lemma Join_two (a b sep : string) (rest : list string) :
  Join (a :: b :: rest) sep = a +:+ sep +:+ Join (b :: rest) sep.
Proof. reflexivity. Qed.

(** Joining the pieces of a split with the separator gives the string
    back. *)
Lemma Join_Split (c : Ascii.ascii) (s : string) :
  Join (Split s (String c EmptyString)) (String c EmptyString) = s.
Proof.
  unfold Split. induction s as [|d r IH]; [reflexivity |].
  cbn [splitFrom]. rewrite HasPrefix_char.
  destruct (splitFrom_cons c r) as (piece & pieces & Hr).
  rewrite Hr in IH |- *.
  destruct (Ascii.eqb_spec d c) as [-> | _].
  - cbn [String.length Nat.sub]. rewrite Hr, Join_two, IH. reflexivity.
  - destruct pieces as [|q pieces].
    + cbn [Join] in IH |- *. now rewrite IH.
    + rewrite Join_two in IH |- *. rewrite append_cons. now rewrite IH.
Qed.

Lemma stripSlashes_tail (pre name : string) :
  lacks "/"%char name -> name <> EmptyString ->
  stripSlashes (pre +:+ name) = pre +:+ name.
Proof.
  intros Hl Hn. induction pre as [|x pre IH].
  - change (EmptyString +:+ name) with name. clear Hn.
    induction name as [|y name IHn]; [reflexivity |].
    destruct Hl as [Hy Hl]. cbn [stripSlashes].
    destruct (Ascii.eqb_spec y "/"%char) as [-> | _]; [contradiction |].
    cbn [andb]. now rewrite (IHn Hl).
  - rewrite append_cons. cbn [stripSlashes]. rewrite IH.
    destruct (pre +:+ name) eqn:E.
    + apply (f_equal String.length) in E. rewrite length_append in E.
      destruct name; [contradiction | cbn in E; lia].
    + cbn [isEmpty]. now rewrite andb_false_r.
Qed.

(** The base of a file in [.sessions] is its name. *)
Lemma Base_session_file (name : string) :
  lacks "/"%char name -> name <> EmptyString ->
  Base (".sessions/" +:+ name) = name.
Proof.
  intros Hl Hn. unfold Base.
  change (isEmpty (".sessions/" +:+ name)) with false. cbn iota.
  rewrite stripSlashes_tail by assumption.
  change (".sessions/" +:+ name) with (".sessions" +:+ String "/"%char name).
  rewrite Split_first by (cbn; repeat split; discriminate).
  rewrite Split_none by assumption. cbn [List.last].
  destruct name; [contradiction | reflexivity].
Qed.

Lemma sessionPath_name (sessionID model : string) :
  sessionPath sessionID model
  = ".sessions/" +:+ (model +:+ "-" +:+ sessionID) +:+ ".json".
Proof. unfold sessionPath. now rewrite !append_assoc. Qed.

Lemma sessionEntry_parts (sessionID model : string) :
  lacks "/"%char model -> lacks "/"%char sessionID ->
  sessionEntry (sessionPath sessionID model)
  = let parts := Split (model +:+ "-" +:+ sessionID) "-" in
    if (2 <=? length parts)%nat
    then Some (Join (tail parts) "-", hd EmptyString parts)
    else None.
Proof.
  intros Hm Hs. unfold sessionEntry. rewrite sessionPath_name.
  rewrite Base_session_file.
  - now rewrite TrimSuffix_append.
  - rewrite !lacks_append. cbn. repeat split; try assumption; discriminate.
  - intros E. apply (f_equal String.length) in E.
    rewrite !length_append in E. cbn in E. lia.
Qed.

Lemma showHelp_lists_entry (host : Host) (s id model : string) :
  In s (Glob host ".sessions/*.json") ->
  sessionEntry s = Some (id, model) ->
  In ("  -s " +:+ id +:+ " (model: " +:+ model +:+ ")" +:+ LF)
     (showHelp host).
Proof.
  intros Hin He. unfold showHelp.
  rewrite !List.in_app_iff. do 5 right. left.
  apply List.in_flat_map. exists s. split; [exact Hin |].
  rewrite He. now left.
Qed.

(** X3. The help listing reads a session file back as it was saved when the
    model name has no ["-"]: for the file that [save] writes for a session
    id and a model (neither with a ["/"]), the entry is that session id and
    that model, and [showHelp] prints them when the file is among the
    matches of [.sessions/*.json]. *)
Theorem sessionEntry_of_sessionPath (sessionID model : string) :
  lacks "-"%char model ->
  lacks "/"%char model -> lacks "/"%char sessionID ->
  sessionEntry (sessionPath sessionID model) = Some (sessionID, model) /\
  forall host,
    In (sessionPath sessionID model) (Glob host ".sessions/*.json") ->
    In ("  -s " +:+ sessionID +:+ " (model: " +:+ model +:+ ")" +:+ LF)
       (showHelp host).
Proof.
  intros Hd Hm Hs.
  assert (He : sessionEntry (sessionPath sessionID model)
               = Some (sessionID, model)); [| split; [exact He |]].
  2: { intros host Hin. now apply (showHelp_lists_entry host _ _ _ Hin). }
  rewrite sessionEntry_parts by assumption. cbn zeta.
  change (model +:+ "-" +:+ sessionID)
    with (model +:+ String "-"%char sessionID).
  rewrite Split_first by assumption.
  destruct (splitFrom_cons "-"%char sessionID) as (piece & pieces & Hp).
  unfold Split in *. rewrite Hp. cbn [length Nat.leb tail hd].
  rewrite <- Hp.
  pose proof (Join_Split "-"%char sessionID) as HJ. unfold Split in HJ.
  now rewrite HJ.
Qed.

(** X4. With a ["-"] in the model name the listing is wrong: the session
    [id] of the model [a-b] is printed as the session [b-id] of the model
    [a]. Both pairs have the same session file, so a run for the model [a]
    with the session id [b-id] loads and overwrites the history of the
    model [a-b]. *)
Theorem dashed_model_is_misattributed (a b sessionID : string) :
  lacks "-"%char a ->
  lacks "/"%char a -> lacks "/"%char b -> lacks "/"%char sessionID ->
  sessionEntry (sessionPath sessionID (a +:+ "-" +:+ b))
  = Some (b +:+ "-" +:+ sessionID, a) /\
  sessionPath (b +:+ "-" +:+ sessionID) a
  = sessionPath sessionID (a +:+ "-" +:+ b).
Proof.
  intros Hd Ha Hb Hs. split.
  - rewrite sessionEntry_parts;
      [| rewrite !lacks_append; cbn; repeat split;
         try assumption; discriminate | assumption].
    cbn zeta.
    replace ((a +:+ "-" +:+ b) +:+ "-" +:+ sessionID)
      with (a +:+ String "-"%char (b +:+ "-" +:+ sessionID))
      by (now rewrite !append_assoc).
    rewrite Split_first by assumption.
    destruct (splitFrom_cons "-"%char (b +:+ "-" +:+ sessionID))
      as (piece & pieces & Hp).
    unfold Split in *. rewrite Hp. cbn [length Nat.leb tail hd].
    rewrite <- Hp.
    pose proof (Join_Split "-"%char (b +:+ "-" +:+ sessionID)) as HJ.
    unfold Split in HJ. now rewrite HJ.
  - unfold sessionPath. now rewrite !append_assoc.
Qed.

Lemma dash_split_unique (a b x y : string) :
  lacks "-"%char a -> lacks "-"%char b ->
  a +:+ String "-"%char x = b +:+ String "-"%char y -> a = b /\ x = y.
Proof.
  revert b. induction a as [|c a IH]; intros [|d b] Ha Hb E.
  - change (String "-"%char x = String "-"%char y) in E.
    now injection E as ->.
  - change (String "-"%char x = String d (b +:+ String "-"%char y)) in E.
    injection E as <- _. now destruct Hb.
  - change (String c (a +:+ String "-"%char x) = String "-"%char y) in E.
    injection E as -> _. now destruct Ha.
  - rewrite !append_cons in E. injection E as -> E.
    destruct Ha as [_ Ha], Hb as [_ Hb].
    destruct (IH b Ha Hb E) as [-> ->]. now split.
Qed.

(** X5. Sessions of models whose names have no ["-"] do not share files:
    two pairs of a session id and such a model have the same session file
    only if they are the same pair. *)
Theorem sessionPath_injective (id1 model1 id2 model2 : string) :
  lacks "-"%char model1 -> lacks "-"%char model2 ->
  sessionPath id1 model1 = sessionPath id2 model2 ->
  id1 = id2 /\ model1 = model2.
Proof.
  intros H1 H2 E. unfold sessionPath in E.
  apply String.app_inj in E.
  change (model1 +:+ String "-"%char (id1 +:+ ".json")
          = model2 +:+ String "-"%char (id2 +:+ ".json")) in E.
  destruct (dash_split_unique _ _ _ _ H1 H2 E) as [-> E'].
  apply append_cancel_r in E'. now split.
Qed.

(** X6. The model name the help listing prints for the configuration file
    that [loadConfig] reads for a model is that model, whatever its name. *)
Theorem modelName_of_configPath (model : string) :
  modelName (configPath model) = model.
Proof.
  unfold modelName, configPath.
  now rewrite TrimPrefix_append, TrimSuffix_append.
Qed.

End PathFacts.

(** ** More on sessions *)

Section SessionStoreFacts.

Lemma addMessage_twice (s : Session) (p r : string) :
  History (addMessage (addMessage s "user" p) "assistant" r)
  = drop (length (History s) + 2 - 20)%nat (History s)
    ++ [mkMessage "user" p; mkMessage "assistant" r].
Proof.
  rewrite addMessage_history, addMessage_history.
  set (h := History s). set (u := mkMessage "user" p).
  set (a := mkMessage "assistant" r).
  rewrite length_drop, length_app. cbn [length].
  destruct (Nat.le_gt_cases (length h) 19) as [Hs | Hl].
  - replace (length h + 1 - 20)%nat with 0%nat by lia.
    rewrite Nat.sub_0_r, drop_0.
    rewrite <- app_assoc. cbn [app].
    rewrite drop_app_le by lia. f_equal. f_equal. lia.
  - replace (length h + 1 - (length h + 1 - 20) + 1 - 20)%nat
      with 1%nat by lia.
    rewrite <- (drop_app_le (h ++ [u]) [a])
      by (rewrite length_app; cbn; lia).
    rewrite drop_drop, <- app_assoc. cbn [app].
    rewrite drop_app_le by lia.
    f_equal. f_equal. lia.
Qed.

(** X8. The two appends of [main] after a success (lines 449-450): the
    history becomes the old one with the prompt as a [user] turn and the
    response as an [assistant] turn at its end, cut to its last 20 entries.
    The two new turns are always kept, and they are the last two. *)
Theorem two_turns_appended (s : Session) (p r : string) :
  History (addMessage (addMessage s "user" p) "assistant" r)
  = drop (length (History s) + 2 - 20)%nat (History s)
    ++ [mkMessage "user" p; mkMessage "assistant" r] /\
  (length (History (addMessage (addMessage s "user" p) "assistant" r))
   <= 20)%nat.
Proof.
  split; [apply addMessage_twice |].
  rewrite addMessage_twice, length_app, length_drop. cbn [length]. lia.
Qed.

(** X9. Flattening does not keep the turns apart: a single [user] turn whose
    content goes on with two line feeds and ["Assistant: "] gives the same
    prompt as a [user] turn followed by an [assistant] turn. *)
Theorem buildPrompt_merges_turns (a b p : string) :
  buildPrompt
    {| History := [mkMessage "user" (a +:+ LF +:+ LF +:+ "Assistant: " +:+ b)] |}
    p
  = buildPrompt
      {| History := [mkMessage "user" a; mkMessage "assistant" b] |} p.
Proof.
  unfold buildPrompt. cbn [History length Nat.eqb fold_left].
  unfold writeTurn, WriteString, LFLF. cbn [Role Content String.eqb].
  cbn [Ascii.eqb Bool.eqb].
  change (EmptyString +:+ "Human: ") with "Human: ".
  now rewrite !append_assoc.
Qed.

End SessionStoreFacts.

(** ** What a run writes and sends *)

Section RunEffects.

Variables (env : Env) (flags : Flags.t) (cfg : ProviderConfig)
  (input : string).

(** The retry loop of [main] writes no file. *)
Lemma main_loop_files (w : World) :
  files
    (snd (retryLoop (Z.to_nat (Flags.retries flags))
            (mainAttempt (callAPI env) flags cfg input w)
            (Flags.retries flags) 0 NewCircuitBreaker
            (startResponse env flags input (clock w)) None w))
  = files w.
Proof.
  apply (keeps_main_loop (fun w0 => files w0 = files w)); [| | reflexivity].
  - intros d w0 H. exact H.
  - intros req done w0 H _ _ _ _. exact H.
Qed.

Lemma afterSave_other (path path' : string) (s : Session) (w : World) :
  path' <> path -> files (afterSave env path s w) !! path' = files w !! path'.
Proof.
  intros Hp. unfold afterSave. destruct (WriteFile env _ _); [| reflexivity].
  unfold withFile. cbn [files]. now rewrite lookup_insert_ne by congruence.
Qed.

(** X10. A run of [main] leaves every file but its own session file as it
    was, and writes that one only when it returns with an empty error text
    and has a session id: a run without a session id, a run that reports an
    error and a run that panics leave all files as they were. *)
Theorem main_writes_only_its_session (w : World) :
  (forall path,
     path <> sessionPath (Flags.sessionID flags) (Flags.model flags) ->
     files (snd (main env flags cfg input w)) !! path = files w !! path) /\
  (Flags.sessionID flags = EmptyString ->
   files (snd (main env flags cfg input w)) = files w) /\
  (forall run,
     fst (main env flags cfg input w) = Ret run ->
     Response.Error (resp run) <> EmptyString ->
     files (snd (main env flags cfg input w)) = files w) /\
  (forall msg,
     fst (main env flags cfg input w) = Panic msg ->
     files (snd (main env flags cfg input w)) = files w).
Proof.
  unfold main. rewrite mainWith_unfold.
  pose proof (main_loop_files w) as Hloop.
  destruct (retryLoop _ _ _ _ _ _ _ w) as [[[[cb r] e] | msg] w1];
    cbn [snd] in Hloop.
  - rewrite finish_unfold. cbn zeta. cbn [fst snd].
    destruct (isEmpty (Response.Error _)) eqn:He; cbn [andb].
    + destruct (isEmpty (Flags.sessionID flags)) eqn:Hs; cbn [negb].
      * repeat split; intros; congruence.
      * repeat split.
        -- intros path Hp. rewrite afterSave_other by exact Hp.
           now rewrite Hloop.
        -- intros Hid. apply isEmpty_true in Hid. congruence.
        -- intros run [= <-]. cbn [resp]. intros Hne.
           apply isEmpty_true in He. contradiction.
        -- discriminate.
    + repeat split; intros; congruence.
  - cbn [fst snd]. repeat split; intros; congruence.
Qed.


(** X11. Every request of a run of [main], the first and every retry, has
    the same method, address and body: it is a [POST] to the endpoint of
    the configuration whose body has the model of the configuration, the
    token limit of [-n] and one message, with the role [user] and the whole
    flattened prompt as its content. *)
Theorem every_request_is_the_same (w : World) :
  exists events,
    trace (snd (main env flags cfg input w)) = trace w ++ events /\
    Forall
      (sendsLike "POST" (Endpoint cfg)
         {| bodyModel := Model cfg;
            bodyMessages :=
              [[("role", "user");
                ("content", buildPrompt (loaded flags w) input)]];
            bodyMaxTokens := Flags.maxTokens flags |})
      events.
Proof.
  set (like := sendsLike "POST" (Endpoint cfg) (mainBody flags cfg input w)).
  set (Q := fun w0 : World =>
              exists events,
                trace w0 = trace w ++ events /\ Forall like events).
  assert (Hloop :
            Q (snd (retryLoop (Z.to_nat (Flags.retries flags))
                      (mainAttempt (callAPI env) flags cfg input w)
                      (Flags.retries flags) 0 NewCircuitBreaker
                      (startResponse env flags input (clock w)) None w))).
  { apply (keeps_main_loop Q).
    - intros d w0 (ev & Ht & Hf). exists (ev ++ [EvSleep (clock w0) d]).
      unfold Sleep. cbn [snd trace]. rewrite Ht, app_assoc.
      split; [reflexivity |]. apply Forall_app. split; [exact Hf |].
      now repeat constructor.
    - intros req done w0 (ev & Ht & Hf) _ Hm Hu Hb.
      exists (ev ++ [EvSend (clock w0) req; EvDone done]).
      unfold exchanged. cbn [trace]. rewrite Ht, app_assoc.
      split; [reflexivity |]. apply Forall_app. split; [exact Hf |].
      repeat constructor; assumption.
    - exists []. split; [now rewrite app_nil_r | constructor]. }
  unfold main. rewrite mainWith_unfold.
  destruct (retryLoop _ _ _ _ _ _ _ w) as [[[[cb r] e] | msg] w1];
    cbn [snd] in Hloop; destruct Hloop as (ev & Ht & Hf); exists ev.
  - rewrite finish_unfold. cbn zeta. cbn [snd].
    split; [| exact Hf].
    destruct (_ && _); [now rewrite afterSave_trace | exact Ht].
  - cbn [snd]. now split.
Qed.

End RunEffects.

(** ** More on the provider adapter *)

Section AdapterShape.

Variable env : Env.

Lemma extractResponse_error_text (cfg : ProviderConfig)
    (result : gmap string JSON) (text e : string) :
  extractResponse env cfg result = Ret (text, Some e) -> text = EmptyString.
Proof.
  unfold extractResponse.
  destruct (String.eqb _ "anthropic").
  - destruct (result !! "error") as [[| | | | |?] |];
      try (now intros [= <- _]);
      (destruct (result !! "content") as [[| | | |[|[| | | | |blk] ?]|] |];
       try discriminate; try (now intros [= <- _]);
       destruct (blk !! "text") as [[]|];
       try discriminate; now intros [= <- _]).
  - destruct (result !! "error") as [[| | | | |?] |];
      try (now intros [= <- _]);
      (destruct (result !! "choices") as [[| | | |[|[| | | | |ch] ?]|] |];
       try discriminate; try (now intros [= <- _]);
       destruct (ch !! "message") as [[| | | | |msg] |];
       try discriminate; try (now intros [= <- _]);
       destruct (msg !! "content") as [[]|];
       try discriminate; now intros [= <- _]).
Qed.

Lemma parseWireResponse_error_text (cfg : ProviderConfig)
    (body text e : string) :
  parseWireResponse env cfg body = Ret (text, Some e) -> text = EmptyString.
Proof.
  unfold parseWireResponse.
  destruct (Unmarshal env body) as [result | e'];
    [apply extractResponse_error_text | now intros [= <- _]].
Qed.

Lemma callAPI_effects (ctx : Context) (cfg : ProviderConfig) (p : string)
    (mt : Z) (w : World) :
  let w' := snd (callAPI env ctx cfg p mt w) in
  (sends w <= sends w' <= sends w + 1)%nat /\
  (Deadline ctx <= clock w -> sends w' = sends w) /\
  clock w <= clock w' /\
  files w' = files w /\
  forall text e,
    fst (callAPI env ctx cfg p mt w) = Ret (text, Some e) ->
    text = EmptyString.
Proof.
  cbn zeta.
  assert (Hworld :
            (sends w <= sends (snd (callAPI env ctx cfg p mt w))
             <= sends w + 1)%nat /\
            (Deadline ctx <= clock w ->
             sends (snd (callAPI env ctx cfg p mt w)) = sends w) /\
            clock w <= clock (snd (callAPI env ctx cfg p mt w)) /\
            files (snd (callAPI env ctx cfg p mt w)) = files w).
  { destruct (callAPI_world env ctx cfg p mt w)
      as [-> | (body & done & _ & Hlive & Hdone & ->)];
      [repeat split; lia |].
    rewrite sends_exchanged. cbn [exchanged clock files].
    repeat split; lia. }
  destruct Hworld as (H1 & H2 & H3 & H4).
  repeat split; try assumption; try lia.
  intros text e. rewrite callAPI_unfold.
  destruct (requestBody cfg p mt) as [body |]; [| now intros [= <- _]].
  destruct (NewRequestError env (Endpoint cfg)); [now intros [= <- _] |].
  cbn zeta.
  destruct (Deadline ctx <=? clock w); [now intros [= <- _] |].
  destruct (_ <? _); [now intros [= <- _] |].
  destruct (fst (exchange env _ _ _)) as [pieces | msg];
    [| now intros [= <- _]].
  cbn [fst]. apply parseWireResponse_error_text.
Qed.

(** X12. What a call of [callAPI] can do, whatever the endpoint answers: it
    sends at most one request, and none when the deadline of its context has
    passed; it never sets the clock back and touches no file; and when it
    returns an error the text it returns with it is empty. *)
Theorem callAPI_shape (ctx : Context) (cfg : ProviderConfig) (p : string)
    (mt : Z) (w : World) :
  let w' := snd (callAPI env ctx cfg p mt w) in
  (sends w <= sends w' <= sends w + 1)%nat /\
  (Deadline ctx <= clock w -> sends w' = sends w) /\
  clock w <= clock w' /\
  files w' = files w /\
  forall text e,
    fst (callAPI env ctx cfg p mt w) = Ret (text, Some e) ->
    text = EmptyString.
Proof. exact (callAPI_effects ctx cfg p mt w). Qed.

(** X14. An ["error"] member that is an object makes the call fail with
    the [%v] of its ["message"], for either provider type and whatever else
    the body has: the text of a string, [<nil>] when there is no message. An
    ["error"] member that is not an object (a string, say) is ignored: the
    result is that of the body without it. *)
Theorem upstream_error_object_wins (cfg : ProviderConfig)
    (result : gmap string JSON) :
  (forall errMsg,
     result !! "error" = Some (JObject errMsg) ->
     extractResponse env cfg result
     = Ret (EmptyString, Some (Sprintv env (errMsg !! "message"))) /\
     (forall s, errMsg !! "message" = Some (JString s) ->
                Sprintv env (errMsg !! "message") = s) /\
     (errMsg !! "message" = None ->
      Sprintv env (errMsg !! "message") = "<nil>")) /\
  ((forall errMsg, result !! "error" <> Some (JObject errMsg)) ->
   extractResponse env cfg result
   = extractResponse env cfg (delete "error" result)).
Proof.
  split.
  - intros errMsg He. split; [| split].
    + unfold extractResponse. rewrite He.
      now destruct (String.eqb _ "anthropic").
    + now intros s ->.
    + now intros ->.
  - intros Hno. unfold extractResponse.
    rewrite lookup_delete_eq.
    rewrite !(lookup_delete_ne result "error") by discriminate.
    destruct (result !! "error") as [[| | | | |errMsg] |]; try reflexivity.
    now destruct (Hno errMsg).
Qed.

(** X15. The panic of lines 273 and 282: when the body has no error object
    and the member the success is read from is an array that is not empty,
    a first element that is not an object makes [callAPI] panic with the
    failed interface conversion. *)
Theorem first_element_must_be_object (cfg : ProviderConfig)
    (result : gmap string JSON) (first : JSON) (rest : list JSON) :
  (forall errMsg, result !! "error" <> Some (JObject errMsg)) ->
  result !! (if String.eqb (ProviderType cfg) "anthropic"
             then "content" else "choices")
  = Some (JArray (first :: rest)) ->
  (forall members, first <> JObject members) ->
  extractResponse env cfg result = Panic (notAMap first).
Proof.
  intros Hno Hsucc Hfirst. unfold extractResponse.
  destruct (String.eqb _ "anthropic");
    (destruct (result !! "error") as [[| | | | |errMsg] |];
     try (now destruct (Hno errMsg));
     rewrite Hsucc;
     destruct first as [| | | | |members];
     try reflexivity; now destruct (Hfirst members)).
Qed.

End AdapterShape.

(** ** More on the breaker and the retry loop *)

Section LoopBounds.

(** X16. [Do] keeps the breaker in bounds: the threshold and the cooldown
    never change, the counter stays between 0 and the threshold, and the
    time of the last failure changes only when the operation was run and
    failed, to the time it returned. An attempt that the breaker rejects
    runs nothing and leaves the time of the last failure (so the cooldown
    is not started again); an attempt that it lets through runs the
    operation once, and a success leaves that time and sets the counter to
    0. *)
Theorem Do_keeps_breaker_in_bounds {S : Type} (cb cb' : CircuitBreaker)
    (fn : S -> M (error * S)) (s s' : S) (w w' : World) (e : error) :
  0 <= failures cb <= threshold cb ->
  threshold cb <= maxInt64 ->
  Do cb fn s w = (Ret (e, cb', s'), w') ->
  threshold cb' = threshold cb /\
  timeout cb' = timeout cb /\
  0 <= failures cb' <= threshold cb' /\
  (rejects cb (clock w) ->
   e = Some "circuit open" /\ lastFail cb' = lastFail cb /\
   s' = s /\ w' = w) /\
  (~ rejects cb (clock w) ->
   fn s w = (Ret (e, s'), w') /\
   (e = None -> lastFail cb' = lastFail cb /\ failures cb' = 0) /\
   (e <> None -> lastFail cb' = clock w' /\ 0 < failures cb')).
Proof.
  intros Hf Hmax. rewrite Do_unfold. cbn zeta. unfold rejects.
  set (cb0 := if timeout cb <? Sub (clock w) (lastFail cb)
              then setFailures cb 0 else cb).
  assert (H0 : threshold cb0 = threshold cb /\ timeout cb0 = timeout cb /\
               lastFail cb0 = lastFail cb /\
               0 <= failures cb0 <= threshold cb0 /\
               (threshold cb0 <= failures cb0 <->
                (Sub (clock w) (lastFail cb) <= timeout cb /\
                 threshold cb <= failures cb) \/
                (timeout cb < Sub (clock w) (lastFail cb) /\
                 threshold cb <= 0))).
  { subst cb0.
    destruct (Z.ltb_spec (timeout cb) (Sub (clock w) (lastFail cb)));
      cbn [setFailures threshold timeout lastFail failures];
      repeat split; lia. }
  destruct H0 as (Ht & Hto & Hl & Hb & Hrej).
  destruct (Z.leb_spec (threshold cb0) (failures cb0)) as [Hopen | Hclosed].
  - intros [= <- <- <- <-]. repeat split; try lia; try congruence.
  - assert (Hno : ~ ((Sub (clock w) (lastFail cb) <= timeout cb /\
                      threshold cb <= failures cb) \/
                     (timeout cb < Sub (clock w) (lastFail cb) /\
                      threshold cb <= 0))) by (rewrite <- Hrej; lia).
    unfold invoke, bind, Now, ret.
    destruct (fn s w) as [[[[e1 |] s1] | msg] w1]; [| | discriminate].
    + intros [= <- <- <- <-].
      cbn [setLastFail setFailures threshold timeout failures lastFail].
      assert (Hw : wrap64 (failures cb0 + 1) = failures cb0 + 1).
      { unfold wrap64, maxInt64 in *. rewrite Z.mod_small; lia. }
      rewrite Hw.
      split; [exact Ht |]. split; [exact Hto |]. split; [lia |].
      split; [intros Hyes; now destruct Hno |].
      intros _. split; [reflexivity |].
      split; [discriminate |]. intros _. split; [reflexivity | lia].
    + intros [= <- <- <- <-].
      cbn [setFailures threshold timeout failures lastFail].
      split; [exact Ht |]. split; [exact Hto |]. split; [lia |].
      split; [intros Hyes; now destruct Hno |].
      intros _. split; [reflexivity |].
      split; [intros _; now split | intros Hne; now destruct Hne].
Qed.

Lemma Do_sends_bound (cb : CircuitBreaker)
    (fn : Response.t -> M (error * Response.t)) (r : Response.t)
    (w : World) :
  (forall r w, (sends (snd (fn r w)) <= sends w + 1)%nat) ->
  (sends (snd (Do cb fn r w)) <= sends w + 1)%nat.
Proof.
  intros Hfn. rewrite Do_unfold. cbn zeta.
  destruct (threshold _ <=? failures _); [cbn; lia |].
  unfold invoke, bind, Now, ret. specialize (Hfn r w).
  destruct (fn r w) as [[[[e |] r'] | msg] w']; exact Hfn.
Qed.

Lemma retryLoop_sends_bound (fn : Response.t -> M (error * Response.t))
    (retries : Z) :
  (forall r w, (sends (snd (fn r w)) <= sends w + 1)%nat) ->
  forall fuel i cb r lastErr w,
    (sends (snd (retryLoop fuel fn retries i cb r lastErr w))
     <= sends w + fuel)%nat.
Proof.
  intros Hfn. induction fuel as [|fuel IH]; intros i cb r lastErr w.
  - cbn [retryLoop]. destruct (i <? retries); cbn [ret snd]; lia.
  - destruct (Z.le_gt_cases retries i) as [Hd | Hlt].
    { rewrite retryLoop_done by lia. cbn [ret snd]. lia. }
    pose proof (Do_sends_bound cb fn r w Hfn) as HDo.
    destruct (Do cb fn r w) as [[[[[e |] cb'] r'] | msg] w1] eqn:E;
      cbn [snd] in HDo.
    + rewrite (retryLoop_failure_step _ _ _ _ _ _ _ _ _ _ _ _ Hlt E).
      destruct (i <? retries - 1).
      * specialize (IH (i + 1) cb' r' (Some e)
                      (afterSleep (wrap64 ((i + 1) * Second)) w1)).
        rewrite sends_afterSleep in IH. lia.
      * specialize (IH (i + 1) cb' r' (Some e) w1). lia.
    + rewrite (retryLoop_success_step _ _ _ _ _ _ _ _ _ _ _ Hlt E).
      cbn [snd]. lia.
    + rewrite (retryLoop_panic_step _ _ _ _ _ _ _ _ _ _ Hlt E).
      cbn [snd]. lia.
Qed.

(** X13. The retry count bounds the requests of a run: a run of [main]
    sends at most [retries] requests, and none when [retries] is 0 or
    less. *)
Theorem requests_bounded_by_retries (env : Env) (flags : Flags.t)
    (cfg : ProviderConfig) (input : string) (w : World) :
  (sends (snd (main env flags cfg input w))
   <= sends w + Z.to_nat (Flags.retries flags))%nat.
Proof.
  unfold main. rewrite mainWith_unfold.
  pose proof (retryLoop_sends_bound
                (mainAttempt (callAPI env) flags cfg input w)
                (Flags.retries flags)) as Hloop.
  specialize (Hloop
                ltac:(intros r w0; unfold mainAttempt, attempt, bind;
                      pose proof (callAPI_effects env
                                    (mainContext flags w) cfg
                                    (buildPrompt (loaded flags w) input)
                                    (Flags.maxTokens flags) w0) as Hs;
                      cbn zeta in Hs;
                      destruct (callAPI env _ cfg _ _ w0)
                        as [[[text [e|]] | msg] w1];
                      cbn [snd ret] in *; lia)
                (Z.to_nat (Flags.retries flags)) 0 NewCircuitBreaker
                (startResponse env flags input (clock w)) None w).
  destruct (retryLoop _ _ _ _ _ _ _ w) as [[[[cb r] e] | msg] w1];
    cbn [snd] in Hloop |- *; [| exact Hloop].
  rewrite finish_unfold. cbn zeta. cbn [snd].
  destruct (_ && _); [rewrite sends_afterSave |]; exact Hloop.
Qed.

(** X17. A panic of the first attempt ends the run there: with at least one
    attempt, a run whose operation panics when it is first called panics
    with the same message in the world the operation left, with no retry,
    no sleep, no output and no session file written. *)
Theorem panic_ends_the_run (api : API) (env : Env) (flags : Flags.t)
    (cfg : ProviderConfig) (prompt msg : string) (w w' : World) :
  0 < Flags.retries flags ->
  api (mainContext flags w) cfg (buildPrompt (loaded flags w) prompt)
    (Flags.maxTokens flags) w = (Panic msg, w') ->
  mainWith api env flags cfg prompt w = (Panic msg, w').
Proof.
  intros Hr Hp. rewrite mainWith_unfold.
  destruct (Z.to_nat (Flags.retries flags)) as [|fuel] eqn:Hfuel; [lia |].
  rewrite (retryLoop_panic_step _ _ _ _ _ _ _ w w' msg Hr); [reflexivity |].
  rewrite Do_closed by (cbn; lia).
  apply invoke_panic.
  unfold mainAttempt, attempt, bind. now rewrite Hp.
Qed.

End LoopBounds.

Section Backoff.

Lemma sleepsOf_app (tr1 tr2 : list Event) :
  sleepsOf (tr1 ++ tr2) = sleepsOf tr1 ++ sleepsOf tr2.
Proof.
  induction tr1 as [|[] tr1 IH]; cbn [app sleepsOf]; now rewrite ?IH.
Qed.

Variables (fn : Response.t -> M (error * Response.t)) (retries : Z).

(** The operation always fails, and does not sleep itself. *)
Hypothesis fn_fails :
  forall r w, exists e r' w',
    fn r w = (Ret (Some e, r'), w') /\
    sleepsOf (trace w') = sleepsOf (trace w).

Lemma Do_always_fails (cb : CircuitBreaker) (r : Response.t) (w : World) :
  exists e cb' r' w',
    Do cb fn r w = (Ret (Some e, cb', r'), w') /\
    sleepsOf (trace w') = sleepsOf (trace w).
Proof.
  rewrite Do_unfold. cbn zeta.
  destruct (threshold _ <=? failures _); [now eauto 6 |].
  destruct (fn_fails r w) as (e & r' & w' & Hfn & Hs).
  rewrite (invoke_failure _ _ _ _ _ _ _ Hfn). eauto 6.
Qed.

Lemma retryLoop_backoff (fuel : nat) :
  forall (i : Z) (cb : CircuitBreaker) (r : Response.t) (lastErr : error)
         (w : World),
    (Z.to_nat (retries - i) <= fuel)%nat ->
    exists o w',
      retryLoop fuel fn retries i cb r lastErr w = (Ret o, w') /\
      sleepsOf (trace w')
      = sleepsOf (trace w)
        ++ map (fun k => wrap64 ((i + Z.of_nat k + 1) * Second))
             (seq 0 (Z.to_nat (retries - i - 1))).
Proof.
  induction fuel as [|fuel IH]; intros i cb r lastErr w Hfuel.
  - rewrite retryLoop_done by lia.
    replace (Z.to_nat (retries - i - 1)) with 0%nat by lia.
    eexists _, _. split; [reflexivity |]. cbn. now rewrite app_nil_r.
  - destruct (Z.le_gt_cases retries i) as [Hd | Hlt].
    { rewrite retryLoop_done by lia.
      replace (Z.to_nat (retries - i - 1)) with 0%nat by lia.
      eexists _, _. split; [reflexivity |]. cbn. now rewrite app_nil_r. }
    destruct (Do_always_fails cb r w) as (e & cb' & r' & w1 & HDo & Hs).
    rewrite (retryLoop_failure_step _ _ _ _ _ _ _ _ _ _ _ _ Hlt HDo).
    destruct (Z.ltb_spec i (retries - 1)) as [Hmore | Hlast].
    + destruct (IH (i + 1) cb' r' (Some e)
                  (afterSleep (wrap64 ((i + 1) * Second)) w1))
        as (o & w' & HR & HS); [lia |].
      exists o, w'. split; [exact HR |]. rewrite HS.
      unfold afterSleep. cbn [trace]. rewrite sleepsOf_app, Hs. cbn [sleepsOf].
      replace (Z.to_nat (retries - i - 1))
        with (Datatypes.S (Z.to_nat (retries - (i + 1) - 1))) by lia.
      cbn [seq map]. rewrite <- List.seq_shift, List.map_map.
      rewrite <- app_assoc. cbn [app]. f_equal. f_equal.
      * f_equal. lia.
      * apply List.map_ext. intros k. f_equal. lia.
    + destruct (IH (i + 1) cb' r' (Some e) w1) as (o & w' & HR & HS); [lia |].
      exists o, w'. split; [exact HR |]. rewrite HS, Hs.
      replace (Z.to_nat (retries - (i + 1) - 1)) with 0%nat by lia.
      replace (Z.to_nat (retries - i - 1)) with 0%nat by lia.
      reflexivity.
Qed.

End Backoff.

(** X18. The backoff schedule. When every attempt fails (rejections by the
    open breaker included), a run sleeps after each attempt but the last:
    one second after the first, two after the second, and so on, so
    [retries - 1] sleeps in all, and none when there is a single attempt.
    (The retry count is taken small enough for the durations not to wrap.) *)
Theorem backoff_is_linear (api : API) (env : Env) (flags : Flags.t)
    (cfg : ProviderConfig) (prompt : string) (w : World) :
  (forall ctx c p mt w0, exists text e w1,
     api ctx c p mt w0 = (Ret (text, Some e), w1) /\
     sleepsOf (trace w1) = sleepsOf (trace w0)) ->
  Flags.retries flags <= 9223372036 ->
  exists run w',
    mainWith api env flags cfg prompt w = (Ret run, w') /\
    sleepsOf (trace w')
    = sleepsOf (trace w)
      ++ map (fun k => (Z.of_nat k + 1) * Second)
           (seq 0 (Z.to_nat (Flags.retries flags - 1))).
Proof.
  intros Hapi Hmax. rewrite mainWith_unfold.
  destruct (retryLoop_backoff
              (mainAttempt api flags cfg prompt w) (Flags.retries flags))
    with (fuel := Z.to_nat (Flags.retries flags)) (i := 0)
         (cb := NewCircuitBreaker)
         (r := startResponse env flags prompt (clock w))
         (lastErr := @None string) (w := w)
    as ([[cb r] le] & w1 & HR & HS).
  - intros r w0. unfold mainAttempt, attempt, bind, ret.
    destruct (Hapi (mainContext flags w) cfg
                (buildPrompt (loaded flags w) prompt)
                (Flags.maxTokens flags) w0) as (text & e & w1 & Ha & Hs).
    rewrite Ha. eauto.
  - lia.
  - rewrite HR, finish_unfold. cbn zeta.
    assert (Hplain :
              map (fun k => wrap64 ((0 + Z.of_nat k + 1) * Second))
                (seq 0 (Z.to_nat (Flags.retries flags - 0 - 1)))
              = map (fun k => (Z.of_nat k + 1) * Second)
                  (seq 0 (Z.to_nat (Flags.retries flags - 1)))).
    { rewrite Z.sub_0_r. apply List.map_ext_in.
      intros k Hk. apply List.in_seq in Hk.
      unfold wrap64, Second. rewrite Z.mod_small; lia. }
    rewrite Hplain in HS.
    destruct (_ && _); eexists _, _; (split; [reflexivity |]);
      rewrite ?afterSave_trace; exact HS.
Qed.

Lemma backoff_is_linear_witness :
  Flags.retries (someFlags EmptyString 4) <= 9223372036 /\
  exists run w',
    mainWith (scriptedAPI alwaysBoom) offlineEnv (someFlags EmptyString 4)
      (someConfig "anthropic") "hello" someWorld = (Ret run, w') /\
    sleepsOf (trace w') = [1 * Second; 2 * Second; 3 * Second].
Proof.
  split; [discriminate |].
  apply (backoff_is_linear (scriptedAPI alwaysBoom) offlineEnv
           (someFlags EmptyString 4) (someConfig "anthropic") "hello"
           someWorld); [| discriminate].
  intros ctx c p mt w0. unfold scriptedAPI, scripted, alwaysBoom.
  eexists _, _, _. split; [reflexivity |].
  cbn [trace]. rewrite sleepsOf_app. cbn. now rewrite app_nil_r.
Defined.

(** ** The outcome of a run *)

Section Outcome.

Variables (api : API) (env : Env) (flags : Flags.t) (cfg : ProviderConfig)
  (prompt : string).

Lemma retryLoop_fields (ctx : Context) (p : string) (mt : Z) (retries : Z)
    (fuel : nat) :
  forall i cb r lastErr w cb' r' lastErr' w',
    retryLoop fuel (attempt api ctx cfg p mt) retries i cb r lastErr w
    = (Ret (cb', r', lastErr'), w') ->
    sameButResponse r r'.
Proof.
  induction fuel as [|fuel IH]; intros i cb r lastErr w cb' r' lastErr' w'.
  - cbn [retryLoop]. destruct (i <? retries);
      intros [= <- <- <- <-]; now repeat split.
  - destruct (Z.le_gt_cases retries i) as [Hd | Hlt].
    { rewrite retryLoop_done by lia. intros [= <- <- <- <-].
      now repeat split. }
    assert (HDo : forall e cb1 r1 w1,
               Do cb (attempt api ctx cfg p mt) r w = (Ret (e, cb1, r1), w1) ->
               sameButResponse r r1).
    { intros e cb1 r1 w1. rewrite Do_unfold. cbn zeta.
      destruct (threshold _ <=? failures _);
        [intros [= <- <- <- <-]; now repeat split |].
      unfold invoke, attempt, bind, Now, ret.
      destruct (api ctx cfg p mt w) as [[[text [e0 |]] | msg] w0];
        [| | discriminate]; intros [= <- <- <- <-]; now repeat split. }
    destruct (Do cb (attempt api ctx cfg p mt) r w)
      as [[[[[e |] cb1] r1] | msg] w1] eqn:E.
    + rewrite (retryLoop_failure_step _ _ _ _ _ _ _ _ _ _ _ _ Hlt E).
      intros HR. apply IH in HR. specialize (HDo _ _ _ _ eq_refl).
      unfold sameButResponse in *. intuition congruence.
    + rewrite (retryLoop_success_step _ _ _ _ _ _ _ _ _ _ _ Hlt E).
      intros [= <- <- <- <-]. exact (HDo _ _ _ _ eq_refl).
    + rewrite (retryLoop_panic_step _ _ _ _ _ _ _ _ _ _ Hlt E).
      discriminate.
Qed.

(** X19. What a run that returns reports, whatever the operation did: the
    exit status is 0 when the error text is empty and 1 otherwise. With
    [-j] the record, and nothing else, is written to standard output and
    nothing is logged, not even on failure. Without [-j] a success prints
    the response text and a line feed, and a failure prints nothing and
    logs the error text unless [-q] is given. *)
Theorem exit_status_and_output (w w' : World) (run : Run) :
  mainWith api env flags cfg prompt w = (Ret run, w') ->
  let failed := negb (isEmpty (Response.Error (resp run))) in
  exitCode run = (if failed then 1 else 0) /\
  stdout run
  = (if Flags.jsonOut flags then [Encoded (resp run)]
     else if failed then []
          else [Printed (Response.Response (resp run) +:+ LF)]) /\
  stderr run
  = (if Flags.jsonOut flags || negb failed || Flags.quiet flags then []
     else [LogError (Getpid env) (Response.Error (resp run))]).
Proof.
  rewrite mainWith_unfold.
  destruct (retryLoop _ _ _ _ _ _ _ w) as [[[[cb r] e] | msg] w1];
    [| discriminate].
  rewrite finish_unfold. cbn zeta. intros [= <- _].
  cbn [resp exitCode stdout stderr]. unfold output.
  destruct (Flags.jsonOut flags);
    destruct (isEmpty (Response.Error _));
    destruct (Flags.quiet flags); repeat split.
Qed.

(** X20. The record of a run that returns echoes the raw prompt, not the
    flattened context; its model is that of [-m], its process id that of
    the process, its time stamp the Unix time at the start, and its duration
    the whole time of the run (attempts and sleeps) in milliseconds, rounded
    towards zero. When the run exits with 0 and has a session id, the
    session it leaves is the loaded history with the raw prompt and the
    response text as its last two turns, cut to its last 20 entries. *)
Theorem record_echoes_the_run (w w' : World) (run : Run) :
  mainWith api env flags cfg prompt w = (Ret run, w') ->
  Response.Prompt (resp run) = prompt /\
  Response.Model (resp run) = Flags.model flags /\
  Response.PID (resp run) = Getpid env /\
  Response.Timestamp (resp run) = Unix (clock w) /\
  Response.Duration (resp run)
  = Z.quot (Sub (clock w') (clock w)) Millisecond /\
  (exitCode run = 0 -> Flags.sessionID flags <> EmptyString ->
   History (session run)
   = drop (length (History (loaded flags w)) + 2 - 20)%nat
       (History (loaded flags w))
     ++ [mkMessage "user" prompt;
         mkMessage "assistant" (Response.Response (resp run))]).
Proof.
  rewrite mainWith_unfold.
  destruct (retryLoop _ _ _ _ _ _ _ w) as [[[[cb r] e] | msg] w1] eqn:E;
    [| discriminate].
  apply retryLoop_fields in E. destruct E as (Hm & Hp & Ht & Hpr & He & Hd).
  rewrite finish_unfold. cbn zeta. intros [= <- <-].
  cbn [resp session exitCode]. unfold reported.
  repeat split.
  - destruct e; cbn; now rewrite Hpr.
  - destruct e; cbn; now rewrite Hm.
  - destruct e; cbn; now rewrite Hp.
  - destruct e; cbn; now rewrite Ht.
  - cbn [Response.setDuration Response.Duration].
    destruct (_ && _); [now rewrite afterSave_clock | reflexivity].
  - intros Hexit Hid. unfold output in Hexit.
    apply isEmpty_false in Hid.
    destruct (isEmpty (Response.Error _)) eqn:Herr.
    + rewrite Hid. cbn [andb negb]. apply addMessage_twice.
    + destruct (Flags.jsonOut flags); discriminate Hexit.
Qed.

End Outcome.

(** ** Input *)

Lemma Join_empty (args : list string) (sep : string) :
  sep <> EmptyString ->
  (Join args sep = EmptyString <-> args = [] \/ args = [EmptyString]).
Proof.
  intros Hsep. split.
  - destruct args as [|a [|b rest]]; cbn [Join].
    + now left.
    + intros ->. now right.
    + intros E. apply (f_equal String.length) in E.
      rewrite !length_append in E. cbn [String.length] in E.
      destruct sep; [contradiction | cbn in E; lia].
  - intros [-> | ->]; reflexivity.
Qed.

(** X21. With arguments the prompt is the arguments joined by single
    spaces, as they are: standard input is not read (not even looked at),
    nothing is trimmed, nothing is written, and [getInput] returns no
    error. The prompt is empty, which is the case [main] rejects with
    [No input], only for a single empty argument. *)
Theorem arguments_are_the_prompt (host : Host) (args : list string)
    (stdin : Stdin) :
  args <> [] ->
  getInput host args stdin = Ret (Join args " ", None, []) /\
  (Join args " " = EmptyString <-> args = [EmptyString]).
Proof.
  intros Hargs. unfold getInput.
  destruct args as [|a rest]; [contradiction |].
  cbn [length Nat.ltb Nat.leb]. split; [reflexivity |].
  rewrite Join_empty by discriminate. split.
  - now intros [H | H].
  - now right.
Qed.

(** ** The properties of part III on the inputs of the examples *)

Lemma loadConfig_resolves_key_witness :
  ReadFile someHost (configPath "claude4") = Some claude4ConfigText /\
  UnmarshalConfig someHost claude4ConfigText = inl claude4Decoded /\
  loadConfig someHost "claude4" = inl (setAPIKey claude4Decoded "secret").
Proof.
  assert (H1 : ReadFile someHost (configPath "claude4")
               = Some claude4ConfigText) by reflexivity.
  assert (H2 : UnmarshalConfig someHost claude4ConfigText
               = inl claude4Decoded) by (vm_compute; reflexivity).
  split; [exact H1 |]. split; [exact H2 |].
  exact (proj1 (loadConfig_resolves_key someHost "claude4" claude4ConfigText
                  claude4Decoded H1 H2)
           "ANTHROPIC_API_KEY" eq_refl).
Defined.

Lemma loadConfig_ok_has_key_witness :
  loadConfig someHost "claude4" = inl (setAPIKey claude4Decoded "secret") /\
  APIKey (setAPIKey claude4Decoded "secret") <> EmptyString.
Proof.
  assert (H : loadConfig someHost "claude4"
              = inl (setAPIKey claude4Decoded "secret"))
    by (vm_compute; reflexivity).
  split; [exact H |].
  exact (proj1 (loadConfig_ok_has_key someHost "claude4" _ H)).
Defined.

Lemma sessionEntry_of_sessionPath_witness :
  (lacks "-"%char "claude4" /\ lacks "/"%char "claude4"
   /\ lacks "/"%char "projekt") /\
  sessionEntry (sessionPath "projekt" "claude4") = Some ("projekt", "claude4") /\
  In ("  -s projekt (model: claude4)" +:+ LF) (showHelp someHost).
Proof.
  assert (H1 : lacks "-"%char "claude4") by (cbn; repeat split; discriminate).
  assert (H2 : lacks "/"%char "claude4") by (cbn; repeat split; discriminate).
  assert (H3 : lacks "/"%char "projekt") by (cbn; repeat split; discriminate).
  split; [now repeat split |].
  destruct (sessionEntry_of_sessionPath "projekt" "claude4" H1 H2 H3)
    as [He Hh].
  split; [exact He |]. apply (Hh someHost). now left.
Defined.

Lemma dashed_model_is_misattributed_witness :
  sessionEntry (sessionPath "x" "gpt-4") = Some ("4-x", "gpt") /\
  sessionPath "4-x" "gpt" = sessionPath "x" "gpt-4".
Proof.
  apply (dashed_model_is_misattributed "gpt" "4" "x");
    cbn; repeat split; discriminate.
Defined.

Lemma sessionPath_injective_witness :
  (lacks "-"%char "claude4" /\ lacks "-"%char "claude4") /\
  sessionPath "s" "claude4" = sessionPath "s" "claude4" /\
  "s" = "s" /\ "claude4" = "claude4".
Proof.
  assert (H : lacks "-"%char "claude4") by (cbn; repeat split; discriminate).
  split; [now split |]. split; [reflexivity |].
  exact (sessionPath_injective "s" "claude4" "s" "claude4" H H eq_refl).
Defined.


Lemma first_element_must_be_object_witness :
  extractResponse offlineEnv (someConfig "anthropic")
    {[ "content" := JArray [JString "hello"] ]}
  = Panic "interface conversion: interface {} is string, not map[string]interface {}".
Proof.
  apply (first_element_must_be_object offlineEnv (someConfig "anthropic")
           {[ "content" := JArray [JString "hello"] ]} (JString "hello") []).
  - intros errMsg. vm_compute. discriminate.
  - vm_compute. reflexivity.
  - intros members. discriminate.
Defined.

Lemma Do_keeps_breaker_in_bounds_witness :
  Do NewCircuitBreaker failingOp tt someWorld
  = (Ret (Some "boom",
          {| failures := 1; lastFail := clock failedOnce; threshold := 3;
             timeout := 5 * Minute |}, tt), failedOnce) /\
  threshold {| failures := 1; lastFail := clock failedOnce; threshold := 3;
               timeout := 5 * Minute |} = threshold NewCircuitBreaker.
Proof.
  assert (H : Do NewCircuitBreaker failingOp tt someWorld
              = (Ret (Some "boom",
                      {| failures := 1; lastFail := clock failedOnce;
                         threshold := 3; timeout := 5 * Minute |}, tt),
                 failedOnce)) by (vm_compute; reflexivity).
  split; [exact H |].
  refine (proj1 (Do_keeps_breaker_in_bounds _ _ _ _ _ _ _ _ _ _ H));
    vm_compute; intuition discriminate.
Defined.

Lemma panic_ends_the_run_witness :
  0 < Flags.retries (someFlags "s" 3) /\
  main panickyEnv (someFlags "s" 3) (someConfig "anthropic") "hello" someWorld
  = (Panic "interface conversion: interface {} is string, not map[string]interface {}",
     snd (callAPI panickyEnv (mainContext (someFlags "s" 3) someWorld)
            (someConfig "anthropic")
            (buildPrompt (loaded (someFlags "s" 3) someWorld) "hello")
            1024 someWorld)).
Proof.
  split; [reflexivity |].
  apply (panic_ends_the_run (callAPI panickyEnv) panickyEnv (someFlags "s" 3)
           (someConfig "anthropic") "hello"); [reflexivity |].
  vm_compute. reflexivity.
Defined.

Lemma exit_status_and_output_witness :
  exists run w',
    main flakyEnv (someFlags "s" 3) (someConfig "anthropic") "hi" someWorld
    = (Ret run, w') /\
    exitCode run = 1 /\
    stdout run = [] /\
    stderr run = [LogError 4711 "connection refused"].
Proof.
  destruct (main flakyEnv (someFlags "s" 3) (someConfig "anthropic") "hi"
              someWorld) as [[run | msg] w'] eqn:E;
    [| exfalso; vm_compute in E; discriminate E].
  exists run, w'. split; [reflexivity |].
  pose proof (exit_status_and_output (callAPI flakyEnv) flakyEnv
                (someFlags "s" 3) (someConfig "anthropic") "hi"
                someWorld w' run E) as T.
  assert (Herr : Response.Error (resp run) = "connection refused").
  { vm_compute in E. now injection E as <- _. }
  cbn zeta in T. rewrite Herr in T. exact T.
Defined.

Lemma record_echoes_the_run_witness :
  exists run w',
    main (answeringEnv (jsonText "{'content':[{'text':'hello'}]}") Second)
      (someFlags "s" 3) (someConfig "anthropic") "hi" someWorld
    = (Ret run, w') /\
    Response.Prompt (resp run) = "hi" /\
    Response.Model (resp run) = "claude4" /\
    Response.PID (resp run) = 4711.
Proof.
  destruct (main (answeringEnv (jsonText "{'content':[{'text':'hello'}]}")
                    Second)
              (someFlags "s" 3) (someConfig "anthropic") "hi" someWorld)
    as [[run | msg] w'] eqn:E;
    [| exfalso; vm_compute in E; discriminate E].
  exists run, w'. split; [reflexivity |].
  pose proof (record_echoes_the_run
                (callAPI (answeringEnv
                            (jsonText "{'content':[{'text':'hello'}]}")
                            Second))
                _ (someFlags "s" 3) (someConfig "anthropic") "hi"
                someWorld w' run E) as (Hp & Hm & Hpid & _).
  now repeat split.
Defined.

Lemma arguments_are_the_prompt_witness :
  ["hello"; "world"] <> [] /\
  getInput someHost ["hello"; "world"] NoStat = Ret ("hello world", None, []).
Proof.
  split; [discriminate |].
  apply (arguments_are_the_prompt someHost ["hello"; "world"] NoStat).
  discriminate.
Defined.

(** ** The whole program *)

Lemma loadConfig_key_not_empty (host : Host) (model : string)
    (cfg : ProviderConfig) :
  loadConfig host model = inl cfg -> APIKey cfg <> EmptyString.
Proof.
  unfold loadConfig.
  destruct (ReadFile host _) as [data |]; [| discriminate].
  destruct (UnmarshalConfig host data) as [cfg0 | e]; [| discriminate].
  destruct (HasPrefix (APIKey cfg0) "${" && HasSuffix (APIKey cfg0) "}");
    destruct (isEmpty (APIKey _)) eqn:He; try discriminate;
    intros [= <-]; now apply isEmpty_false.
Qed.

(** X22. The part of [main] that calls the provider runs only on validated
    input: when the program gets that far, help was not asked for, the
    configuration was loaded and has an API key that is not empty, and the
    prompt is not empty. When it prints the help instead, or refuses with
    [Config: ...] or [No input], the world is as it was: nothing was sent
    and no file was written. *)
Theorem program_runs_on_validated_input (host : Host) (env : Env)
    (flags : Flags.t) (help : bool) (nflag : nat) (args : list string)
    (stdin : Stdin) (w : World) :
  match program host env flags help nflag args stdin w with
  | (Ret (Ran prompted run), w') =>
      help = false /\
      exists cfg prompt,
        loadConfig host (Flags.model flags) = inl cfg /\
        APIKey cfg <> EmptyString /\
        prompt <> EmptyString /\
        getInput host args stdin = Ret (prompt, None, prompted) /\
        main env flags cfg prompt w = (Ret run, w')
  | (Ret (Helped out), w') => w' = w /\ out = showHelp host
  | (Ret (Refused _ (LogError pid _)), w') => w' = w /\ pid = Getpid env
  | (Panic _, _) => True
  end.
Proof.
  unfold program.
  destruct (help || _) eqn:Hh; [now split |].
  apply orb_false_iff in Hh as [Hhelp _].
  destruct (loadConfig host (Flags.model flags)) as [cfg | e] eqn:Hcfg;
    [| now split].
  destruct (getInput host args stdin) as [[[prompt [e |]] prompted] | msg]
    eqn:Hin; [now split | | exact I].
  destruct (isEmpty prompt) eqn:Hp; [now split |].
  unfold bind, ret.
  destruct (main env flags cfg prompt w) as [[run | msg] w'] eqn:Hmain;
    [| exact I].
  split; [exact Hhelp |]. exists cfg, prompt.
  repeat split; try assumption.
  - now apply (loadConfig_key_not_empty host (Flags.model flags)).
  - now apply isEmpty_false.
Qed.
